(** * data_service.py: the Trading Strategy data service, embedded in Rocq

    The Python class [DataService] issues HTTP GET requests and reshapes the
    answers into pandas tables.  This file embeds its four methods,
    [get_chain_data], [get_exchange_data], [get_pairs_data] and
    [get_ohlcv_candles], together with the part of the Python object model
    they rely on (values decoded from JSON, subscripting, insertion-ordered
    dictionaries, exceptions), and proves the properties the specification
    states about them.

    The three libraries the module imports are not part of the repository:
    - [requests] is an interface ([Network]) that answers a request with a
      response or raises;
    - [jsonlines.Reader] is modelled by what it meets at each line of the
      body ([line], [reader_next]);
    - [pandas] is modelled by tables that hold the labels and columns they
      were built from, each column stored under the dtype pandas infers for
      it ([DataFrame], [pd_DataFrame]); the conversion of one timestamp, the
      inference of a dtype and the cast of a value to a dtype are an
      interface ([Pandas]).

    The interpreter's limit on the digits of an [int] that is turned into a
    string is an interface too ([Interpreter]). *)

From Stdlib Require Import List String Ascii ZArith Bool Lia Permutation.
From Stdlib Require Import DecimalString SpecFloat.
From Stdlib Require DecimalPos DecimalZ.
Import ListNotations.

Local Open Scope Z_scope.
Local Open Scope list_scope.

(** ** Python values *)

#[local] Set Warnings "-register-all".

(** What the JSON decoder produces: [None], [bool], [int], [float], [str],
    [list] and [dict].  A decoded object keeps its keys in insertion order
    and holds each key once; it is kept as an association list. *)
Inductive pyval : Type :=
| PNone
| PBool (b : bool)
| PInt (z : Z)
| PFloat (f : spec_float)
| PStr (s : string)
| PList (l : list pyval)
| PDict (d : list (string * pyval)).

(** The exceptions that can leave the two methods. *)
Inductive exn : Type :=
| KeyError (key : string)
| TypeError (what : string)
| ValueError (what : string)
| InvalidLineError
| RequestException (what : string)
| JSONDecodeError
| OutOfBoundsDatetime.

(** ** Fallible computations *)

Definition result (A : Type) : Type := (exn + A)%type.

Definition ret {A} (a : A) : result A := inr a.
Definition raise {A} (e : exn) : result A := inl e.

Definition bind {A B} (c : result A) (k : A -> result B) : result B :=
  match c with
  | inl e => inl e
  | inr a => k a
  end.

Declare Scope py_scope.
Delimit Scope py_scope with py.
Notation "x <- c ;; k" := (bind c (fun x => k))
  (at level 61, c at next level, right associativity) : py_scope.
Notation "' p <- c ;; k" := (bind c (fun x => let p := x in k))
  (at level 61, p pattern, c at next level, right associativity) : py_scope.
Local Open Scope py_scope.

(** A list comprehension [[f x for x in l]]: the elements are computed from
    left to right and the first exception ends the comprehension. *)
Fixpoint comprehension {A B} (f : A -> result B) (l : list A) : result (list B) :=
  match l with
  | [] => ret []
  | x :: l' =>
      y <- f x ;;
      ys <- comprehension f l' ;;
      ret (y :: ys)
  end.

(** ** Subscripting and iteration *)

Fixpoint assoc (k : string) (d : list (string * pyval)) : option pyval :=
  match d with
  | [] => None
  | (k', v) :: d' => if String.eqb k' k then Some v else assoc k d'
  end.

(** [obj[key]] for a string [key]: only a dict can be subscripted with a
    string; a missing key is a [KeyError]. *)
Definition getitem (obj : pyval) (key : string) : result pyval :=
  match obj with
  | PDict d =>
      match assoc key d with
      | Some v => ret v
      | None => raise (KeyError key)
      end
  | PList _ => raise (TypeError "list indices must be integers or slices, not str")
  | PStr _ => raise (TypeError "string indices must be integers")
  | _ => raise (TypeError "object is not subscriptable")
  end.

Fixpoint chars (s : string) : list pyval :=
  match s with
  | EmptyString => []
  | String c s' => PStr (String c EmptyString) :: chars s'
  end.

(** [for x in obj]: a list yields its elements, a dict its keys, a string
    its characters; the other decoded values are not iterable. *)
Definition py_iter (obj : pyval) : result (list pyval) :=
  match obj with
  | PList l => ret l
  | PDict d => ret (map (fun kv => PStr (fst kv)) d)
  | PStr s => ret (chars s)
  | _ => raise (TypeError "object is not iterable")
  end.

(** ** Dictionary keys *)

(** Lists and dicts are unhashable. *)
Definition hashable (v : pyval) : bool :=
  match v with
  | PList _ | PDict _ => false
  | _ => true
  end.

Definition check_hashable (v : pyval) : result unit :=
  if hashable v then ret tt else raise (TypeError "unhashable type").

Inductive number : Type :=
| NInt (z : Z)
| NFloat (f : spec_float).

(** [bool] is a subclass of [int]: [True == 1] and [False == 0]. *)
Definition as_number (v : pyval) : option number :=
  match v with
  | PBool b => Some (NInt (if b then 1 else 0))
  | PInt z => Some (NInt z)
  | PFloat f => Some (NFloat f)
  | _ => None
  end.

(** Python compares an [int] with a [float] exactly.  The finite float
    [S754_finite s m e] is [(-1)^s * m * 2^e]. *)
Definition float_eq_int (f : spec_float) (z : Z) : bool :=
  match f with
  | S754_zero _ => z =? 0
  | S754_finite s m e =>
      let v := if s then Z.neg m else Z.pos m in
      match e with
      | Z.neg k => z * 2 ^ Z.pos k =? v
      | _ => z =? v * 2 ^ e
      end
  | _ => false
  end.

(** Key comparison of two floats.  The decoder of the standard [json]
    module, which [jsonlines] falls back on, returns one shared object for
    every [NaN], and a dict looks a key up by identity before it compares,
    so [NaN] finds [NaN]. *)
Definition float_eqb (f g : spec_float) : bool :=
  match f, g with
  | S754_nan, S754_nan => true
  | S754_zero _, S754_zero _ => true
  | S754_infinity s, S754_infinity t => Bool.eqb s t
  | S754_finite s m e, S754_finite t n d =>
      let lo := Z.min e d in
      Bool.eqb s t && (Z.pos m * 2 ^ (e - lo) =? Z.pos n * 2 ^ (d - lo))
  | _, _ => false
  end.

Definition number_eqb (a b : number) : bool :=
  match a, b with
  | NInt x, NInt y => x =? y
  | NInt x, NFloat f | NFloat f, NInt x => float_eq_int f x
  | NFloat f, NFloat g => float_eqb f g
  end.

(** When a dict takes [b] for the key [a]: equal numbers (across [bool],
    [int] and [float]), equal strings, [None] with [None]. *)
Definition key_eqb (a b : pyval) : bool :=
  match as_number a, as_number b with
  | Some x, Some y => number_eqb x y
  | None, None =>
      match a, b with
      | PNone, PNone => true
      | PStr s, PStr t => String.eqb s t
      | _, _ => false
      end
  | _, _ => false
  end.

(** ** Insertion-ordered dictionaries *)

(** A Python [dict] keyed by decoded values: the entries in insertion
    order. *)
Definition pydict (V : Type) : Type := list (pyval * V).

Fixpoint dict_get {V} (d : pydict V) (k : pyval) : option V :=
  match d with
  | [] => None
  | (k', v) :: d' => if key_eqb k' k then Some v else dict_get d' k
  end.

(** [d[k] = v]: an entry whose key compares equal keeps its place and its
    key object and takes the new value; a new key goes to the end. *)
Fixpoint dict_set {V} (d : pydict V) (k : pyval) (v : V) : pydict V :=
  match d with
  | [] => [(k, v)]
  | (k', v') :: d' =>
      if key_eqb k' k then (k', v) :: d' else (k', v') :: dict_set d' k v
  end.

(** [d[k]] on a [defaultdict(list)]: a missing key is inserted with a new
    empty list, which is returned. *)
Definition defaultdict_getitem (d : pydict (list pyval)) (k : pyval)
  : result (pydict (list pyval) * list pyval) :=
  _ <- check_hashable k ;;
  match dict_get d k with
  | Some l => ret (d, l)
  | None => ret (dict_set d k [], [])
  end.

(** [d[k].append(item)]: the list returned by the lookup is the one the
    dict holds, so the append shows in the dict. *)
Definition defaultdict_append (d : pydict (list pyval)) (k item : pyval)
  : result (pydict (list pyval)) :=
  '(d', l) <- defaultdict_getitem d k ;;
  ret (dict_set d' k (l ++ [item])).

(** ** The libraries *)

(** What [jsonlines.Reader] meets at one line of the body: a JSON text it
    decodes, a text it cannot decode, or a failure of the transport while
    the body is still being streamed. *)
Inductive line : Type :=
| Json (v : pyval)
| Malformed
| Aborted (e : exn).

(** One step of the iteration over the reader.  With the reader's defaults
    ([allow_none=False], [skip_invalid=False]) a line that does not decode,
    or that decodes to [null], raises [InvalidLineError]. *)
Definition reader_next (ln : line) : result pyval :=
  match ln with
  | Json PNone => raise InvalidLineError
  | Json v => ret v
  | Malformed => raise InvalidLineError
  | Aborted e => raise e
  end.

Record Request : Type := GET { url : string; stream : bool }.

(** A response: its status, what [Reader(response.raw)] meets line by line,
    and what [response.json()] returns. *)
Record Response : Type := {
  status_code : Z;
  raw : list line;
  json : result pyval
}.

(** [requests.get]: the answer to a request, or the exception raised when
    the request cannot be completed. *)
Class Network : Type := {
  requests_get_outcome : Request -> result Response
}.

(** What the module uses of pandas.

    [to_datetime_s] is [pd.to_datetime(_, unit="s")] on one value: a point
    in time, or the exception pandas raises for a value it cannot convert.
    The conversion of a list is taken element by element, so the index it
    returns has the length and the order of the list.

    A column built from a list of scalars is stored under one [dtype], which
    pandas infers from the values of the whole list ([column_dtype]); so is
    an index built from a list of labels ([index_dtype]).  [cast d v] is the
    value [v] as it is stored under the dtype [d]: an [int] beside a [float]
    is stored as the nearest [float], [None] beside numbers as [NaN].  The
    constructor is taken to accept every list of scalars. *)
Class Pandas : Type := {
  datetime : Type;
  to_datetime_s : pyval -> result datetime;
  dtype : Type;
  column_dtype : list pyval -> dtype;
  index_dtype : list pyval -> dtype;
  cast : dtype -> pyval -> pyval
}.

Definition to_datetime `{Pandas} (ts : list pyval) : result (list datetime) :=
  comprehension to_datetime_s ts.

(** A table: the row labels and the named columns, in the order given to
    the constructor, each cell as it is stored.  What pandas makes of a
    cell or a label that is itself a list is not modelled (the properties
    below are about scalars and points in time). *)
Record DataFrame (I : Type) : Type := {
  df_index : list I;
  df_data : list (string * list pyval)
}.
Arguments df_index {I} _.
Arguments df_data {I} _.

Definition is_str (v : pyval) : bool :=
  match v with
  | PStr _ => true
  | _ => false
  end.

(** An integer in the range of a signed 64-bit integer. *)
Definition is_int64 (v : pyval) : bool :=
  match v with
  | PInt z => (- 2 ^ 63 <=? z) && (z <? 2 ^ 63)
  | _ => false
  end.

Definition is_float (v : pyval) : bool :=
  match v with
  | PFloat _ => true
  | _ => false
  end.

(** A list that holds only strings, only 64-bit integers or only floats:
    pandas stores its values as they are (as objects, as [int64], as
    [float64]). *)
Definition homogeneous (values : list pyval) : bool :=
  forallb is_str values || forallb is_int64 values || forallb is_float values.

(** A list of values as the column pandas makes of it: the values of a
    homogeneous list as they are, otherwise every value cast to the dtype
    inferred for the list. *)
Definition as_column `{Pandas} (values : list pyval) : list pyval :=
  if homogeneous values then values
  else map (cast (column_dtype values)) values.

(** A list of labels as the index pandas makes of it. *)
Definition pd_Index `{Pandas} (labels : list pyval) : list pyval :=
  if homogeneous labels then labels
  else map (cast (index_dtype labels)) labels.

(** [pd.DataFrame(data=..., index=...)] from a dict of lists and an index:
    every column must have the length of the index, and is stored under the
    dtype inferred for it. *)
Definition pd_DataFrame `{Pandas} {I} (data : list (string * list pyval)) (index : list I)
  : result (DataFrame I) :=
  if forallb (fun col => Nat.eqb (List.length (snd col)) (List.length index)) data
  then ret {| df_index := index;
              df_data := map (fun col => (fst col, as_column (snd col))) data |}
  else raise (ValueError "Length of values does not match length of index").

(** ** Programs that talk to the network *)

(** A computation that issues requests: the requests issued, in order, and
    the outcome. *)
Definition io (A : Type) : Type := (list Request * result A)%type.

Definition io_bind {A B} (c : io A) (k : A -> io B) : io B :=
  match c with
  | (log, inl e) => (log, inl e)
  | (log, inr a) => let (log', r) := k a in (log ++ log', r)
  end.

Definition lift {A} (c : result A) : io A := ([], c).

Definition requests_issued {A} (c : io A) : list Request := fst c.
Definition outcome {A} (c : io A) : result A := snd c.

Notation "x <~ c ;; k" := (io_bind c (fun x => k))
  (at level 61, c at next level, right associativity) : py_scope.

Definition requests_get `{Network} (u : string) (streamed : bool) : io Response :=
  let rq := {| url := u; stream := streamed |} in
  ([rq], requests_get_outcome rq).

(** ** Rendering *)

(** The decimal digits of an integer, with a minus sign for a negative
    number. *)
Definition decimal (n : Z) : string := NilZero.string_of_int (Z.to_int n).

(** The interpreter's limit on the number of digits of an [int] that is
    turned into a string, [sys.get_int_max_str_digits()]: [4300] unless it
    was set otherwise, [0] for no limit (as in the interpreters that have no
    such limit), and never a positive number below [640]. *)
Class Interpreter : Type := {
  int_max_str_digits : Z;
  int_max_str_digits_ok :
    (int_max_str_digits =? 0) || (640 <=? int_max_str_digits) = true
}.

(** The number of decimal digits of an integer, its sign left out. *)
Definition digits (n : Z) : Z := Z.of_nat (String.length (decimal (Z.abs n))).

(** The integer has no more digits than the limit allows. *)
Definition within_limit `{Interpreter} (n : Z) : bool :=
  (int_max_str_digits =? 0) || (digits n <=? int_max_str_digits).

(** The exception raised for an integer with more digits than the limit. *)
Definition limit_exceeded `{Interpreter} : exn :=
  ValueError ("Exceeds the limit (" ++ decimal int_max_str_digits
              ++ " digits) for integer string conversion; "
              ++ "use sys.set_int_max_str_digits() to increase the limit").

(** [str(n)] for an [int], and [f"{n}"]: the decimal digits, or a
    [ValueError] for an integer with more digits than the limit. *)
Definition str_int `{Interpreter} (n : Z) : result string :=
  if within_limit n then ret (decimal n) else raise limit_exceeded.

(** An element of [pair_ids : list[int|str]]. *)
Inductive int_or_str : Type :=
| IdInt (n : Z)
| IdStr (s : string).

Definition str `{Interpreter} (x : int_or_str) : result string :=
  match x with
  | IdInt n => str_int n
  | IdStr s => ret s
  end.

(** [sep.join(l)]. *)
Definition join (sep : string) (l : list string) : string := String.concat sep l.

(** ** class DataService *)

Record DataService : Type := { api_url : string }.

(** [__init__(self, api_url = "https://tradingstrategy.ai/api/")];
    [None] stands for an argument left to its default. *)
Definition DataService_init (api_url : option string) : DataService :=
  {| api_url := match api_url with
                | Some u => u
                | None => "https://tradingstrategy.ai/api/"%string
                end |}.

(** [get_chain_data]: [chains.json()] is evaluated for each of the three
    comprehensions. *)
Definition get_chain_data `{Network} `{Pandas} (self : DataService)
  : io (DataFrame pyval) :=
  chains <~ requests_get (api_url self ++ "chains")%string false ;;
  lift (
    js <- json chains ;;
    it <- py_iter js ;;
    chain_names <- comprehension (fun chain => getitem chain "chain_name") it ;;
    js <- json chains ;;
    it <- py_iter js ;;
    chain_slugs <- comprehension (fun chain => getitem chain "chain_slug") it ;;
    js <- json chains ;;
    it <- py_iter js ;;
    chain_id <- comprehension (fun chain => getitem chain "chain_id") it ;;
    pd_DataFrame [("name"%string, chain_names); ("slug"%string, chain_slugs)]
                 (pd_Index chain_id)).

(** [get_exchange_data(self, selected_chain, filter_zero_volume = "true")]:
    [exchanges.json()["exchanges"]] is evaluated for each of the three
    comprehensions. *)
Definition get_exchange_data `{Network} `{Pandas} (self : DataService)
  (selected_chain : string) (filter_zero_volume : option string)
  : io (DataFrame pyval) :=
  let filter_zero_volume :=
    match filter_zero_volume with Some f => f | None => "true"%string end in
  let api_extension :=
    ("exchanges?chain_slug=" ++ selected_chain
     ++ "&sort=usd_volume_30d&direction=desc&filter_zero_volume="
     ++ filter_zero_volume)%string in
  exchanges <~ requests_get (api_url self ++ api_extension)%string false ;;
  lift (
    js <- json exchanges ;;
    excs <- getitem js "exchanges" ;;
    it <- py_iter excs ;;
    exc_names <- comprehension (fun exc => getitem exc "exchange_slug") it ;;
    js <- json exchanges ;;
    excs <- getitem js "exchanges" ;;
    it <- py_iter excs ;;
    exc_vol <- comprehension (fun exc => getitem exc "usd_volume_30d") it ;;
    js <- json exchanges ;;
    excs <- getitem js "exchanges" ;;
    it <- py_iter excs ;;
    exc_id <- comprehension (fun exc => getitem exc "exchange_id") it ;;
    pd_DataFrame [("slug"%string, exc_names); ("volume"%string, exc_vol)]
                 (pd_Index exc_id)).

(** [get_pairs_data(self, exc_slugs, chain_slugs, n_pairs = 5,
    sort = "volume_30d", filter = "min_liquidity_1M")]: the f-string
    renders [n_pairs] before the request is made; the index [pair_id] is
    the first of the five comprehensions. *)
Definition get_pairs_data `{Network} `{Pandas} `{Interpreter} (self : DataService)
  (exc_slugs chain_slugs : list string) (n_pairs : option Z)
  (sort filter : option string) : io (DataFrame pyval) :=
  let n_pairs := match n_pairs with Some n => n | None => 5 end in
  let sort := match sort with Some s => s | None => "volume_30d"%string end in
  let filter := match filter with Some f => f | None => "min_liquidity_1M"%string end in
  let exc_slug_string := join "," exc_slugs in
  let chain_slug_string := join "," chain_slugs in
  api_extension <~ lift (
    page_size <- str_int n_pairs ;;
    ret ("pairs?exchange_slugs=" ++ exc_slug_string ++ "&chain_slugs=" ++ chain_slug_string
         ++ "&page=0&page_size=" ++ page_size ++ "&sort=" ++ sort
         ++ "&direction=desc&filter=" ++ filter
         ++ "&eligible_only=true&format=json")%string) ;;
  pairs <~ requests_get (api_url self ++ api_extension)%string false ;;
  lift (
    js <- json pairs ;;
    results <- getitem js "results" ;;
    it <- py_iter results ;;
    pair_id <- comprehension (fun pair => getitem pair "pair_id") it ;;
    js <- json pairs ;;
    results <- getitem js "results" ;;
    it <- py_iter results ;;
    pair_slug <- comprehension (fun pair => getitem pair "pair_slug") it ;;
    js <- json pairs ;;
    results <- getitem js "results" ;;
    it <- py_iter results ;;
    pair_exc <- comprehension (fun pair => getitem pair "exchange_slug") it ;;
    js <- json pairs ;;
    results <- getitem js "results" ;;
    it <- py_iter results ;;
    pair_vol <- comprehension (fun pair => getitem pair "usd_volume_24h") it ;;
    js <- json pairs ;;
    results <- getitem js "results" ;;
    it <- py_iter results ;;
    pair_tvl <- comprehension (fun pair => getitem pair "pair_tvl") it ;;
    pd_DataFrame [("pair_slug"%string, pair_slug); ("pair_exchange"%string, pair_exc);
                  ("usd_vol_24h"%string, pair_vol); ("pair_tvl"%string, pair_tvl)]
                 (pd_Index pair_id)).

(** The first loop of [get_ohlcv_candles]:
    [for item in reader: pair_id = item["p"]; candle_dict[pair_id].append(item)]. *)
Fixpoint group_items (reader : list line) (candle_dict : pydict (list pyval))
  : result (pydict (list pyval)) :=
  match reader with
  | [] => ret candle_dict
  | ln :: reader' =>
      item <- reader_next ln ;;
      pair_id <- getitem item "p" ;;
      candle_dict' <- defaultdict_append candle_dict pair_id item ;;
      group_items reader' candle_dict'
  end.

(** The body of the second loop: the six comprehensions over one group, the
    conversion of the timestamps and the table.  The [data] dict is built
    before [pd.to_datetime] is called. *)
Definition candle_frame `{Pandas} (value : list pyval) : result (DataFrame datetime) :=
  ts <- comprehension (fun val => getitem val "ts") value ;;
  open <- comprehension (fun val => getitem val "o") value ;;
  high <- comprehension (fun val => getitem val "h") value ;;
  low <- comprehension (fun val => getitem val "l") value ;;
  close <- comprehension (fun val => getitem val "c") value ;;
  volume <- comprehension (fun val => getitem val "v") value ;;
  index <- to_datetime ts ;;
  pd_DataFrame [("Open"%string, open); ("High"%string, high); ("Low"%string, low);
                ("Close"%string, close); ("Volume"%string, volume)] index.

(** The second loop:
    [for key, value in candle_dict.items(): ...; return_dict[key] = df]. *)
Fixpoint build_frames `{Pandas} (items : pydict (list pyval))
  (return_dict : pydict (DataFrame datetime)) : result (pydict (DataFrame datetime)) :=
  match items with
  | [] => ret return_dict
  | (key, value) :: items' =>
      df <- candle_frame value ;;
      build_frames items' (dict_set return_dict key df)
  end.

(** [get_ohlcv_candles(self, pair_ids, start_time, end_time,
    time_bucket="15m", max_bytes=250000000)]: [",".join(map(str, pair_ids))]
    renders the identifiers from left to right, then the f-string renders
    [max_bytes], and only then is the request made. *)
Definition get_ohlcv_candles `{Network} `{Pandas} `{Interpreter} (self : DataService)
  (pair_ids : list int_or_str) (start_time end_time : string)
  (time_bucket : option string) (max_bytes : option Z)
  : io (pydict (DataFrame datetime)) :=
  let time_bucket := match time_bucket with Some b => b | None => "15m"%string end in
  let max_bytes := match max_bytes with Some n => n | None => 250000000 end in
  pair_ids_string <~ lift (
    rendered <- comprehension str pair_ids ;;
    ret (join "," rendered)) ;;
  api_extension <~ lift (
    bytes <- str_int max_bytes ;;
    ret ("candles-jsonl?pair_ids=" ++ pair_ids_string ++ "&time_bucket=" ++ time_bucket
         ++ "&start=" ++ start_time ++ "&end=" ++ end_time
         ++ "&max_bytes=" ++ bytes)%string) ;;
  response <~ requests_get (api_url self ++ api_extension)%string true ;;
  lift (
    candle_dict <- group_items (raw response) [] ;;
    build_frames candle_dict []).

(** ** The vocabulary of the specification *)

(** A pair identifier is an integer or a string. *)
Definition is_pair_identifier (v : pyval) : bool :=
  match v with
  | PInt _ | PStr _ => true
  | _ => false
  end.

Definition is_int (v : pyval) : bool :=
  match v with
  | PInt _ => true
  | _ => false
  end.

Definition is_numeric (v : pyval) : bool :=
  match v with
  | PInt _ | PFloat _ => true
  | _ => false
  end.

(** The record one line stands for: its seven fields, and the point in time
    its timestamp converts to. *)
Record Candle `{Pandas} : Type := {
  pair_id : pyval;
  ts : pyval;
  time : datetime;
  open : pyval;
  high : pyval;
  low : pyval;
  close : pyval;
  volume : pyval
}.

Definition decode `{Pandas} (item : pyval) : result Candle :=
  p <- getitem item "p" ;;
  t <- getitem item "ts" ;;
  o <- getitem item "o" ;;
  h <- getitem item "h" ;;
  l <- getitem item "l" ;;
  c <- getitem item "c" ;;
  v <- getitem item "v" ;;
  at_ <- to_datetime_s t ;;
  ret {| pair_id := p; ts := t; time := at_; open := o; high := h;
         low := l; close := c; volume := v |}.

(** A valid candle line: an object with the seven fields, whose pair
    identifier is an integer or a string, whose timestamp is an integer
    number of seconds that converts to a point in time, and whose prices and
    volume are numbers. *)
Definition valid_candle `{Pandas} (item : pyval) : bool :=
  match decode item with
  | inr c =>
      is_pair_identifier (pair_id c) && is_int (ts c) && is_numeric (open c)
      && is_numeric (high c) && is_numeric (low c) && is_numeric (close c)
      && is_numeric (volume c)
  | inl _ => false
  end.

(** A valid candle line-stream: every line decodes to a valid candle. *)
Definition valid_stream `{Pandas} (lines : list line) (items : list pyval) : Prop :=
  lines = map Json items /\ forallb valid_candle items = true.

(** The value of the field [key] of a line that is an object. *)
Definition line_field (key : string) (item : pyval) : option pyval :=
  match item with
  | PDict d => assoc key d
  | _ => None
  end.

(** The line [item] stands for the record [c]: it is an object whose fields
    [p], [ts], [o], [h], [l], [c] and [v] are those of the record, and its
    timestamp converts to the time of the record. *)
Definition stands_for `{Pandas} (item : pyval) (c : Candle) : Prop :=
  line_field "p" item = Some (pair_id c)
  /\ line_field "ts" item = Some (ts c)
  /\ line_field "o" item = Some (open c)
  /\ line_field "h" item = Some (high c)
  /\ line_field "l" item = Some (low c)
  /\ line_field "c" item = Some (close c)
  /\ line_field "v" item = Some (volume c)
  /\ to_datetime_s (ts c) = inr (time c).

(** A valid candle record: the pair identifier is an integer or a string,
    the timestamp an integer number of seconds, the prices and the volume
    are numbers. *)
Definition valid_record `{Pandas} (c : Candle) : bool :=
  is_pair_identifier (pair_id c) && is_int (ts c) && is_numeric (open c)
  && is_numeric (high c) && is_numeric (low c) && is_numeric (close c)
  && is_numeric (volume c).

(** The body [lines] is a valid candle line-stream with the records [cs]:
    line by line, a JSON object that stands for a valid record. *)
Definition candle_stream `{Pandas} (lines : list line) (items : list pyval)
  (cs : list Candle) : Prop :=
  lines = map Json items /\ Forall2 stands_for items cs
  /\ forallb valid_record cs = true.

(** Two pair identifiers are the same integer or the same string. *)
Definition pair_eqb (a b : pyval) : bool :=
  match a, b with
  | PInt x, PInt y => Z.eqb x y
  | PStr s, PStr t => String.eqb s t
  | _, _ => false
  end.

(** The records of the pair [k], in the order of the stream. *)
Definition series_of `{Pandas} (k : pyval) (cs : list Candle) : list Candle :=
  filter (fun c => pair_eqb k (pair_id c)) cs.

(** The lines whose field [p] is the pair identifier [k], in the order of
    the stream. *)
Definition lines_of (k : pyval) (items : list pyval) : list pyval :=
  filter (fun item => match line_field "p" item with
                      | Some p => pair_eqb k p
                      | None => false
                      end) items.

(** The value [v] as it is stored in the column made of [values]: as it
    is when the values are all strings, all 64-bit integers or all floats,
    and otherwise cast to the dtype pandas infers for the column. *)
Definition stored `{Pandas} (values : list pyval) (v : pyval) : pyval :=
  if homogeneous values then v else cast (column_dtype values) v.

(** The label [v] as it is stored in the index made of [labels]. *)
Definition stored_label `{Pandas} (labels : list pyval) (v : pyval) : pyval :=
  if homogeneous labels then v else cast (index_dtype labels) v.

(** The row of the record [c] in the series built from the records [mine]:
    its time, and its five values as stored in the columns of the series. *)
Definition stored_row `{Pandas} (mine : list Candle) (c : Candle)
  : datetime * list pyval :=
  (time c, [stored (map open mine) (open c); stored (map high mine) (high c);
            stored (map low mine) (low c); stored (map close mine) (close c);
            stored (map volume mine) (volume c)]).

(** The record [c] belongs to the series kept under the key [k]. *)
Definition in_series `{Pandas} (k : pyval) (c : Candle) : bool := key_eqb k (pair_id c).

(** The line [item] carries the pair identifier [k]. *)
Definition shares_pair_id (k item : pyval) : bool :=
  match getitem item "p" with
  | inr p => key_eqb k p
  | inl _ => false
  end.

Fixpoint rows {I} (index : list I) (columns : list (list pyval)) : list (I * list pyval) :=
  match index with
  | [] => []
  | i :: index' => (i, map (hd PNone) columns) :: rows index' (map (@tl pyval) columns)
  end.

(** The rows of a table, from the top. *)
Definition df_rows {I} (df : DataFrame I) : list (I * list pyval) :=
  rows (df_index df) (map snd (df_data df)).

Fixpoint df_column (data : list (string * list pyval)) (name : string)
  : option (list pyval) :=
  match data with
  | [] => None
  | (n, col) :: data' => if String.eqb n name then Some col else df_column data' name
  end.

(** The cell of column [name] in row [n]. *)
Definition df_cell {I} (df : DataFrame I) (name : string) (n : nat) : option pyval :=
  match df_column (df_data df) name with
  | Some col => nth_error col n
  | None => None
  end.

(** Every record of a collection with the key it is kept under. *)
Definition entries {I} (out : pydict (DataFrame I)) : list (pyval * (I * list pyval)) :=
  flat_map (fun kdf => map (pair (fst kdf)) (df_rows (snd kdf))) out.

(** The call issues one request, and the server answers it with [r]. *)
Definition answered_by `{Network} {A} (call : io A) (r : Response) : Prop :=
  exists rq, requests_issued call = [rq] /\ requests_get_outcome rq = inr r.

(** The identifier can be rendered: it is a string, or an integer within
    the interpreter's limit. *)
Definition renders `{Interpreter} (x : int_or_str) : bool :=
  match x with
  | IdInt n => within_limit n
  | IdStr _ => true
  end.

(** The identifier as it is written in the URL: the digits of an integer,
    a string as it is. *)
Definition rendered (x : int_or_str) : string :=
  match x with
  | IdInt n => decimal n
  | IdStr s => s
  end.

(** The string has no comma. *)
Fixpoint no_comma (s : string) : bool :=
  match s with
  | EmptyString => true
  | String c s' => negb (Ascii.eqb c ",") && no_comma s'
  end.

(** The fields of a candle line that the method reads. *)
Definition candle_fields : list string := ["p"; "ts"; "o"; "h"; "l"; "c"; "v"]%string.

(** Two lines are objects that agree on the seven fields. *)
Definition agree_on_candle_fields (a b : pyval) : Prop :=
  match a, b with
  | PDict d1, PDict d2 => forall k, In k candle_fields -> assoc k d1 = assoc k d2
  | _, _ => False
  end.

(** Two outcomes are both the same exception, or both values related by
    [R]. *)
Definition result_rel {A} (R : A -> A -> Prop) (x y : result A) : Prop :=
  match x, y with
  | inr a, inr b => R a b
  | inl e1, inl e2 => e1 = e2
  | _, _ => False
  end.

(** Two states of [candle_dict] with the same keys in the same order, whose
    lists hold lines that agree on the seven fields. *)
Definition same_groups (cd1 cd2 : pydict (list pyval)) : Prop :=
  Forall2 (fun e1 e2 => fst e1 = fst e2
                        /\ Forall2 agree_on_candle_fields (snd e1) (snd e2)) cd1 cd2.

(** The value of a field of an object, [None] standing for a field that
    cannot be read. *)
Definition field (obj : pyval) (key : string) : pyval :=
  match getitem obj key with
  | inr v => v
  | inl _ => PNone
  end.

(** The elements of [objs] are objects whose field [key] holds, element by
    element, the scalars [values]. *)
Definition listed (key : string) (objs values : list pyval) : Prop :=
  Forall2 (fun obj v => line_field key obj = Some v /\ hashable v = true) objs values.

(** The keys of a stream in the order in which each is first seen, leaving
    out those already in [seen]. *)
Fixpoint first_seen_from (seen ps : list pyval) : list pyval :=
  match ps with
  | [] => []
  | p :: ps' =>
      if existsb (fun s => key_eqb s p) seen then first_seen_from seen ps'
      else p :: first_seen_from (seen ++ [p]) ps'
  end.

(** The table of a group of records: their times, and their values as
    stored in the five columns. *)
Definition frame_of `{Pandas} (cs : list Candle) : DataFrame datetime :=
  {| df_index := map time cs;
     df_data := [("Open", map (stored (map open cs)) (map open cs));
                 ("High", map (stored (map high cs)) (map high cs));
                 ("Low", map (stored (map low cs)) (map low cs));
                 ("Close", map (stored (map close cs)) (map close cs));
                 ("Volume", map (stored (map volume cs)) (map volume cs))]%string |}.

(** The collection the specification describes for the records [cs]: one
    series per pair identifier, in order of first occurrence, holding the
    records of that pair in stream order. *)
Definition collection `{Pandas} (cs : list Candle) : pydict (DataFrame datetime) :=
  map (fun k => (k, frame_of (filter (in_series k) cs)))
      (first_seen_from [] (map pair_id cs)).

(** The items of a stream, each with the record it decodes to; the pair
    identifier of every record is an integer or a string. *)
Definition Decoded `{Pandas} (ics : list (pyval * Candle)) : Prop :=
  Forall (fun ic => decode (fst ic) = inr (snd ic)
                    /\ is_pair_identifier (pair_id (snd ic)) = true) ics.

(** The items of [ics] whose record belongs to the series [k]. *)
Definition members `{Pandas} (k : pyval) (ics : list (pyval * Candle)) : list pyval :=
  map fst (filter (fun ic => in_series k (snd ic)) ics).

(** ** The vocabulary of the listing methods *)

Definition is_object (v : pyval) : bool :=
  match v with
  | PDict _ => true
  | _ => false
  end.

(** [obj[key]] can be read. *)
Definition has_key (key : string) (obj : pyval) : bool :=
  match getitem obj key with
  | inr _ => true
  | inl _ => false
  end.

(** The first of [keys] that some element of [objs] does not have. *)
Definition first_missing (keys : list string) (objs : list pyval) : option string :=
  find (fun k => negb (forallb (has_key k) objs)) keys.

(** The character [c] does not occur in [s]. *)
Fixpoint lacks_char (c : ascii) (s : string) : bool :=
  match s with
  | EmptyString => true
  | String a s' => negb (Ascii.eqb a c) && lacks_char c s'
  end.

(** A slug that can be told apart inside a query string: not empty, and
    free of the separators [,] and [&]. *)
Definition plain_slug (s : string) : bool :=
  negb (String.eqb s "") && lacks_char "," s && lacks_char "&" s.

(** No key of the list compares equal to a key that comes after it. *)
Fixpoint distinct_keys (ks : list pyval) : Prop :=
  match ks with
  | [] => True
  | k :: ks' => Forall (fun k2 => key_eqb k k2 = false) ks' /\ distinct_keys ks'
  end.

(** The rows found under the key [k] of an outcome; none when the key is
    absent. *)
Definition rows_under {I} (res : result (pydict (DataFrame I))) (k : pyval)
  : list (I * list pyval) :=
  match res with
  | inr out =>
      match dict_get out k with
      | Some df => df_rows df
      | None => []
      end
  | inl _ => []
  end.

(** What the first loop does with one line before it touches the
    dictionary: read it, take its [p], hash it. *)
Definition line_key (ln : line) : result pyval :=
  item <- reader_next ln ;;
  pair_id <- getitem item "p" ;;
  _ <- check_hashable pair_id ;;
  ret pair_id.

(** ** Instances used in the examples *)

(** Three dtypes: 64-bit integers, 64-bit floats, and Python objects kept
    as they are. *)
Inductive sample_dtype : Type := Int64 | Float64 | Object.

Definition is_none (v : pyval) : bool :=
  match v with
  | PNone => true
  | _ => false
  end.

(** The dtype of a list: 64-bit integers for a list of such integers;
    floats for a list of 64-bit integers, floats and [None]s that holds a
    number, and not only integers; objects for any other list. *)
Definition sample_infer (values : list pyval) : sample_dtype :=
  if forallb is_int64 values then Int64
  else if forallb (fun v => is_int64 v || is_float v || is_none v) values
          && existsb (fun v => is_int64 v || is_float v) values
       then Float64
       else Object.

(** Under [Float64] an integer becomes the nearest float and [None] becomes
    [NaN]. *)
Definition sample_cast (d : sample_dtype) (v : pyval) : pyval :=
  match d, v with
  | Float64, PInt z => PFloat (binary_normalize 53 1024 z 0 false)
  | Float64, PNone => PFloat S754_nan
  | _, _ => v
  end.

(** Points in time as nanoseconds since the epoch, in the range of a signed
    64-bit count; only [int] seconds are converted.  Columns and indexes
    are stored under one of the three dtypes above. *)
Definition pandas_ns : Pandas := {|
  datetime := Z;
  to_datetime_s := fun v =>
    match v with
    | PInt s =>
        if (Z.abs (s * 1000000000) <? 2 ^ 63) then ret (s * 1000000000)
        else raise OutOfBoundsDatetime
    | _ => raise (TypeError "not convertible to datetime")
    end;
  dtype := sample_dtype;
  column_dtype := sample_infer;
  index_dtype := sample_infer;
  cast := sample_cast
|}.

(** The interpreter with its default limit of 4300 digits. *)
Definition cpython_default : Interpreter := {|
  int_max_str_digits := 4300;
  int_max_str_digits_ok := eq_refl
|}.

(** The digit [1] written [n] times. *)
Fixpoint ones (n : nat) : Decimal.uint :=
  match n with
  | O => Decimal.Nil
  | S n' => Decimal.D1 (ones n')
  end.

(** The integer that is written with [n] ones, [int("1" * n)]. *)
Definition written_with_ones (n : nat) : Z := Z.of_int (Decimal.Pos (ones n)).

(** An interpreter without limit. *)
Definition cpython_unlimited : Interpreter := {|
  int_max_str_digits := 0;
  int_max_str_digits_ok := eq_refl
|}.

(** A server that answers every request with the same response. *)
Definition answers (r : Response) : Network := {|
  requests_get_outcome := fun _ => ret r
|}.

(** No connection: every request raises. *)
Definition offline : Network := {|
  requests_get_outcome := fun _ => raise (RequestException "ConnectionError")
|}.

(** One candle line [{"p": p, "ts": ts, "o": o, "h": o, "l": o, "c": o, "v": v}]. *)
Definition candle (p : pyval) (ts o v : Z) : pyval :=
  PDict [("p", p); ("ts", PInt ts); ("o", PInt o); ("h", PInt o);
         ("l", PInt o); ("c", PInt o); ("v", PInt v)]%string.

Definition body (status : Z) (lines : list line) : Response :=
  {| status_code := status; raw := lines; json := raise JSONDecodeError |}.

Definition svc : DataService := DataService_init None.

(** Three lines of two pairs: pair 1, pair 2, pair 1 again. *)
Definition three_candles : list pyval :=
  [candle (PInt 1) 60 5 7; candle (PInt 2) 60 6 8; candle (PInt 1) 120 9 1].

(** The record of the line [candle p ts o v]. *)
Definition record (p : pyval) (ts o v : Z) : @Candle pandas_ns :=
  @Build_Candle pandas_ns p (PInt ts) (ts * 1000000000)
    (PInt o) (PInt o) (PInt o) (PInt o) (PInt v).

Definition three_records : list (@Candle pandas_ns) :=
  [record (PInt 1) 60 5 7; record (PInt 2) 60 6 8; record (PInt 1) 120 9 1].

(** The float [5.5]. *)
Definition five_and_a_half : spec_float := S754_finite false 6192449487634432 (-50).

(** Three lines of two pairs; pair 1 opens at the integer [5] and then at
    the float [5.5]. *)
Definition mixed_candles : list pyval :=
  [PDict [("p", PInt 1); ("ts", PInt 60); ("o", PInt 5); ("h", PInt 6);
          ("l", PInt 4); ("c", PInt 5); ("v", PInt 7)]%string;
   candle (PInt 2) 60 6 8;
   PDict [("p", PInt 1); ("ts", PInt 120); ("o", PFloat five_and_a_half); ("h", PInt 7);
          ("l", PInt 5); ("c", PInt 6); ("v", PInt 9)]%string].

Definition mixed_records : list (@Candle pandas_ns) :=
  [@Build_Candle pandas_ns (PInt 1) (PInt 60) 60000000000
     (PInt 5) (PInt 6) (PInt 4) (PInt 5) (PInt 7);
   record (PInt 2) 60 6 8;
   @Build_Candle pandas_ns (PInt 1) (PInt 120) 120000000000
     (PFloat five_and_a_half) (PInt 7) (PInt 5) (PInt 6) (PInt 9)].

(** The same three lines, each with one more field. *)
Definition three_candles_extra : list pyval :=
  map (fun item => match item with
                   | PDict d => PDict (("b", PInt 0) :: d)%string
                   | other => other
                   end) three_candles.

(** A stream whose second line has no [p]. *)
Definition stream_missing_p : list line :=
  [Json (candle (PInt 1) 60 5 7); Json (PDict [("ts", PInt 120)]%string)].

(** An error answer (status 500) whose body happens to hold a candle
    line. *)
Definition error_response : Response :=
  body 500 [Json (candle (PInt 1) 60 5 7)].

(** Six lines of three pairs: two of pair 1, one of pair 2, three of
    pair 3. *)
Definition six_candles : list pyval :=
  [candle (PInt 3) 60 1 1; candle (PInt 1) 60 2 2; candle (PInt 3) 120 3 3;
   candle (PInt 2) 60 4 4; candle (PInt 1) 120 5 5; candle (PInt 3) 180 6 6].

(** Three lines whose [p] is [1], [1.0] and [true]. *)
Definition one_three_ways : list pyval :=
  [candle (PInt 1) 60 1 1;
   candle (PFloat (S754_finite false 4503599627370496 (-52))) 120 2 2;
   candle (PBool true) 180 3 3].

Definition two_chains : list pyval :=
  [PDict [("chain_id", PInt 1); ("chain_name", PStr "Ethereum");
          ("chain_slug", PStr "ethereum")]%string;
   PDict [("chain_id", PInt 56); ("chain_name", PStr "BNB Smart Chain");
          ("chain_slug", PStr "binance")]%string].

Definition chains_response : Response :=
  {| status_code := 200; raw := []; json := ret (PList two_chains) |}.

(** Two exchanges, the second without volume in the last 30 days. *)
Definition two_exchanges : list pyval :=
  [PDict [("exchange_id", PInt 22); ("exchange_slug", PStr "uniswap-v3");
          ("usd_volume_30d", PInt 900)]%string;
   PDict [("exchange_id", PInt 7); ("exchange_slug", PStr "idle");
          ("usd_volume_30d", PInt 0)]%string].

Definition json_response (js : pyval) : Response :=
  {| status_code := 200; raw := []; json := ret js |}.

Definition exchanges_response : Response :=
  json_response (PDict [("exchanges", PList two_exchanges)]%string).

Definition pair_line (id : Z) (slug : string) : pyval :=
  PDict [("pair_id", PInt id); ("pair_slug", PStr slug);
         ("exchange_slug", PStr "uniswap-v3"); ("usd_volume_24h", PInt 10);
         ("pair_tvl", PInt 1000)]%string.

(** Three pairs, more than the page size asked for in the examples. *)
Definition three_pairs : list pyval :=
  [pair_line 1 "eth-usdc"; pair_line 2 "wbtc-eth"; pair_line 3 "dai-usdc"].

Definition pairs_response : Response :=
  json_response (PDict [("results", PList three_pairs)]%string).

(** Two exchanges, the second with its slug only. *)
Definition exchanges_lacking_volume : list pyval :=
  [PDict [("exchange_id", PInt 22); ("exchange_slug", PStr "uniswap-v3");
          ("usd_volume_30d", PInt 900)]%string;
   PDict [("exchange_slug", PStr "idle")]%string].

(** Two pairs, the second with its id only. *)
Definition pairs_lacking_slug : list pyval :=
  [pair_line 1 "eth-usdc"; PDict [("pair_id", PInt 2)]%string].

(** Two chains, the second without slug and id. *)
Definition chains_lacking_slug : list pyval :=
  [PDict [("chain_id", PInt 1); ("chain_name", PStr "Ethereum");
          ("chain_slug", PStr "ethereum")]%string;
   PDict [("chain_name", PStr "BNB Smart Chain")]%string].

(** An error body. *)
Definition error_object : list (string * pyval) := [("error", PStr "down")]%string.

(** A valid line, a line that does not decode, a line that is never read. *)
Definition stream_with_bad_line : list line :=
  [Json (candle (PInt 1) 60 5 7); Malformed; Json (PList [])].

(** What the method returns for [one_three_ways]. *)
Definition one_three_ways_collection : pydict (DataFrame Z) :=
  [(PInt 1,
    {| df_index := [60000000000; 120000000000; 180000000000];
       df_data := [("Open", [PInt 1; PInt 2; PInt 3]); ("High", [PInt 1; PInt 2; PInt 3]);
                   ("Low", [PInt 1; PInt 2; PInt 3]); ("Close", [PInt 1; PInt 2; PInt 3]);
                   ("Volume", [PInt 1; PInt 2; PInt 3])]%string |})].

(** The line of pair 2 of [three_candles] after a line of pair 3. *)
Definition pair_two_among_others : list pyval :=
  [candle (PInt 3) 60 1 1; candle (PInt 2) 60 6 8].

(** * Properties *)

(** ** Fallible computations and comprehensions *)

Lemma bind_inr {A B} (c : result A) (k : A -> result B) (b : B) :
  bind c k = inr b -> exists a, c = inr a /\ k a = inr b.
Proof.
  destruct c as [e | a]; simpl; intros Hb.
  - discriminate.
  - exists a. split; [reflexivity | exact Hb].
Qed.

(** ** Keys that are pair identifiers *)

Lemma key_eqb_refl (k : pyval) :
  is_pair_identifier k = true -> key_eqb k k = true.
Proof.
  destruct k; simpl; try discriminate; intros _.
  - apply Z.eqb_refl.
  - apply String.eqb_refl.
Qed.

Lemma key_eqb_eq (a b : pyval) :
  is_pair_identifier a = true -> is_pair_identifier b = true ->
  key_eqb a b = true -> a = b.
Proof.
  destruct a, b; simpl; try discriminate; intros _ _ Hab.
  - apply Z.eqb_eq in Hab. congruence.
  - apply String.eqb_eq in Hab. congruence.
Qed.

Lemma key_eqb_sym (a b : pyval) :
  is_pair_identifier a = true -> is_pair_identifier b = true ->
  key_eqb a b = key_eqb b a.
Proof.
  intros Ha Hb.
  destruct (key_eqb a b) eqn:Hab.
  - apply key_eqb_eq in Hab; trivial. subst b. symmetry. now apply key_eqb_refl.
  - destruct (key_eqb b a) eqn:Hba; trivial.
    apply key_eqb_eq in Hba; trivial. subst b.
    rewrite key_eqb_refl in Hab by trivial. discriminate.
Qed.

(** ** Dictionaries *)

Lemma dict_get_None {V} (d : pydict V) (k : pyval) :
  dict_get d k = None <-> existsb (fun s => key_eqb s k) (map fst d) = false.
Proof.
  induction d as [| [k' v] d IH]; simpl.
  - tauto.
  - destruct (key_eqb k' k); simpl.
    + split; discriminate.
    + exact IH.
Qed.

Lemma dict_set_new {V} (d : pydict V) (k : pyval) (v : V) :
  dict_get d k = None -> dict_set d k v = d ++ [(k, v)].
Proof.
  induction d as [| [k' v'] d IH]; simpl; intros Hget.
  - reflexivity.
  - destruct (key_eqb k' k).
    + discriminate.
    + now rewrite IH.
Qed.

Lemma dict_set_last {V} (d : pydict V) (k : pyval) (v w : V) :
  is_pair_identifier k = true ->
  dict_get d k = None -> dict_set (d ++ [(k, v)]) k w = d ++ [(k, w)].
Proof.
  intros Hk.
  induction d as [| [k' v'] d IH]; simpl; intros Hget.
  - now rewrite key_eqb_refl.
  - destruct (key_eqb k' k).
    + discriminate.
    + now rewrite IH.
Qed.

Lemma existsb_key_false (seen : list pyval) (k s : pyval) :
  existsb (fun s => key_eqb s k) seen = false -> In s seen -> key_eqb s k = false.
Proof.
  intros Hex Hin.
  destruct (key_eqb s k) eqn:Hsk; trivial.
  assert (Ht : existsb (fun s => key_eqb s k) seen = true)
    by (apply existsb_exists; exists s; split; assumption).
  congruence.
Qed.

(** Appending to the list kept under a key that is present touches that
    entry alone. *)
Lemma dict_set_append (d : pydict (list pyval)) (k item : pyval) (l : list pyval) :
  is_pair_identifier k = true ->
  Forall (fun s => is_pair_identifier s = true) (map fst d) ->
  NoDup (map fst d) ->
  dict_get d k = Some l ->
  dict_set d k (l ++ [item])
  = map (fun e => (fst e, snd e ++ (if key_eqb (fst e) k then [item] else []))) d.
Proof.
  intros Hk.
  induction d as [| [k' v'] d IH]; simpl; intros Hpid Hnd Hget.
  - discriminate.
  - inversion Hpid as [| ? ? Hk' Hpid']; subst.
    inversion Hnd as [| ? ? Hnotin Hnd']; subst.
    destruct (key_eqb k' k) eqn:Hkk.
    + injection Hget as ->.
      f_equal.
      apply key_eqb_eq in Hkk; trivial. subst k'.
      rewrite <- (map_id d) at 1.
      apply map_ext_in. intros [s w] Hin. simpl.
      assert (Hs : In s (map fst d)) by (apply in_map_iff; exists (s, w); auto).
      destruct (key_eqb s k) eqn:Hsk.
      * apply key_eqb_eq in Hsk; trivial.
        -- subst s. contradiction.
        -- rewrite Forall_forall in Hpid'. now apply Hpid'.
      * now rewrite app_nil_r.
    + rewrite app_nil_r. f_equal. now apply IH.
Qed.

(** ** Decoding a line *)

Lemma decode_fields `{Pandas} (item : pyval) (c : Candle) :
  decode item = inr c ->
  getitem item "p" = inr (pair_id c) /\ getitem item "ts" = inr (ts c)
  /\ getitem item "o" = inr (open c) /\ getitem item "h" = inr (high c)
  /\ getitem item "l" = inr (low c) /\ getitem item "c" = inr (close c)
  /\ getitem item "v" = inr (volume c) /\ to_datetime_s (ts c) = inr (time c).
Proof.
  unfold decode. intros Hd.
  repeat (apply bind_inr in Hd; destruct Hd as (? & ? & Hd)).
  injection Hd as <-. simpl. repeat split; assumption.
Qed.

Lemma decode_reader `{Pandas} (item : pyval) (c : Candle) :
  decode item = inr c -> reader_next (Json item) = inr item.
Proof.
  intros Hd. apply decode_fields in Hd. destruct Hd as (Hp & _).
  destruct item; simpl in *; try discriminate; reflexivity.
Qed.

Lemma valid_candle_decode `{Pandas} (item : pyval) :
  valid_candle item = true ->
  exists c, decode item = inr c /\ is_pair_identifier (pair_id c) = true.
Proof.
  unfold valid_candle. destruct (decode item) as [e | c]; intros Hv.
  - discriminate.
  - exists c. split; [reflexivity |].
    repeat (apply andb_prop in Hv; destruct Hv as (Hv & _)). exact Hv.
Qed.

Lemma valid_items_decoded `{Pandas} (items : list pyval) :
  forallb valid_candle items = true ->
  exists ics, items = map fst ics /\ Decoded ics.
Proof.
  induction items as [| item items IH]; simpl; intros Hv.
  - exists []. split; [reflexivity | constructor].
  - apply andb_prop in Hv. destruct Hv as (Hitem & Hitems).
    destruct (IH Hitems) as (ics & -> & Hics).
    destruct (valid_candle_decode item Hitem) as (c & Hc & Hp).
    exists ((item, c) :: ics). split; [reflexivity |].
    constructor; [split; assumption | exact Hics].
Qed.

Lemma Decoded_comprehension `{Pandas} (ics : list (pyval * Candle)) :
  Decoded ics -> comprehension decode (map fst ics) = inr (map snd ics).
Proof.
  induction 1 as [| ic ics (Hd & _) _ IH]; simpl.
  - reflexivity.
  - rewrite Hd. simpl. rewrite IH. reflexivity.
Qed.

Lemma Decoded_filter `{Pandas} (f : pyval * Candle -> bool) (ics : list (pyval * Candle)) :
  Decoded ics -> Decoded (filter f ics).
Proof.
  unfold Decoded. rewrite !Forall_forall. intros Hd ic Hin.
  apply filter_In in Hin. apply Hd, Hin.
Qed.

Lemma Decoded_pair_ids `{Pandas} (ics : list (pyval * Candle)) :
  Decoded ics ->
  Forall (fun k => is_pair_identifier k = true) (map pair_id (map snd ics)).
Proof.
  induction 1 as [| ic ics (_ & Hp) _ IH]; simpl; constructor; assumption.
Qed.

(** ** Keys in order of first occurrence *)

Lemma first_seen_from_unseen (seen ps : list pyval) (k : pyval) :
  In k (first_seen_from seen ps) ->
  existsb (fun s => key_eqb s k) seen = false /\ In k ps.
Proof.
  revert seen. induction ps as [| p ps IH]; simpl; intros seen Hin.
  - contradiction.
  - destruct (existsb (fun s => key_eqb s p) seen) eqn:Hseen.
    + destruct (IH _ Hin) as (Hk & Hps). auto.
    + destruct Hin as [-> | Hin].
      * auto.
      * destruct (IH _ Hin) as (Hk & Hps).
        rewrite existsb_app in Hk. apply orb_false_elim in Hk. tauto.
Qed.

Lemma first_seen_from_NoDup (seen ps : list pyval) :
  Forall (fun k => is_pair_identifier k = true) ps ->
  NoDup (first_seen_from seen ps).
Proof.
  intros Hps. revert seen.
  induction Hps as [| p ps Hp _ IH]; simpl; intros seen.
  - constructor.
  - destruct (existsb (fun s => key_eqb s p) seen).
    + apply IH.
    + constructor; [| apply IH].
      intros Hin. apply first_seen_from_unseen in Hin. destruct Hin as (Hex & _).
      rewrite existsb_app in Hex. apply orb_false_elim in Hex.
      destruct Hex as (_ & Hex). simpl in Hex.
      rewrite key_eqb_refl in Hex by exact Hp. discriminate.
Qed.

Lemma first_seen_from_In (seen ps : list pyval) (k : pyval) :
  Forall (fun k => is_pair_identifier k = true) ps ->
  In k ps -> existsb (fun s => key_eqb s k) seen = false ->
  In k (first_seen_from seen ps).
Proof.
  intros Hps. revert seen.
  induction Hps as [| p ps Hp Hps IH]; simpl; intros seen Hin Hk.
  - contradiction.
  - destruct (existsb (fun s => key_eqb s p) seen) eqn:Hseen.
    + destruct Hin as [-> | Hin]; [congruence | now apply IH].
    + destruct Hin as [-> | Hin]; [now left |].
      assert (Hkp : is_pair_identifier k = true)
        by (rewrite Forall_forall in Hps; now apply Hps).
      destruct (key_eqb p k) eqn:Hpk.
      * apply key_eqb_eq in Hpk; trivial. now left.
      * right. apply IH; trivial.
        rewrite existsb_app, Hk. simpl. now rewrite Hpk.
Qed.


(** ** The first loop *)

Lemma members_cons `{Pandas} (k : pyval) (ic : pyval * Candle) (ics : list (pyval * Candle)) :
  members k (ic :: ics)
  = if key_eqb k (pair_id (snd ic)) then fst ic :: members k ics else members k ics.
Proof.
  unfold members, in_series. simpl.
  destruct (key_eqb k (pair_id (snd ic))); reflexivity.
Qed.

(** The first loop run from a dictionary [candle_dict] whose keys are
    distinct pair identifiers: every list already present grows by the
    items of its pair, and the new pairs follow in order of first
    occurrence, each with its items in stream order. *)
Lemma group_items_closed `{Pandas} (ics : list (pyval * Candle)) :
  Decoded ics ->
  forall candle_dict,
    Forall (fun k => is_pair_identifier k = true) (map fst candle_dict) ->
    NoDup (map fst candle_dict) ->
    group_items (map (fun ic => Json (fst ic)) ics) candle_dict
    = inr (map (fun e => (fst e, snd e ++ members (fst e) ics)) candle_dict
           ++ map (fun k => (k, members k ics))
                  (first_seen_from (map fst candle_dict) (map pair_id (map snd ics)))).
Proof.
  induction 1 as [| [item c] ics (Hd & Hp) Hics IH]; intros cd Hpid Hnd.
  - simpl. unfold ret. rewrite app_nil_r. f_equal.
    rewrite <- (map_id cd) at 1. apply map_ext. intros [k l]. simpl.
    unfold members. simpl. now rewrite app_nil_r.
  - simpl in Hd, Hp. simpl map.
    cbn [group_items]. rewrite (decode_reader _ _ Hd). cbn [bind].
    destruct (decode_fields _ _ Hd) as (Hgp & _). rewrite Hgp. cbn [bind].
    unfold defaultdict_append, defaultdict_getitem, check_hashable.
    assert (Hh : hashable (pair_id c) = true)
      by (destruct (pair_id c); simpl in *; congruence).
    rewrite Hh. cbn [bind ret].
    cbn [first_seen_from snd].
    destruct (dict_get cd (pair_id c)) as [l |] eqn:Hget.
    + (* the pair has been seen *)
      cbn [bind ret].
      rewrite (dict_set_append _ _ _ _ Hp Hpid Hnd Hget).
      assert (Hex : existsb (fun s => key_eqb s (pair_id c)) (map fst cd) = true).
      { destruct (existsb (fun s => key_eqb s (pair_id c)) (map fst cd)) eqn:Hex; trivial.
        apply dict_get_None in Hex. congruence. }
      rewrite Hex.
      set (cd1 := map _ cd).
      assert (Hkeys : map fst cd1 = map fst cd).
      { unfold cd1. rewrite map_map. apply map_ext. intros [k v]. reflexivity. }
      rewrite IH by (rewrite Hkeys; assumption).
      rewrite Hkeys. f_equal. f_equal.
      * unfold cd1. rewrite map_map. apply map_ext. intros [k v]. simpl.
        rewrite members_cons. simpl.
        destruct (key_eqb k (pair_id c)); rewrite <- app_assoc; reflexivity.
      * apply map_ext_in. intros k Hk. rewrite members_cons. simpl.
        apply first_seen_from_unseen in Hk. destruct Hk as (Hunseen & Hin).
        assert (Hkp : is_pair_identifier k = true).
        { pose proof (Decoded_pair_ids _ Hics) as Hall.
          rewrite Forall_forall in Hall. now apply Hall. }
        apply existsb_exists in Hex. destruct Hex as (s & Hs & Hsp).
        assert (Hsk := existsb_key_false _ _ _ Hunseen Hs).
        apply key_eqb_eq in Hsp; trivial;
          [| rewrite Forall_forall in Hpid; now apply Hpid].
        subst s. rewrite key_eqb_sym in Hsk by assumption.
        now rewrite Hsk.
    + (* a new pair *)
      cbn [bind ret].
      rewrite (dict_set_new _ _ _ Hget).
      rewrite (dict_set_last _ _ _ _ Hp Hget). simpl app.
      pose proof Hget as Hex. apply dict_get_None in Hex. rewrite Hex.
      assert (Hkeys : map fst (cd ++ [(pair_id c, [item])]) = map fst cd ++ [pair_id c])
        by (rewrite map_app; reflexivity).
      rewrite IH; rewrite Hkeys.
      * rewrite map_app, <- app_assoc. simpl. f_equal. f_equal.
        -- apply map_ext_in. intros [k v] Hin. simpl.
           rewrite members_cons. simpl.
           assert (Hk : In k (map fst cd)) by (apply in_map_iff; exists (k, v); auto).
           now rewrite (existsb_key_false _ _ _ Hex Hk).
        -- f_equal.
           ++ rewrite members_cons. simpl. now rewrite key_eqb_refl.
           ++ apply map_ext_in. intros k Hk. rewrite members_cons. simpl.
              apply first_seen_from_unseen in Hk. destruct Hk as (Hunseen & Hin).
              assert (Hkp : is_pair_identifier k = true).
              { pose proof (Decoded_pair_ids _ Hics) as Hall.
                rewrite Forall_forall in Hall. now apply Hall. }
              assert (Hpk : key_eqb (pair_id c) k = false).
              { apply (existsb_key_false _ _ _ Hunseen).
                apply in_or_app. right. now left. }
              rewrite key_eqb_sym in Hpk by assumption.
              now rewrite Hpk.
      * apply Forall_app. split; [exact Hpid | constructor; [exact Hp | constructor]].
      * apply (Permutation_NoDup (Permutation_cons_append _ _)).
        constructor; [| exact Hnd].
        intros Hin. pose proof (existsb_key_false _ _ _ Hex Hin) as Hpp.
        rewrite key_eqb_refl in Hpp by exact Hp. discriminate.
Qed.

(** ** Tables *)

Lemma as_column_stored `{Pandas} (values : list pyval) :
  as_column values = map (stored values) values.
Proof.
  unfold as_column, stored. destruct (homogeneous values); [| reflexivity].
  symmetry. apply map_id.
Qed.

Lemma pd_Index_stored `{Pandas} (labels : list pyval) :
  pd_Index labels = map (stored_label labels) labels.
Proof.
  unfold pd_Index, stored_label. destruct (homogeneous labels); [| reflexivity].
  symmetry. apply map_id.
Qed.

(** The table built from columns that have the length of the index. *)
Lemma pd_DataFrame_built `{Pandas} {I} (data : list (string * list pyval))
  (index : list I) :
  Forall (fun col => List.length (snd col) = List.length index) data ->
  pd_DataFrame data index
  = inr {| df_index := index;
           df_data := map (fun col => (fst col, map (stored (snd col)) (snd col))) data |}.
Proof.
  intros Hlen. unfold pd_DataFrame.
  replace (forallb _ data) with true.
  - unfold ret. do 2 f_equal. apply map_ext. intros col.
    now rewrite as_column_stored.
  - symmetry. apply forallb_forall. rewrite Forall_forall in Hlen.
    intros col Hcol. apply Nat.eqb_eq. now apply Hlen.
Qed.

(** A homogeneous column is stored as it is. *)
Lemma stored_homogeneous `{Pandas} (values : list pyval) (v : pyval) :
  homogeneous values = true -> stored values v = v.
Proof.
  unfold stored. now intros ->.
Qed.

Lemma stored_label_homogeneous `{Pandas} (labels : list pyval) (v : pyval) :
  homogeneous labels = true -> stored_label labels v = v.
Proof.
  unfold stored_label. now intros ->.
Qed.

(** ** The second loop *)

Lemma comprehension_Forall {A B C} (f : A -> result B) (h : C -> A) (g : C -> B)
  (l : list C) :
  Forall (fun x => f (h x) = inr (g x)) l ->
  comprehension f (map h l) = inr (map g l).
Proof.
  induction 1 as [| x l Hx _ IH]; simpl.
  - reflexivity.
  - rewrite Hx. simpl. rewrite IH. reflexivity.
Qed.

Lemma Decoded_field `{Pandas} {B} (f : pyval -> result B) (g : Candle -> B)
  (ics : list (pyval * Candle)) :
  (forall item c, decode item = inr c -> f item = inr (g c)) ->
  Decoded ics ->
  comprehension f (map fst ics) = inr (map g (map snd ics)).
Proof.
  intros Hfg Hd. rewrite (map_map snd g).
  apply comprehension_Forall.
  eapply Forall_impl; [| exact Hd].
  intros ic (Hic & _). now apply Hfg.
Qed.

(** The table built from a group of decoded items is the table of their
    records. *)
Lemma candle_frame_decoded `{Pandas} (ics : list (pyval * Candle)) :
  Decoded ics ->
  candle_frame (map fst ics) = inr (frame_of (map snd ics)).
Proof.
  intros Hd. unfold candle_frame.
  rewrite (Decoded_field _ ts) by (trivial; intros ? ? Hc; apply decode_fields in Hc; tauto).
  cbn [bind].
  rewrite (Decoded_field _ open) by (trivial; intros ? ? Hc; apply decode_fields in Hc; tauto).
  cbn [bind].
  rewrite (Decoded_field _ high) by (trivial; intros ? ? Hc; apply decode_fields in Hc; tauto).
  cbn [bind].
  rewrite (Decoded_field _ low) by (trivial; intros ? ? Hc; apply decode_fields in Hc; tauto).
  cbn [bind].
  rewrite (Decoded_field _ close) by (trivial; intros ? ? Hc; apply decode_fields in Hc; tauto).
  cbn [bind].
  rewrite (Decoded_field _ volume) by (trivial; intros ? ? Hc; apply decode_fields in Hc; tauto).
  cbn [bind].
  assert (Hts : to_datetime (map ts (map snd ics)) = inr (map time (map snd ics))).
  { unfold to_datetime. rewrite (map_map snd ts), (map_map snd time).
    apply comprehension_Forall.
    eapply Forall_impl; [| exact Hd].
    intros ic (Hic & _). apply decode_fields in Hic. tauto. }
  rewrite Hts. cbn [bind].
  rewrite pd_DataFrame_built by (repeat constructor; cbn [snd]; now rewrite !length_map).
  reflexivity.
Qed.

Lemma filter_map_snd {A B} (f : B -> bool) (l : list (A * B)) :
  map snd (filter (fun x => f (snd x)) l) = filter f (map snd l).
Proof.
  induction l as [| x l IH]; simpl.
  - reflexivity.
  - destruct (f (snd x)); simpl; now rewrite IH.
Qed.

(** The second loop over the groups of distinct pairs appends one table
    per group to [return_dict]. *)
Lemma build_frames_closed `{Pandas} (ics : list (pyval * Candle)) :
  Decoded ics ->
  forall ks return_dict,
    NoDup ks ->
    Forall (fun k => is_pair_identifier k = true) ks ->
    (forall k, In k ks -> dict_get return_dict k = None) ->
    build_frames (map (fun k => (k, members k ics)) ks) return_dict
    = inr (return_dict
           ++ map (fun k => (k, frame_of (filter (in_series k) (map snd ics)))) ks).
Proof.
  intros Hd. induction ks as [| k ks IH]; intros rd Hnd Hpid Hnew.
  - simpl. now rewrite app_nil_r.
  - inversion Hnd as [| ? ? Hnotin Hnd']; subst.
    inversion Hpid as [| ? ? Hk Hpid']; subst.
    cbn [map build_frames]. unfold members at 1.
    rewrite candle_frame_decoded by (now apply Decoded_filter).
    cbn [bind]. rewrite filter_map_snd.
    rewrite dict_set_new by (apply Hnew; now left).
    rewrite IH; trivial.
    + now rewrite <- app_assoc.
    + intros k' Hk'. apply dict_get_None.
      rewrite map_app, existsb_app. simpl.
      assert (Hrd : dict_get rd k' = None) by (apply Hnew; now right).
      apply dict_get_None in Hrd. rewrite Hrd. simpl.
      destruct (key_eqb k k') eqn:Hkk; trivial.
      apply key_eqb_eq in Hkk; trivial.
      * subst k'. contradiction.
      * rewrite Forall_forall in Hpid'. now apply Hpid'.
Qed.

(** ** The method on a valid stream *)

(** Lines 143 to 161 on the body of a response whose lines decode to the
    records [map snd ics]: the collection of the specification. *)
Lemma read_valid_stream `{Pandas} (ics : list (pyval * Candle)) :
  Decoded ics ->
  (candle_dict <- group_items (map Json (map fst ics)) [] ;;
   build_frames candle_dict [])
  = inr (collection (map snd ics)).
Proof.
  intros Hd. rewrite map_map.
  rewrite (group_items_closed ics Hd []) by constructor.
  cbn [map app bind].
  rewrite (build_frames_closed ics Hd).
  - reflexivity.
  - apply first_seen_from_NoDup. now apply Decoded_pair_ids.
  - pose proof (Decoded_pair_ids _ Hd) as Hall.
    rewrite Forall_forall in *. intros k Hk.
    apply Hall. now apply first_seen_from_unseen in Hk.
  - reflexivity.
Qed.

(** ** The collection of the specification *)

Lemma filter_all {A} (f : A -> bool) (l : list A) :
  (forall x, In x l -> f x = true) -> filter f l = l.
Proof.
  induction l as [| x l IH]; simpl; intros Hf.
  - reflexivity.
  - rewrite (Hf x (or_introl eq_refl)). f_equal. apply IH. auto.
Qed.

Lemma filter_none {A} (f : A -> bool) (l : list A) :
  (forall x, In x l -> f x = false) -> filter f l = [].
Proof.
  induction l as [| x l IH]; simpl; intros Hf.
  - reflexivity.
  - rewrite (Hf x (or_introl eq_refl)). apply IH. auto.
Qed.

Lemma filter_split_Permutation {A} (f g : A -> bool) (l : list A) :
  Permutation (filter f l)
    (filter (fun x => f x && g x) l ++ filter (fun x => f x && negb (g x)) l).
Proof.
  induction l as [| x l IH]; simpl.
  - constructor.
  - destruct (f x), (g x); simpl.
    + now constructor.
    + now apply Permutation_cons_app.
    + exact IH.
    + exact IH.
Qed.

(** The records whose pair is among [ps] and not yet seen, arranged pair
    by pair in order of first occurrence. *)
Lemma series_partition `{Pandas} (every : list Candle) (ps : list pyval) :
  Forall (fun k => is_pair_identifier k = true) (map pair_id every) ->
  Forall (fun k => is_pair_identifier k = true) ps ->
  forall seen,
    Forall (fun k => is_pair_identifier k = true) seen ->
    Permutation
      (filter (fun c => negb (existsb (fun s => key_eqb s (pair_id c)) seen)
                        && existsb (fun p => key_eqb p (pair_id c)) ps) every)
      (flat_map (fun k => filter (in_series k) every) (first_seen_from seen ps)).
Proof.
  intros Hevery. rewrite Forall_forall in Hevery.
  assert (Hpid : forall c, In c every -> is_pair_identifier (pair_id c) = true)
    by (intros c Hc; apply Hevery; now apply in_map).
  induction 1 as [| p ps Hp Hps IH]; intros seen Hseen.
  - simpl. rewrite filter_none; [constructor |].
    intros c _. apply andb_false_r.
  - cbn [first_seen_from].
    destruct (existsb (fun s => key_eqb s p) seen) eqn:Hex.
    + rewrite <- (IH seen Hseen).
      erewrite filter_ext_in; [reflexivity |].
      intros c Hc. cbn [existsb].
      destruct (key_eqb p (pair_id c)) eqn:Hpc; [| reflexivity].
      apply key_eqb_eq in Hpc; auto. rewrite <- Hpc, Hex. reflexivity.
    + cbn [flat_map].
      assert (Hseen' : Forall (fun k => is_pair_identifier k = true) (seen ++ [p]))
        by (apply Forall_app; split; [exact Hseen | constructor; [exact Hp | constructor]]).
      rewrite <- (IH _ Hseen').
      rewrite (filter_split_Permutation _ (in_series p)).
      apply Permutation_app; apply Permutation_refl'; apply filter_ext_in;
        intros c Hc; unfold in_series; cbn [existsb]; rewrite ?existsb_app;
        cbn [existsb]; destruct (key_eqb p (pair_id c)) eqn:Hpc; simpl;
        rewrite ?andb_false_r, ?orb_false_r, ?orb_true_r, ?andb_true_r; trivial.
      apply key_eqb_eq in Hpc; auto. rewrite <- Hpc, Hex. reflexivity.
Qed.

Lemma rows_five_columns {A I} (a : A -> I) (b1 b2 b3 b4 b5 : A -> pyval) (l : list A) :
  rows (map a l) [map b1 l; map b2 l; map b3 l; map b4 l; map b5 l]
  = map (fun x => (a x, [b1 x; b2 x; b3 x; b4 x; b5 x])) l.
Proof.
  induction l as [| x l IH]; simpl.
  - reflexivity.
  - f_equal. exact IH.
Qed.

(** The rows of the table of a group: the rows of its records, as stored. *)
Lemma rows_frame_of `{Pandas} (cs : list Candle) :
  df_rows (frame_of cs) = map (stored_row cs) cs.
Proof.
  unfold df_rows, frame_of. cbn [df_index df_data map snd].
  rewrite !(map_map _ (stored _)). apply rows_five_columns.
Qed.

Lemma collection_keys `{Pandas} (cs : list Candle) :
  map fst (collection cs) = first_seen_from [] (map pair_id cs).
Proof.
  unfold collection. rewrite map_map. simpl. apply map_id.
Qed.

(** Every record of the stream occurs once in the collection, under its
    pair identifier, and the collection holds nothing else. *)
Lemma collection_entries `{Pandas} (cs : list Candle) :
  Forall (fun k => is_pair_identifier k = true) (map pair_id cs) ->
  Permutation
    (map (fun c => (pair_id c, stored_row (filter (in_series (pair_id c)) cs) c)) cs)
    (entries (collection cs)).
Proof.
  intros Hcs.
  set (keyed := fun c => (pair_id c, stored_row (filter (in_series (pair_id c)) cs) c)).
  assert (Hflat : entries (collection cs)
                  = map keyed (flat_map (fun k => filter (in_series k) cs)
                                        (first_seen_from [] (map pair_id cs)))).
  { unfold entries, collection.
    assert (Hin : forall k, In k (first_seen_from [] (map pair_id cs)) ->
                            is_pair_identifier k = true).
    { intros k Hk. apply first_seen_from_unseen in Hk.
      rewrite Forall_forall in Hcs. now apply Hcs. }
    induction (first_seen_from [] (map pair_id cs)) as [| k ks IH]; simpl.
    - reflexivity.
    - rewrite map_app, rows_frame_of, IH by (intros; apply Hin; now right).
      f_equal. rewrite map_map. apply map_ext_in. intros c Hc.
      apply filter_In in Hc. destruct Hc as (Hc & Hkc).
      assert (Hk : k = pair_id c).
      { apply key_eqb_eq; trivial.
        + apply Hin. now left.
        + rewrite Forall_forall in Hcs. apply Hcs. now apply in_map. }
      unfold keyed. now rewrite <- Hk. }
  rewrite Hflat. apply Permutation_map.
  rewrite <- (series_partition cs (map pair_id cs) Hcs Hcs []) by constructor.
  apply Permutation_refl'. symmetry. apply filter_all.
  intros c Hc. simpl. apply existsb_exists. exists (pair_id c). split.
  - now apply in_map.
  - apply key_eqb_refl. rewrite Forall_forall in Hcs. apply Hcs. now apply in_map.
Qed.

Lemma collection_In `{Pandas} (cs : list Candle) (k : pyval) (df : DataFrame datetime) :
  In (k, df) (collection cs) <->
  In k (first_seen_from [] (map pair_id cs)) /\ df = frame_of (filter (in_series k) cs).
Proof.
  unfold collection. rewrite in_map_iff. split.
  - intros (k' & Heq & Hk'). injection Heq as -> ->. auto.
  - intros (Hk & ->). exists k. auto.
Qed.

(** Looking a pair identifier of the stream up in the collection finds the
    series of that pair. *)
Lemma collection_get `{Pandas} (cs : list Candle) (k : pyval) :
  Forall (fun k => is_pair_identifier k = true) (map pair_id cs) ->
  In k (map pair_id cs) ->
  dict_get (collection cs) k = Some (frame_of (filter (in_series k) cs)).
Proof.
  intros Hcs Hk.
  assert (Hkp : is_pair_identifier k = true)
    by (rewrite Forall_forall in Hcs; now apply Hcs).
  assert (Hin : In k (first_seen_from [] (map pair_id cs)))
    by (apply first_seen_from_In; trivial).
  assert (Hall : forall q, In q (first_seen_from [] (map pair_id cs)) ->
                           is_pair_identifier q = true).
  { intros q Hq. apply first_seen_from_unseen in Hq.
    rewrite Forall_forall in Hcs. now apply Hcs. }
  unfold collection.
  induction (first_seen_from [] (map pair_id cs)) as [| q ks IH]; simpl.
  - contradiction.
  - destruct (key_eqb q k) eqn:Hqk.
    + apply key_eqb_eq in Hqk; trivial; [now subst q | apply Hall; now left].
    + destruct Hin as [-> | Hin].
      * rewrite key_eqb_refl in Hqk by exact Hkp. discriminate.
      * apply IH; trivial. intros; apply Hall; now right.
Qed.


(** ** Lines that cannot be grouped *)

Lemma group_items_app (l1 l2 : list line) (candle_dict : pydict (list pyval)) :
  group_items (l1 ++ l2) candle_dict
  = (candle_dict' <- group_items l1 candle_dict ;; group_items l2 candle_dict').
Proof.
  revert candle_dict. induction l1 as [| ln l1 IH]; intros cd; simpl.
  - reflexivity.
  - destruct (reader_next ln) as [e | item]; simpl; [reflexivity |].
    destruct (getitem item "p") as [e | p]; simpl; [reflexivity |].
    destruct (defaultdict_append cd p item) as [e | cd']; simpl; [reflexivity |].
    apply IH.
Qed.

(** A line without [p] ends the first loop with an exception, whatever
    came before it. *)
Lemma group_items_missing_p (lines : list line) (d : list (string * pyval)) :
  In (Json (PDict d)) lines -> assoc "p" d = None ->
  forall candle_dict, exists e, group_items lines candle_dict = inl e.
Proof.
  intros Hin Hp. induction lines as [| ln lines IH]; intros cd.
  - contradiction.
  - simpl. destruct Hin as [-> | Hin].
    + simpl. rewrite Hp. simpl. eauto.
    + destruct (reader_next ln) as [e | item]; simpl; [eauto |].
      destruct (getitem item "p") as [e | p]; simpl; [eauto |].
      destruct (defaultdict_append cd p item) as [e | cd']; simpl; [eauto |].
      now apply IH.
Qed.

(** ** The comma-joined identifiers *)

Lemma decimal_inj (a b : Z) : decimal a = decimal b -> a = b.
Proof.
  unfold decimal. intros Heq.
  assert (Hnn : forall z, Z.to_int z <> Decimal.Pos Decimal.Nil
                          /\ Z.to_int z <> Decimal.Neg Decimal.Nil).
  { intros [| p | p]; simpl; split; try discriminate;
      intros [= Hp]; now apply DecimalPos.Unsigned.to_uint_nonnil in Hp. }
  apply (f_equal NilZero.int_of_string) in Heq.
  rewrite !NilZero.isi in Heq by apply Hnn.
  injection Heq as Heq. apply (f_equal Z.of_int) in Heq.
  now rewrite !DecimalZ.of_to in Heq.
Qed.

Lemma string_of_uint_no_comma (d : Decimal.uint) :
  no_comma (NilEmpty.string_of_uint d) = true.
Proof.
  induction d; simpl; trivial.
Qed.

Lemma decimal_no_comma (z : Z) : no_comma (decimal z) = true.
Proof.
  assert (Hu : forall d, no_comma (NilZero.string_of_uint d) = true)
    by (intros d; destruct d; try reflexivity; apply string_of_uint_no_comma).
  unfold decimal. destruct (Z.to_int z) as [d | d]; simpl; apply Hu.
Qed.

Lemma decimal_nonempty (z : Z) : decimal z <> EmptyString.
Proof.
  unfold decimal. destruct (Z.to_int z) as [d | d]; simpl.
  - destruct d; discriminate.
  - discriminate.
Qed.

Lemma no_comma_app_comma (s r : string) :
  no_comma (s ++ String "," r) = false.
Proof.
  induction s as [| c s IH]; simpl.
  - reflexivity.
  - rewrite IH. apply andb_false_r.
Qed.

(** Two comma-free fields followed by a comma end at the same place. *)
Lemma comma_field_inj (s1 s2 r1 r2 : string) :
  no_comma s1 = true -> no_comma s2 = true ->
  (s1 ++ String "," r1 = s2 ++ String "," r2)%string ->
  s1 = s2 /\ r1 = r2.
Proof.
  revert s2. induction s1 as [| c s1 IH]; intros [| c2 s2] H1 H2 Heq; simpl in *.
  - injection Heq as ->. auto.
  - injection Heq as <- _. simpl in H2. discriminate.
  - injection Heq as -> _. simpl in H1. discriminate.
  - injection Heq as <- Heq.
    apply andb_prop in H1. apply andb_prop in H2.
    destruct (IH s2) as (-> & ->); tauto.
Qed.

(** A comma-joined list of non-empty comma-free fields determines the
    list. *)
Lemma join_comma_inj (l1 l2 : list string) :
  Forall (fun s => no_comma s = true /\ s <> EmptyString) l1 ->
  Forall (fun s => no_comma s = true /\ s <> EmptyString) l2 ->
  join "," l1 = join "," l2 -> l1 = l2.
Proof.
  unfold join. intros H1. revert l2.
  induction H1 as [| x l1 (Hx & Hxne) H1 IH]; intros l2 H2 Heq.
  - destruct H2 as [| y l2 (Hy & Hyne) H2]; [reflexivity |].
    simpl in Heq. destruct l2.
    + now subst y.
    + destruct y; [now contradiction Hyne | discriminate].
  - destruct H2 as [| y l2 (Hy & Hyne) H2].
    + simpl in Heq. destruct l1.
      * now subst x.
      * destruct x; [now contradiction Hxne | discriminate].
    + destruct l1 as [| x' l1], l2 as [| y' l2]; simpl in Heq.
      * now subst.
      * subst x. simpl in Hx. now rewrite no_comma_app_comma in Hx.
      * subst y. simpl in Hy. now rewrite no_comma_app_comma in Hy.
      * apply comma_field_inj in Heq; trivial. destruct Heq as (-> & Heq).
        f_equal. now apply IH.
Qed.

Lemma csv_of_integers_inj (l1 l2 : list Z) :
  join "," (map rendered (map IdInt l1)) = join "," (map rendered (map IdInt l2)) ->
  l1 = l2.
Proof.
  rewrite !map_map. cbn [rendered]. intros Heq.
  apply join_comma_inj in Heq.
  - revert l2 Heq. induction l1 as [| a l1 IH]; intros [| b l2] Heq;
      simpl in Heq; try discriminate; [reflexivity |].
    injection Heq as Hab Heq. apply decimal_inj in Hab. subst b.
    f_equal. now apply IH.
  - apply Forall_map, Forall_forall. intros z _.
    split; [apply decimal_no_comma | apply decimal_nonempty].
  - apply Forall_map, Forall_forall. intros z _.
    split; [apply decimal_no_comma | apply decimal_nonempty].
Qed.

(** ** Integers that are turned into strings *)

Lemma str_int_within `{Interpreter} (n : Z) :
  within_limit n = true -> str_int n = inr (decimal n).
Proof.
  unfold str_int. now intros ->.
Qed.

Lemma str_int_beyond `{Interpreter} (n : Z) :
  within_limit n = false ->
  str_int n = inl limit_exceeded.
Proof.
  unfold str_int. now intros ->.
Qed.

(** An integer of at most 640 digits is within every limit. *)
Lemma within_limit_small `{Interpreter} (n : Z) :
  digits n <= 640 -> within_limit n = true.
Proof.
  intros Hn. unfold within_limit.
  pose proof int_max_str_digits_ok as Hok.
  destruct (int_max_str_digits =? 0) eqn:H0; [reflexivity |].
  simpl in Hok |- *. apply Z.leb_le in Hok. apply Z.leb_le. lia.
Qed.

Lemma decimal_ones (n : nat) :
  decimal (written_with_ones (S n)) = String "1" (NilEmpty.string_of_uint (ones n)).
Proof.
  unfold decimal, written_with_ones. rewrite DecimalZ.to_of. reflexivity.
Qed.

Lemma length_ones (n : nat) : String.length (NilEmpty.string_of_uint (ones n)) = n.
Proof.
  induction n as [| n IH]; simpl; [reflexivity | now rewrite IH].
Qed.

(** The integer written with ones has as many digits as it has ones. *)
Lemma digits_ones (n : nat) : digits (written_with_ones (S n)) = Z.of_nat (S n).
Proof.
  unfold digits.
  rewrite Z.abs_eq
    by (unfold written_with_ones, Z.of_int, Z.of_uint; apply N2Z.is_nonneg).
  rewrite decimal_ones. cbn [String.length]. now rewrite length_ones.
Qed.

(** With its default limit the interpreter does not render an integer of
    4301 digits. *)
Lemma beyond_default_limit :
  @within_limit cpython_default (written_with_ones 4301) = false.
Proof.
  unfold within_limit. rewrite (digits_ones 4300). reflexivity.
Qed.

Lemma comprehension_str `{Interpreter} (pair_ids : list int_or_str) :
  forallb renders pair_ids = true ->
  comprehension str pair_ids = inr (map rendered pair_ids).
Proof.
  induction pair_ids as [| x l IH]; simpl; intros Hall.
  - reflexivity.
  - apply andb_prop in Hall. destruct Hall as (Hx & Hl).
    rewrite (IH Hl).
    destruct x as [n | s]; simpl in *; [rewrite (str_int_within _ Hx) |]; reflexivity.
Qed.

Lemma comprehension_str_beyond `{Interpreter} (pair_ids : list int_or_str) :
  forallb renders pair_ids = false ->
  comprehension str pair_ids
  = inl limit_exceeded.
Proof.
  induction pair_ids as [| x l IH]; simpl; intros Hall.
  - discriminate.
  - destruct (renders x) eqn:Hx.
    + simpl in Hall. rewrite (IH Hall).
      destruct x as [n | s]; simpl in *; [rewrite (str_int_within _ Hx) |]; reflexivity.
    + destruct x as [n | s]; simpl in *; [| discriminate].
      now rewrite (str_int_beyond _ Hx).
Qed.

(** ** get_ohlcv_candles: the fields that are read *)

Lemma agree_getitem (a b : pyval) (k : string) :
  agree_on_candle_fields a b -> In k candle_fields -> getitem a k = getitem b k.
Proof.
  destruct a, b; simpl; try contradiction.
  intros Hag Hk. now rewrite (Hag k Hk).
Qed.

Lemma agree_reader (a b : pyval) :
  agree_on_candle_fields a b ->
  reader_next (Json a) = inr a /\ reader_next (Json b) = inr b.
Proof.
  destruct a, b; simpl; try contradiction. auto.
Qed.

Lemma same_groups_get (cd1 cd2 : pydict (list pyval)) (k : pyval) :
  same_groups cd1 cd2 ->
  match dict_get cd1 k, dict_get cd2 k with
  | Some l1, Some l2 => Forall2 agree_on_candle_fields l1 l2
  | None, None => True
  | _, _ => False
  end.
Proof.
  induction 1 as [| [k1 l1] [k2 l2] cd1 cd2 (Hk & Hl) _ IH]; simpl in *.
  - exact I.
  - subst k2. destruct (key_eqb k1 k); [exact Hl | exact IH].
Qed.

Lemma same_groups_set (cd1 cd2 : pydict (list pyval)) (k : pyval) (l1 l2 : list pyval) :
  same_groups cd1 cd2 ->
  Forall2 agree_on_candle_fields l1 l2 ->
  same_groups (dict_set cd1 k l1) (dict_set cd2 k l2).
Proof.
  intros Hcd Hl.
  induction Hcd as [| [k1 v1] [k2 v2] cd1 cd2 (Hk & Hv) Hcd IH]; simpl in *.
  - constructor; [split; [reflexivity | exact Hl] | constructor].
  - subst k2. destruct (key_eqb k1 k).
    + constructor; [split; [reflexivity | exact Hl] | exact Hcd].
    + constructor; [split; [reflexivity | exact Hv] | exact IH].
Qed.

Lemma same_groups_append (cd1 cd2 : pydict (list pyval)) (k a b : pyval) :
  same_groups cd1 cd2 ->
  agree_on_candle_fields a b ->
  result_rel same_groups (defaultdict_append cd1 k a) (defaultdict_append cd2 k b).
Proof.
  intros Hcd Hab.
  unfold defaultdict_append, defaultdict_getitem, check_hashable.
  destruct (hashable k); simpl; [| reflexivity].
  pose proof (same_groups_get _ _ k Hcd) as Hget.
  destruct (dict_get cd1 k) as [l1 |], (dict_get cd2 k) as [l2 |];
    simpl; try contradiction.
  - apply same_groups_set; trivial.
    apply Forall2_app; [exact Hget | constructor; [exact Hab | constructor]].
  - apply same_groups_set.
    + apply same_groups_set; [exact Hcd | constructor].
    + constructor; [exact Hab | constructor].
Qed.

Lemma group_items_agree (items1 items2 : list pyval) :
  Forall2 agree_on_candle_fields items1 items2 ->
  forall cd1 cd2,
    same_groups cd1 cd2 ->
    result_rel same_groups (group_items (map Json items1) cd1)
                           (group_items (map Json items2) cd2).
Proof.
  induction 1 as [| a b items1 items2 Hab _ IH]; intros cd1 cd2 Hcd.
  - exact Hcd.
  - cbn [map group_items].
    destruct (agree_reader _ _ Hab) as (-> & ->). cbn [bind].
    rewrite (agree_getitem a b "p" Hab) by (simpl; auto).
    destruct (getitem b "p") as [e | p]; cbn [bind]; [reflexivity |].
    pose proof (same_groups_append _ _ p _ _ Hcd Hab) as Happ.
    destruct (defaultdict_append cd1 p a) as [e1 | cd1'],
             (defaultdict_append cd2 p b) as [e2 | cd2'];
      simpl in Happ; try contradiction; cbn [bind].
    + exact Happ.
    + now apply IH.
Qed.

Lemma comprehension_Forall2 {A B} (f : A -> result B) (l1 l2 : list A) :
  Forall2 (fun a b => f a = f b) l1 l2 ->
  comprehension f l1 = comprehension f l2.
Proof.
  induction 1 as [| a b l1 l2 Hab _ IH]; simpl.
  - reflexivity.
  - now rewrite Hab, IH.
Qed.

Lemma candle_frame_agree `{Pandas} (l1 l2 : list pyval) :
  Forall2 agree_on_candle_fields l1 l2 -> candle_frame l1 = candle_frame l2.
Proof.
  intros Hl. unfold candle_frame.
  assert (Hfield : forall k, In k candle_fields ->
            comprehension (fun val => getitem val k) l1
            = comprehension (fun val => getitem val k) l2).
  { intros k Hk. apply comprehension_Forall2.
    eapply Forall2_impl; [| exact Hl].
    intros a b Hab. now apply agree_getitem. }
  rewrite !Hfield by (simpl; auto 8). reflexivity.
Qed.

Lemma build_frames_agree `{Pandas} (cd1 cd2 : pydict (list pyval)) :
  same_groups cd1 cd2 ->
  forall return_dict, build_frames cd1 return_dict = build_frames cd2 return_dict.
Proof.
  induction 1 as [| [k1 l1] [k2 l2] cd1 cd2 (Hk & Hl) _ IH]; intros rd; simpl in *.
  - reflexivity.
  - subst k2. rewrite (candle_frame_agree _ _ Hl).
    destruct (candle_frame l2) as [e | df]; simpl; [reflexivity | apply IH].
Qed.

(** ** Requests and local work *)

(** A request followed by local work: one request is issued, and the
    outcome is the outcome of the request followed by the work. *)
Lemma request_then_work `{Network} {A} (u : string) (streamed : bool)
  (work : Response -> result A) :
  requests_issued (response <~ requests_get u streamed ;; lift (work response))
  = [GET u streamed]
  /\ outcome (response <~ requests_get u streamed ;; lift (work response))
     = (response <- requests_get_outcome (GET u streamed) ;; work response).
Proof.
  unfold requests_get, io_bind, lift, requests_issued, outcome.
  destruct (requests_get_outcome _) as [e | r]; split; reflexivity.
Qed.

Lemma answered_outcome `{Network} {A} (u : string) (streamed : bool)
  (work : Response -> result A) (r : Response) :
  answered_by (response <~ requests_get u streamed ;; lift (work response)) r ->
  outcome (response <~ requests_get u streamed ;; lift (work response)) = work r.
Proof.
  destruct (request_then_work u streamed work) as (Hrq & ->).
  intros (rq & Hrq' & Hr). rewrite Hrq in Hrq'. injection Hrq' as <-.
  now rewrite Hr.
Qed.

Lemma singleton_eq {A} (a b : A) : [a] = [b] -> a = b.
Proof.
  now intros [= ->].
Qed.

(** Local work that succeeds issues no request. *)
Lemma io_bind_lift_inr {A B} (a : A) (k : A -> io B) :
  io_bind (lift (inr a)) k = k a.
Proof.
  unfold io_bind, lift. now destruct (k a).
Qed.

(** ** Lines and the records they stand for *)

Lemma pair_eqb_eq (a b : pyval) :
  pair_eqb a b = true <-> a = b /\ is_pair_identifier a = true.
Proof.
  destruct a, b; simpl;
    try (split; [discriminate | intros (Heq & Hp); discriminate]).
  - split.
    + intros Heq. apply Z.eqb_eq in Heq. now subst.
    + intros ([= ->] & _). apply Z.eqb_refl.
  - split.
    + intros Heq. apply String.eqb_eq in Heq. now subst.
    + intros ([= ->] & _). apply String.eqb_refl.
Qed.

(** On integers and strings a dict compares keys as [pair_eqb] does. *)
Lemma key_eqb_pair_eqb (a b : pyval) :
  is_pair_identifier a = true -> is_pair_identifier b = true ->
  key_eqb a b = pair_eqb a b.
Proof.
  destruct a, b; simpl; try discriminate; reflexivity.
Qed.

Lemma series_of_in_series `{Pandas} (k : pyval) (cs : list Candle) :
  is_pair_identifier k = true ->
  Forall (fun p => is_pair_identifier p = true) (map pair_id cs) ->
  filter (in_series k) cs = series_of k cs.
Proof.
  intros Hk Hcs. apply filter_ext_in. intros c Hc.
  apply key_eqb_pair_eqb; trivial.
  rewrite Forall_forall in Hcs. apply Hcs. now apply in_map.
Qed.

(** The lines of a pair stand for the records of that pair, in order. *)
Lemma lines_of_series `{Pandas} (k : pyval) (items : list pyval) (cs : list Candle) :
  Forall2 stands_for items cs ->
  Forall2 stands_for (lines_of k items) (series_of k cs).
Proof.
  induction 1 as [| item c items cs Hic _ IH]; simpl.
  - constructor.
  - destruct Hic as (Hp & Hrest). rewrite Hp.
    destruct (pair_eqb k (pair_id c)); [constructor |]; trivial.
    split; assumption.
Qed.

Lemma stands_for_decode `{Pandas} (item : pyval) (c : Candle) :
  stands_for item c -> decode item = inr c.
Proof.
  intros (Hp & Hts & Ho & Hh & Hl & Hc & Hv & Ht).
  destruct item; try discriminate. simpl in *.
  unfold decode, getitem.
  rewrite Hp, Hts, Ho, Hh, Hl, Hc, Hv. cbn [bind ret]. rewrite Ht. cbn [bind ret].
  now destruct c.
Qed.

Lemma candle_stream_decoded `{Pandas} (items : list pyval) (cs : list Candle) :
  Forall2 stands_for items cs ->
  forallb valid_record cs = true ->
  exists ics, items = map fst ics /\ cs = map snd ics /\ Decoded ics.
Proof.
  induction 1 as [| item c items cs Hic _ IH]; intros Hvalid.
  - exists []. repeat split. constructor.
  - simpl in Hvalid. apply andb_prop in Hvalid. destruct Hvalid as (Hc & Hcs).
    destruct (IH Hcs) as (ics & -> & -> & Hd).
    exists ((item, c) :: ics). repeat split. constructor; [| exact Hd].
    split; [now apply stands_for_decode |].
    unfold valid_record in Hc. now repeat (apply andb_prop in Hc; destruct Hc as (Hc & _)).
Qed.

(** ** get_ohlcv_candles *)

Section Candles.

Context `{Network} `{Pandas} `{Interpreter}.
Variables (self : DataService) (pair_ids : list int_or_str).
Variables (start_time end_time : string).
Variables (time_bucket : option string) (max_bytes : option Z).

Local Abbreviation call :=
  (get_ohlcv_candles self pair_ids start_time end_time time_bucket max_bytes).

Local Abbreviation bucket :=
  (match time_bucket with Some b => b | None => "15m"%string end).

Local Abbreviation bytes :=
  (match max_bytes with Some n => n | None => 250000000 end).

(** The run of the method when the identifiers and the byte bound can be
    rendered: the one request it issues, and its outcome in terms of the
    outcome of that request. *)
Lemma get_ohlcv_candles_rendered :
  forallb renders pair_ids = true ->
  within_limit bytes = true ->
  let rq := GET (api_url self ++ "candles-jsonl?pair_ids="
                 ++ join "," (map rendered pair_ids) ++ "&time_bucket=" ++ bucket
                 ++ "&start=" ++ start_time ++ "&end=" ++ end_time
                 ++ "&max_bytes=" ++ decimal bytes)%string true in
  requests_issued call = [rq]
  /\ outcome call
     = (response <- requests_get_outcome rq ;;
        candle_dict <- group_items (raw response) [] ;;
        build_frames candle_dict []).
Proof.
  intros Hids Hbytes rq.
  unfold get_ohlcv_candles.
  rewrite (comprehension_str _ Hids). cbn [bind ret].
  rewrite io_bind_lift_inr, (str_int_within _ Hbytes). cbn [bind ret].
  rewrite io_bind_lift_inr.
  apply request_then_work.
Qed.

(** The run of the method when an identifier or the byte bound cannot be
    rendered: no request, and the error of the rendering. *)
Lemma get_ohlcv_candles_not_rendered :
  forallb renders pair_ids && within_limit bytes = false ->
  requests_issued call = []
  /\ outcome call = inl limit_exceeded.
Proof.
  intros Hno. unfold get_ohlcv_candles.
  destruct (forallb renders pair_ids) eqn:Hids.
  - simpl in Hno.
    rewrite (comprehension_str _ Hids), (str_int_beyond _ Hno).
    split; reflexivity.
  - rewrite (comprehension_str_beyond _ Hids). split; reflexivity.
Qed.

(** When the method issues a request its outcome is the outcome of that
    request followed by the reading of the body. *)
Lemma get_ohlcv_candles_issued (rq : Request) :
  requests_issued call = [rq] ->
  outcome call
  = (response <- requests_get_outcome rq ;;
     candle_dict <- group_items (raw response) [] ;;
     build_frames candle_dict []).
Proof.
  intros Hrq.
  destruct (forallb renders pair_ids && within_limit bytes) eqn:Hok.
  - apply andb_prop in Hok. destruct Hok as (Hids & Hbytes).
    pose proof (get_ohlcv_candles_rendered Hids Hbytes) as Hrun. cbv zeta in Hrun.
    destruct Hrun as (Hrq' & Hout).
    rewrite Hrq in Hrq'. apply singleton_eq in Hrq'.
    rewrite Hout, <- Hrq'. reflexivity.
  - destruct (get_ohlcv_candles_not_rendered Hok) as (Hrq' & _).
    rewrite Hrq in Hrq'. discriminate.
Qed.

Lemma get_ohlcv_candles_answered (r : Response) :
  answered_by call r ->
  outcome call = (candle_dict <- group_items (raw r) [] ;; build_frames candle_dict []).
Proof.
  intros (rq & Hrq & Hr).
  rewrite (get_ohlcv_candles_issued _ Hrq), Hr. reflexivity.
Qed.

Lemma valid_stream_collection (r : Response) (items : list pyval) :
  answered_by call r ->
  valid_stream (raw r) items ->
  exists ics,
    items = map fst ics /\ Decoded ics
    /\ comprehension decode items = inr (map snd ics)
    /\ Forall (fun k => is_pair_identifier k = true) (map pair_id (map snd ics))
    /\ outcome call = inr (collection (map snd ics)).
Proof.
  intros Hans (Hraw & Hvalid).
  destruct (valid_items_decoded items Hvalid) as (ics & -> & Hd).
  exists ics. split; [reflexivity |]. split; [exact Hd |].
  split; [now apply Decoded_comprehension |].
  split; [now apply Decoded_pair_ids |].
  rewrite (get_ohlcv_candles_answered _ Hans), Hraw.
  now apply read_valid_stream.
Qed.

Lemma candle_stream_collection (r : Response) (items : list pyval) (cs : list Candle) :
  answered_by call r ->
  candle_stream (raw r) items cs ->
  Forall (fun k => is_pair_identifier k = true) (map pair_id cs)
  /\ outcome call = inr (collection cs).
Proof.
  intros Hans (Hraw & Hstands & Hvalid).
  destruct (candle_stream_decoded _ _ Hstands Hvalid) as (ics & -> & -> & Hd).
  split; [now apply Decoded_pair_ids |].
  rewrite (get_ohlcv_candles_answered _ Hans), Hraw.
  now apply read_valid_stream.
Qed.

(** *** Grouping *)

(** C1. For every non-empty valid candle line-stream the method returns a
    collection in which every input record appears in exactly one series,
    under the key equal to its pair identifier: the collection is not
    empty, its keys are pairwise distinct, the rows of the collection taken
    with the key of their series are a rearrangement of the records of the
    stream taken with their pair identifier (so each record of the stream
    occurs once, and nothing else occurs), and the series kept under the
    pair identifier of a record holds the row of that record.  The row of a
    record is its time and its five values as pandas stores them in the
    columns of the series of its pair. *)
Theorem every_record_in_exactly_one_series (r : Response) (items : list pyval)
  (cs : list Candle) :
  answered_by call r ->
  candle_stream (raw r) items cs ->
  items <> [] ->
  exists out,
    outcome call = inr out
    /\ out <> []
    /\ NoDup (map fst out)
    /\ Permutation
         (map (fun c => (pair_id c, stored_row (series_of (pair_id c) cs) c)) cs)
         (entries out)
    /\ forall c, In c cs ->
         exists df, In (pair_id c, df) out
                    /\ dict_get out (pair_id c) = Some df
                    /\ In (stored_row (series_of (pair_id c) cs) c) (df_rows df).
Proof.
  intros Hans Hstream Hne.
  destruct (candle_stream_collection _ _ _ Hans Hstream) as (Hpid & Hout).
  destruct Hstream as (_ & Hstands & _).
  assert (Hmine : forall c, In c cs ->
            filter (in_series (pair_id c)) cs = series_of (pair_id c) cs).
  { intros c Hc. apply series_of_in_series; trivial.
    rewrite Forall_forall in Hpid. apply Hpid. now apply in_map. }
  exists (collection cs).
  split; [exact Hout |]. split; [| split; [| split]].
  - destruct Hstands as [| item c items cs _ _]; [now contradiction Hne |].
    unfold collection. simpl. discriminate.
  - rewrite collection_keys. now apply first_seen_from_NoDup.
  - rewrite <- (collection_entries cs Hpid).
    apply Permutation_refl'. apply map_ext_in. intros c Hc.
    now rewrite (Hmine c Hc).
  - intros c Hc.
    assert (Hcp : is_pair_identifier (pair_id c) = true)
      by (rewrite Forall_forall in Hpid; apply Hpid; now apply in_map).
    exists (frame_of (filter (in_series (pair_id c)) cs)).
    split; [| split].
    + apply collection_In. split; [| reflexivity].
      apply first_seen_from_In; trivial. now apply in_map.
    + apply collection_get; trivial. now apply in_map.
    + rewrite rows_frame_of, (Hmine c Hc). apply in_map.
      apply filter_In. split; [exact Hc |].
      apply pair_eqb_eq. now split.
Qed.

(** C2. For every valid candle line-stream, each series of the returned
    collection has as many rows as the stream has lines whose [p] is the key
    of the series, and every column has that length; the lines of that pair
    stand, in stream order, for the records of the series; the timestamps
    of the series are the times of these records in stream order; and the
    n-th record of the pair supplies the n-th timestamp and the n-th open,
    high, low, close and volume of the series, each as pandas stores it in
    its column: the fields of one record stay in one row. *)
Theorem series_count_order_alignment (r : Response) (items : list pyval)
  (cs : list Candle) :
  answered_by call r ->
  candle_stream (raw r) items cs ->
  exists out,
    outcome call = inr out
    /\ forall k df, In (k, df) out ->
         let mine := series_of k cs in
         List.length (df_index df) = List.length (lines_of k items)
         /\ (forall name col, In (name, col) (df_data df) ->
                              List.length col = List.length (df_index df))
         /\ Forall2 stands_for (lines_of k items) mine
         /\ df_index df = map time mine
         /\ df_rows df = map (stored_row mine) mine
         /\ forall n c, nth_error mine n = Some c ->
              nth_error (df_index df) n = Some (time c)
              /\ df_cell df "Open" n = Some (stored (map open mine) (open c))
              /\ df_cell df "High" n = Some (stored (map high mine) (high c))
              /\ df_cell df "Low" n = Some (stored (map low mine) (low c))
              /\ df_cell df "Close" n = Some (stored (map close mine) (close c))
              /\ df_cell df "Volume" n = Some (stored (map volume mine) (volume c)).
Proof.
  intros Hans Hstream.
  destruct (candle_stream_collection _ _ _ Hans Hstream) as (Hpid & Hout).
  destruct Hstream as (_ & Hstands & _).
  exists (collection cs). split; [exact Hout |].
  intros k df Hin mine. apply collection_In in Hin. destruct Hin as (Hk & ->).
  assert (Hkp : is_pair_identifier k = true).
  { apply first_seen_from_unseen in Hk. destruct Hk as (_ & Hk).
    rewrite Forall_forall in Hpid. now apply Hpid. }
  rewrite (series_of_in_series k cs Hkp Hpid). fold mine.
  pose proof (lines_of_series k _ _ Hstands) as Hlines. fold mine in Hlines.
  split; [| split; [| split; [| split; [| split]]]].
  - cbn [frame_of df_index]. rewrite length_map. symmetry.
    exact (Forall2_length Hlines).
  - cbn [frame_of df_index df_data]. intros name col Hcol.
    repeat (destruct Hcol as [Hcol | Hcol];
            [injection Hcol as _ <-; now rewrite !length_map |]).
    contradiction.
  - exact Hlines.
  - reflexivity.
  - apply rows_frame_of.
  - intros n c Hn. unfold df_cell. cbn [frame_of df_index df_data df_column].
    simpl String.eqb. cbv iota.
    repeat split; rewrite ?(map_map _ (stored _));
      exact (map_nth_error _ _ _ Hn).
Qed.


(** C6. When the candle response stream has no line, the method returns the
    empty collection and raises nothing. *)
Theorem empty_stream_empty_collection (r : Response) :
  answered_by call r ->
  raw r = [] ->
  outcome call = inr [].
Proof.
  intros Hans Hraw.
  rewrite (get_ohlcv_candles_answered _ Hans), Hraw.
  reflexivity.
Qed.

(** *** Errors *)

(** C4. If a line of the candle response stream is an object without the
    [p] field, the method raises: it returns no collection, so the line is
    not dropped and no partial result comes back.  When the lines before it
    are valid candle lines, the exception is the [KeyError] of the missing
    key. *)
Theorem missing_p_raises (r : Response) (d : list (string * pyval)) :
  answered_by call r ->
  In (Json (PDict d)) (raw r) ->
  assoc "p" d = None ->
  (exists e, outcome call = inl e)
  /\ forall items rest,
       raw r = map Json items ++ Json (PDict d) :: rest ->
       forallb valid_candle items = true ->
       outcome call = inl (KeyError "p").
Proof.
  intros Hans Hin Hp.
  rewrite (get_ohlcv_candles_answered _ Hans).
  split.
  - destruct (group_items_missing_p _ _ Hin Hp []) as (e & ->).
    exists e. reflexivity.
  - intros items rest -> Hvalid.
    destruct (valid_items_decoded items Hvalid) as (ics & -> & Hd).
    rewrite group_items_app, map_map.
    rewrite (group_items_closed ics Hd []) by constructor.
    simpl. rewrite Hp. reflexivity.
Qed.

(** *** The request *)

(** C7. For every [pair_ids] list whose integer identifiers, like the byte
    bound, have no more digits than the interpreter allows in a string, the
    method issues exactly one GET, streamed, whose URL is the base URL
    followed by
    [candles-jsonl?pair_ids=<csv>&time_bucket=<bucket>&start=<start>&end=<end>&max_bytes=<bytes>];
    when one of them has more digits the method raises [ValueError] and
    issues no request.  The bucket defaults to [15m] and the byte bound to
    [250000000], which every interpreter renders; and [<csv>] is the
    rendering of the identifiers joined with commas in the given order, one
    field per element of the list, duplicates included: for integer
    identifiers the field determines the list, with its order and its
    repetitions. *)
Theorem one_get_with_the_candles_url :
  let csv := join "," (map rendered pair_ids) in
  (forallb renders pair_ids = true -> within_limit bytes = true ->
   requests_issued call
   = [GET (api_url self ++ "candles-jsonl?pair_ids=" ++ csv ++ "&time_bucket=" ++ bucket
           ++ "&start=" ++ start_time ++ "&end=" ++ end_time
           ++ "&max_bytes=" ++ decimal bytes)%string true])
  /\ (forallb renders pair_ids && within_limit bytes = false ->
      requests_issued call = []
      /\ outcome call
         = inl limit_exceeded)
  /\ (within_limit 250000000 = true /\ decimal 250000000 = "250000000"%string)
  /\ (forall x, join "," (map rendered [x]) = rendered x)
  /\ (forall x y l, join "," (map rendered (x :: y :: l))
                    = (rendered x ++ "," ++ join "," (map rendered (y :: l)))%string)
  /\ join "," (map rendered [IdInt 7; IdInt 7; IdStr "7"]) = "7,7,7"%string
  /\ (forall l1 l2 : list Z,
        join "," (map rendered (map IdInt l1)) = join "," (map rendered (map IdInt l2)) ->
        l1 = l2).
Proof.
  intros csv. split; [| split; [| split; [| split; [| split; [| split]]]]].
  - intros Hids Hbytes. now destruct (get_ohlcv_candles_rendered Hids Hbytes).
  - exact get_ohlcv_candles_not_rendered.
  - split; [| reflexivity]. apply within_limit_small. vm_compute. discriminate.
  - reflexivity.
  - reflexivity.
  - reflexivity.
  - exact csv_of_integers_inj.
Qed.

(** C9. With an empty [pair_ids] list and a byte bound that can be
    rendered (as the default always can), nothing is raised while the
    request is built: the comma-join of the empty list is the empty string,
    the request is issued with [pair_ids=] and an empty value, and the
    outcome of the call is the outcome of that request followed by the
    reading of the body.  That the list is not empty is checked nowhere. *)
Theorem empty_pair_ids_still_requests :
  let rq := GET (api_url self ++ "candles-jsonl?pair_ids=&time_bucket=" ++ bucket
                 ++ "&start=" ++ start_time ++ "&end=" ++ end_time
                 ++ "&max_bytes=" ++ decimal bytes)%string true in
  (forall n, max_bytes = Some n -> within_limit n = true) ->
  comprehension str [] = inr []
  /\ join "," [] = ""%string
  /\ requests_issued (get_ohlcv_candles self [] start_time end_time time_bucket max_bytes)
     = [rq]
  /\ outcome (get_ohlcv_candles self [] start_time end_time time_bucket max_bytes)
     = (response <- requests_get_outcome rq ;;
        candle_dict <- group_items (raw response) [] ;;
        build_frames candle_dict []).
Proof.
  intros rq Hbytes.
  assert (Hwithin : within_limit bytes = true).
  { destruct max_bytes as [n |]; [now apply Hbytes |].
    apply within_limit_small. vm_compute. discriminate. }
  split; [reflexivity |]. split; [reflexivity |].
  unfold get_ohlcv_candles. cbn [comprehension bind ret].
  rewrite io_bind_lift_inr, (str_int_within _ Hwithin). cbn [bind ret].
  rewrite io_bind_lift_inr.
  apply request_then_work.
Qed.

End Candles.

(** ** get_ohlcv_candles against two servers *)

Section TwoServers.

Variables (N1 N2 : Network) (P : Pandas) (Py : Interpreter).
Variables (self : DataService) (pair_ids : list int_or_str).
Variables (start_time end_time : string).
Variables (time_bucket : option string) (max_bytes : option Z).

Local Abbreviation call1 :=
  (@get_ohlcv_candles N1 P Py self pair_ids start_time end_time time_bucket max_bytes).
Local Abbreviation call2 :=
  (@get_ohlcv_candles N2 P Py self pair_ids start_time end_time time_bucket max_bytes).

(** C5, as the code has it.  The method fails with the exception of the
    HTTP request when the request cannot be completed ([requests.get]
    raises).  The status of a response is not looked at: two responses with
    the same body give the same outcome whatever their status codes, so the
    body of a response with a non-2xx status is read as candle lines like
    any other. *)
Theorem transport_failure_raises_status_unchecked :
  (forall rq e,
     requests_issued call1 = [rq] ->
     @requests_get_outcome N1 rq = inl e ->
     outcome call1 = inl e)
  /\ (forall r1 r2,
        @answered_by N1 _ call1 r1 ->
        @answered_by N2 _ call2 r2 ->
        raw r1 = raw r2 ->
        outcome call1 = outcome call2).
Proof.
  split.
  - intros rq e Hrq He.
    rewrite (@get_ohlcv_candles_issued N1 P Py _ _ _ _ _ _ _ Hrq), He. reflexivity.
  - intros r1 r2 H1 H2 Hraw.
    rewrite (@get_ohlcv_candles_answered N1 P Py _ _ _ _ _ _ _ H1).
    rewrite (@get_ohlcv_candles_answered N2 P Py _ _ _ _ _ _ _ H2).
    now rewrite Hraw.
Qed.

(** C10. The outcome of the method depends only on the fields [p], [ts],
    [o], [h], [l], [c] and [v] of each line: two streams of equal length
    whose corresponding lines are objects that agree on these seven fields
    give the same outcome, the same collection or the same exception, so
    any other field of a line is ignored. *)
Theorem only_the_seven_fields_matter (r1 r2 : Response) (items1 items2 : list pyval) :
  @answered_by N1 _ call1 r1 ->
  @answered_by N2 _ call2 r2 ->
  raw r1 = map Json items1 ->
  raw r2 = map Json items2 ->
  Forall2 agree_on_candle_fields items1 items2 ->
  outcome call1 = outcome call2.
Proof.
  intros H1 H2 Hraw1 Hraw2 Hagree.
  rewrite (@get_ohlcv_candles_answered N1 P Py _ _ _ _ _ _ _ H1).
  rewrite (@get_ohlcv_candles_answered N2 P Py _ _ _ _ _ _ _ H2).
  rewrite Hraw1, Hraw2.
  pose proof (group_items_agree _ _ Hagree [] [] (Forall2_nil _)) as Hg.
  destruct (group_items (map Json items1) []) as [e1 | cd1],
           (group_items (map Json items2) []) as [e2 | cd2];
    simpl in Hg; try contradiction; cbn [bind].
  - now subst e2.
  - now apply build_frames_agree.
Qed.

End TwoServers.

(** ** Tables built from the elements of a response *)

Lemma listed_getitem (key : string) (objs values : list pyval) :
  listed key objs values ->
  comprehension (fun obj => getitem obj key) objs = inr values.
Proof.
  induction 1 as [| obj v objs values (Hv & _) _ IH]; simpl.
  - reflexivity.
  - destruct obj; try discriminate. simpl in Hv. unfold getitem at 1.
    rewrite Hv. cbn [bind ret]. now rewrite IH.
Qed.

Lemma Forall2_nth_error {A B} (R : A -> B -> Prop) (l : list A) (l' : list B) :
  Forall2 R l l' ->
  forall n x, nth_error l n = Some x -> exists y, nth_error l' n = Some y /\ R x y.
Proof.
  induction 1 as [| a b l l' Hab _ IH]; intros [| n] x Hn; simpl in *; try discriminate.
  - injection Hn as <-. eauto.
  - now apply IH.
Qed.

Lemma listed_nth (key : string) (objs values : list pyval) (n : nat) (obj : pyval) :
  listed key objs values ->
  nth_error objs n = Some obj ->
  exists v, line_field key obj = Some v /\ nth_error values n = Some v.
Proof.
  intros Hl Hn.
  destruct (Forall2_nth_error _ _ _ Hl n obj Hn) as (v & Hv & Hf & _).
  eauto.
Qed.

Lemma rows_length {I} (index : list I) (columns : list (list pyval)) :
  List.length (rows index columns) = List.length index.
Proof.
  revert columns. induction index as [| i index IH]; intros columns; simpl.
  - reflexivity.
  - now rewrite IH.
Qed.

(** Row [n] of a table: the n-th label with the n-th cell of every
    column. *)
Lemma rows_nth {I} (index : list I) (columns : list (list pyval)) (n : nat) :
  nth_error (rows index columns) n
  = option_map (fun i => (i, map (fun col => nth n col PNone) columns))
               (nth_error index n).
Proof.
  revert columns n. induction index as [| i index IH]; intros columns [| n]; simpl;
    trivial.
  - f_equal. f_equal. apply map_ext. now intros [| x col].
  - rewrite IH. rewrite map_map.
    destruct (nth_error index n); simpl; [| reflexivity].
    f_equal. f_equal. apply map_ext. intros [| x col]; simpl; [now destruct n | reflexivity].
Qed.

Lemma stored_nth (f : pyval -> pyval) (values : list pyval) (n : nat) (v : pyval) :
  nth_error values n = Some v -> nth n (map f values) PNone = f v.
Proof.
  intros Hn. apply nth_error_nth. now apply map_nth_error.
Qed.

(** ** get_chain_data *)

Lemma get_chain_data_answered `{Network} `{Pandas} (self : DataService) (r : Response) :
  answered_by (get_chain_data self) r ->
  outcome (get_chain_data self)
  = (js <- json r ;;
     it <- py_iter js ;;
     chain_names <- comprehension (fun chain => getitem chain "chain_name") it ;;
     js <- json r ;;
     it <- py_iter js ;;
     chain_slugs <- comprehension (fun chain => getitem chain "chain_slug") it ;;
     js <- json r ;;
     it <- py_iter js ;;
     chain_id <- comprehension (fun chain => getitem chain "chain_id") it ;;
     pd_DataFrame [("name"%string, chain_names); ("slug"%string, chain_slugs)]
                  (pd_Index chain_id)).
Proof.
  unfold answered_by, get_chain_data, requests_get, io_bind, lift,
    requests_issued, outcome.
  intros (rq & Hrq & Hr).
  destruct (requests_get_outcome _) as [e | r'] eqn:Hq;
    cbn [fst snd app] in *; injection Hrq as <-; rewrite Hq in Hr.
  - discriminate.
  - now injection Hr as ->.
Qed.

(** C8. For every chains response that is a JSON array of chain objects,
    each with a scalar [chain_id], [chain_name] and [chain_slug], the table
    returned by [get_chain_data] has as many rows as the array has
    elements, and row [n] is made of the n-th chain alone: its label is that
    chain's [chain_id] and its cells are that chain's [chain_name] and
    [chain_slug], each as pandas stores it in the index or in its column,
    which is exactly as it is when the ids, the names and the slugs are
    each all strings, all 64-bit integers or all floats; conversely every
    row of the table is the row of the chain at that position. *)
Theorem chains_table_rows `{Network} `{Pandas} (self : DataService) (r : Response)
  (chains ids names slugs : list pyval) :
  answered_by (get_chain_data self) r ->
  json r = inr (PList chains) ->
  listed "chain_id" chains ids ->
  listed "chain_name" chains names ->
  listed "chain_slug" chains slugs ->
  exists df,
    outcome (get_chain_data self) = inr df
    /\ List.length (df_index df) = List.length chains
    /\ List.length (df_rows df) = List.length chains
    /\ (forall name col, In (name, col) (df_data df) ->
                         List.length col = List.length chains)
    /\ (forall n chain, nth_error chains n = Some chain ->
          exists id name slug,
            line_field "chain_id" chain = Some id
            /\ line_field "chain_name" chain = Some name
            /\ line_field "chain_slug" chain = Some slug
            /\ nth_error (df_index df) n = Some (stored_label ids id)
            /\ df_cell df "name" n = Some (stored names name)
            /\ df_cell df "slug" n = Some (stored slugs slug)
            /\ nth_error (df_rows df) n
               = Some (stored_label ids id, [stored names name; stored slugs slug])
            /\ (homogeneous ids = true -> homogeneous names = true ->
                homogeneous slugs = true ->
                nth_error (df_rows df) n = Some (id, [name; slug])))
    /\ (forall n row, nth_error (df_rows df) n = Some row ->
          exists chain id name slug,
            nth_error chains n = Some chain
            /\ line_field "chain_id" chain = Some id
            /\ line_field "chain_name" chain = Some name
            /\ line_field "chain_slug" chain = Some slug
            /\ row = (stored_label ids id, [stored names name; stored slugs slug])).
Proof.
  intros Hans Hjson Hids Hnames Hslugs.
  pose proof (Forall2_length Hids) as Lids.
  pose proof (Forall2_length Hnames) as Lnames.
  pose proof (Forall2_length Hslugs) as Lslugs.
  set (df := {| df_index := map (stored_label ids) ids;
                df_data := [("name"%string, map (stored names) names);
                            ("slug"%string, map (stored slugs) slugs)] |}).
  assert (Hrow : forall n chain, nth_error chains n = Some chain ->
            exists id name slug,
              line_field "chain_id" chain = Some id
              /\ line_field "chain_name" chain = Some name
              /\ line_field "chain_slug" chain = Some slug
              /\ nth_error ids n = Some id
              /\ nth_error names n = Some name
              /\ nth_error slugs n = Some slug).
  { intros n chain Hn.
    destruct (Forall2_nth_error _ _ _ Hids n chain Hn) as (id & Hid & Hfid & _).
    destruct (Forall2_nth_error _ _ _ Hnames n chain Hn) as (name & Hname & Hfname & _).
    destruct (Forall2_nth_error _ _ _ Hslugs n chain Hn) as (slug & Hslug & Hfslug & _).
    exists id, name, slug. auto 7. }
  assert (Hrows : forall n chain id name slug,
            nth_error chains n = Some chain ->
            nth_error ids n = Some id -> nth_error names n = Some name ->
            nth_error slugs n = Some slug ->
            nth_error (df_rows df) n
            = Some (stored_label ids id, [stored names name; stored slugs slug])).
  { intros n chain id name slug Hn Hid Hname Hslug.
    unfold df_rows, df. cbn [df_index df_data map snd].
    rewrite rows_nth, (map_nth_error _ _ _ Hid). cbn [option_map map].
    now rewrite (stored_nth _ _ _ _ Hname), (stored_nth _ _ _ _ Hslug). }
  exists df. split; [| split; [| split; [| split; [| split]]]].
  - rewrite (get_chain_data_answered _ _ Hans), Hjson. cbn [bind py_iter ret].
    rewrite (listed_getitem _ _ _ Hnames). cbn [bind].
    rewrite (listed_getitem _ _ _ Hslugs). cbn [bind].
    rewrite (listed_getitem _ _ _ Hids). cbn [bind].
    rewrite pd_Index_stored, pd_DataFrame_built; [reflexivity |].
    repeat constructor; cbn [snd]; rewrite length_map; congruence.
  - unfold df. cbn [df_index]. now rewrite length_map.
  - unfold df_rows. rewrite rows_length. unfold df. cbn [df_index].
    now rewrite length_map.
  - unfold df. cbn [df_data]. intros name col [Hcol | [Hcol | []]];
      injection Hcol as _ <-; now rewrite length_map.
  - intros n chain Hn.
    destruct (Hrow n chain Hn) as (id & name & slug & Hfid & Hfname & Hfslug
                                   & Hid & Hname & Hslug).
    exists id, name, slug.
    split; [exact Hfid |]. split; [exact Hfname |]. split; [exact Hfslug |].
    split; [| split; [| split; [| split]]].
    + unfold df. cbn [df_index]. now apply map_nth_error.
    + unfold df_cell, df. cbn [df_data df_column]. simpl String.eqb. cbv iota.
      now apply map_nth_error.
    + unfold df_cell, df. cbn [df_data df_column]. simpl String.eqb. cbv iota.
      now apply map_nth_error.
    + now apply (Hrows n chain).
    + intros Kids Knames Kslugs. rewrite (Hrows n chain id name slug) by assumption.
      now rewrite (stored_label_homogeneous _ _ Kids), (stored_homogeneous _ _ Knames),
        (stored_homogeneous _ _ Kslugs).
  - intros n row Hn.
    assert (Hlt : (n < List.length (df_rows df))%nat)
      by (apply nth_error_Some; now rewrite Hn).
    unfold df_rows in Hlt. rewrite rows_length in Hlt.
    unfold df in Hlt. cbn [df_index] in Hlt. rewrite length_map, <- Lids in Hlt.
    destruct (nth_error chains n) as [chain |] eqn:Hchain;
      [| apply nth_error_None in Hchain; lia].
    destruct (Hrow n chain Hchain) as (id & name & slug & Hfid & Hfname & Hfslug
                                       & Hid & Hname & Hslug).
    exists chain, id, name, slug. repeat split; trivial.
    rewrite (Hrows n chain id name slug) in Hn by assumption.
    now injection Hn as <-.
Qed.

(** ** The methods at work *)

Example candles_request :
  requests_issued (@get_ohlcv_candles offline pandas_ns cpython_default svc
                     [IdInt 17; IdStr "42"; IdInt 17] "2024-01-01" "2024-02-01" None None)
  = [GET "https://tradingstrategy.ai/api/candles-jsonl?pair_ids=17,42,17&time_bucket=15m&start=2024-01-01&end=2024-02-01&max_bytes=250000000"
         true].
Proof. reflexivity. Qed.

(** The round trip of the specification: three pair identifiers with two,
    one and three points give three series of these lengths, the keys in
    order of first occurrence. *)
Example three_pairs_round_trip :
  match outcome (@get_ohlcv_candles (answers (body 200 (map Json six_candles))) pandas_ns cpython_default
                   svc [IdInt 1; IdInt 2; IdInt 3] "2024-01-01" "2024-01-02" None None) with
  | inr out => map (fun kdf => (fst kdf, df_index (snd kdf))) out
  | inl _ => []
  end
  = [(PInt 3, [60000000000; 120000000000; 180000000000]);
     (PInt 1, [60000000000; 120000000000]);
     (PInt 2, [60000000000])].
Proof. reflexivity. Qed.

(** Outside the valid streams: [1], [1.0] and [true] are one key of a
    Python dict, so the three lines end in one series, kept under the key
    seen first. *)
Example equal_numbers_share_a_series :
  match outcome (@get_ohlcv_candles (answers (body 200 (map Json one_three_ways))) pandas_ns cpython_default
                   svc [IdInt 1] "2024-01-01" "2024-01-02" None None) with
  | inr out => map (fun kdf => (fst kdf, df_index (snd kdf))) out
  | inl _ => []
  end
  = [(PInt 1, [60000000000; 120000000000; 180000000000])].
Proof. reflexivity. Qed.

Example chains_table :
  outcome (@get_chain_data (answers chains_response) pandas_ns svc)
  = inr {| df_index := [PInt 1; PInt 56];
           df_data := [("name", [PStr "Ethereum"; PStr "BNB Smart Chain"]);
                       ("slug", [PStr "ethereum"; PStr "binance"])]%string |}.
Proof. reflexivity. Qed.

(** A chains response that is not an array of objects raises. *)
Example chains_not_objects :
  outcome (@get_chain_data
             (answers {| status_code := 200; raw := [];
                         json := ret (PDict [("error", PStr "down")]%string) |})
             pandas_ns svc)
  = inl (TypeError "string indices must be integers").
Proof. reflexivity. Qed.

(** A column that holds an integer beside a float is stored as floats: the
    opening prices [5] and [5.5] of pair 1 come back as [5.0] and [5.5],
    while its other columns, all integers, stay integers. *)
Example mixed_column_is_stored_as_floats :
  outcome (@get_ohlcv_candles (answers (body 200 (map Json mixed_candles))) pandas_ns
             cpython_default svc [IdInt 1; IdInt 2] "2024-01-01" "2024-01-02" None None)
  = inr [(PInt 1,
          {| df_index := [60000000000; 120000000000];
             df_data := [("Open", [PFloat (S754_finite false 5629499534213120 (-50));
                                   PFloat five_and_a_half]);
                         ("High", [PInt 6; PInt 7]); ("Low", [PInt 4; PInt 5]);
                         ("Close", [PInt 5; PInt 6]);
                         ("Volume", [PInt 7; PInt 9])]%string |});
         (PInt 2,
          {| df_index := [60000000000];
             df_data := [("Open", [PInt 6]); ("High", [PInt 6]); ("Low", [PInt 6]);
                         ("Close", [PInt 6]); ("Volume", [PInt 8])]%string |})].
Proof. reflexivity. Qed.

(** An interpreter without limit renders an identifier of 4301 digits, and
    the request is issued. *)
Example huge_pair_id_without_limit :
  exists rq,
    requests_issued (@get_ohlcv_candles offline pandas_ns cpython_unlimited svc
                       [IdInt (written_with_ones 4301)] "2024-01-01" "2024-01-02"
                       None None)
    = [rq].
Proof.
  eexists.
  apply (@get_ohlcv_candles_rendered offline pandas_ns cpython_unlimited svc
           [IdInt (written_with_ones 4301)] "2024-01-01" "2024-01-02" None None);
    reflexivity.
Qed.

(** ** The theorems at work *)

Lemma every_record_in_exactly_one_series_witness :
  exists out,
    outcome (@get_ohlcv_candles (answers (body 200 (map Json three_candles))) pandas_ns
               cpython_default svc [IdInt 1; IdInt 2] "2024-01-01" "2024-01-02" None None)
    = inr out
    /\ out <> []
    /\ NoDup (map fst out)
    /\ Permutation
         (map (fun c => (pair_id c, stored_row (series_of (pair_id c) three_records) c))
              three_records)
         (entries out)
    /\ forall c, In c three_records ->
         exists df, In (pair_id c, df) out
                    /\ dict_get out (pair_id c) = Some df
                    /\ In (stored_row (series_of (pair_id c) three_records) c) (df_rows df).
Proof.
  apply (@every_record_in_exactly_one_series
           (answers (body 200 (map Json three_candles))) pandas_ns cpython_default svc
           [IdInt 1; IdInt 2] "2024-01-01" "2024-01-02" None None
           (body 200 (map Json three_candles)) three_candles three_records).
  - eexists. split; reflexivity.
  - split; [reflexivity |]. split; [| reflexivity]. repeat constructor.
  - discriminate.
Defined.

Lemma series_count_order_alignment_witness :
  exists out,
    outcome (@get_ohlcv_candles (answers (body 200 (map Json mixed_candles))) pandas_ns
               cpython_default svc [IdInt 1; IdInt 2] "2024-01-01" "2024-01-02" None None)
    = inr out
    /\ forall k df, In (k, df) out ->
         let mine := @series_of pandas_ns k mixed_records in
         List.length (df_index df) = List.length (lines_of k mixed_candles)
         /\ (forall name col, In (name, col) (df_data df) ->
                              List.length col = List.length (df_index df))
         /\ Forall2 (@stands_for pandas_ns) (lines_of k mixed_candles) mine
         /\ df_index df = map time mine
         /\ df_rows df = map (stored_row mine) mine
         /\ forall n c, nth_error mine n = Some c ->
              nth_error (df_index df) n = Some (time c)
              /\ df_cell df "Open" n = Some (@stored pandas_ns (map open mine) (open c))
              /\ df_cell df "High" n = Some (@stored pandas_ns (map high mine) (high c))
              /\ df_cell df "Low" n = Some (@stored pandas_ns (map low mine) (low c))
              /\ df_cell df "Close" n = Some (@stored pandas_ns (map close mine) (close c))
              /\ df_cell df "Volume" n = Some (@stored pandas_ns (map volume mine) (volume c)).
Proof.
  apply (@series_count_order_alignment
           (answers (body 200 (map Json mixed_candles))) pandas_ns cpython_default svc
           [IdInt 1; IdInt 2] "2024-01-01" "2024-01-02" None None
           (body 200 (map Json mixed_candles)) mixed_candles mixed_records).
  - eexists. split; reflexivity.
  - split; [reflexivity |]. split; [| reflexivity]. repeat constructor.
Defined.


Lemma missing_p_raises_witness :
  (exists e,
     outcome (@get_ohlcv_candles (answers (body 200 stream_missing_p)) pandas_ns cpython_default
                svc [IdInt 1] "2024-01-01" "2024-01-02" None None) = inl e)
  /\ forall items rest,
       raw (body 200 stream_missing_p)
       = map Json items ++ Json (PDict [("ts", PInt 120)]%string) :: rest ->
       forallb (@valid_candle pandas_ns) items = true ->
       outcome (@get_ohlcv_candles (answers (body 200 stream_missing_p)) pandas_ns cpython_default
                  svc [IdInt 1] "2024-01-01" "2024-01-02" None None)
       = inl (KeyError "p").
Proof.
  apply (@missing_p_raises (answers (body 200 stream_missing_p)) pandas_ns cpython_default svc
           [IdInt 1] "2024-01-01" "2024-01-02" None None
           (body 200 stream_missing_p) [("ts", PInt 120)]%string).
  - eexists. split; reflexivity.
  - simpl. right. left. reflexivity.
  - reflexivity.
Defined.

Lemma empty_stream_empty_collection_witness :
  outcome (@get_ohlcv_candles (answers (body 200 [])) pandas_ns cpython_default
             svc [IdInt 1] "2024-01-01" "2024-01-02" None None) = inr [].
Proof.
  apply (@empty_stream_empty_collection (answers (body 200 [])) pandas_ns cpython_default svc
           [IdInt 1] "2024-01-01" "2024-01-02" None None (body 200 [])).
  - eexists. split; reflexivity.
  - reflexivity.
Defined.

Lemma transport_failure_raises_status_unchecked_witness :
  outcome (@get_ohlcv_candles offline pandas_ns cpython_default
             svc [IdInt 1] "2024-01-01" "2024-01-02" None None)
  = inl (RequestException "ConnectionError")
  /\ outcome (@get_ohlcv_candles (answers (body 200 (map Json three_candles))) pandas_ns cpython_default
                svc [IdInt 1] "2024-01-01" "2024-01-02" None None)
     = outcome (@get_ohlcv_candles (answers (body 503 (map Json three_candles))) pandas_ns cpython_default
                  svc [IdInt 1] "2024-01-01" "2024-01-02" None None).
Proof.
  split.
  - eapply (proj1 (transport_failure_raises_status_unchecked offline offline pandas_ns cpython_default
                     svc [IdInt 1] "2024-01-01" "2024-01-02" None None));
      reflexivity.
  - apply (proj2 (transport_failure_raises_status_unchecked
                    (answers (body 200 (map Json three_candles)))
                    (answers (body 503 (map Json three_candles))) pandas_ns cpython_default
                    svc [IdInt 1] "2024-01-01" "2024-01-02" None None)
                 (body 200 (map Json three_candles))
                 (body 503 (map Json three_candles))).
    + eexists. split; reflexivity.
    + eexists. split; reflexivity.
    + reflexivity.
Defined.

(** The claim C5 as the specification states it fails on the code: the
    server answers with status 500 and a body that holds one candle line,
    and the method returns that line as a series instead of raising. *)
Lemma error_status_body_read_as_candles :
  (status_code error_response <? 200) || (300 <=? status_code error_response) = true
  /\ @answered_by (answers error_response) _
       (@get_ohlcv_candles (answers error_response) pandas_ns cpython_default
          svc [IdInt 1] "2024-01-01" "2024-01-02" None None) error_response
  /\ outcome (@get_ohlcv_candles (answers error_response) pandas_ns cpython_default
                svc [IdInt 1] "2024-01-01" "2024-01-02" None None)
     = inr [(PInt 1,
             {| df_index := [60000000000];
                df_data := [("Open", [PInt 5]); ("High", [PInt 5]); ("Low", [PInt 5]);
                            ("Close", [PInt 5]); ("Volume", [PInt 7])]%string |})]
  /\ ~ exists e,
        outcome (@get_ohlcv_candles (answers error_response) pandas_ns cpython_default
                   svc [IdInt 1] "2024-01-01" "2024-01-02" None None) = inl e.
Proof.
  split; [reflexivity |]. split; [eexists; split; reflexivity |].
  split; [reflexivity |]. intros (e & He). discriminate He.
Qed.

Lemma only_the_seven_fields_matter_witness :
  outcome (@get_ohlcv_candles (answers (body 200 (map Json three_candles))) pandas_ns cpython_default
             svc [IdInt 1] "2024-01-01" "2024-01-02" None None)
  = outcome (@get_ohlcv_candles (answers (body 200 (map Json three_candles_extra))) pandas_ns cpython_default
               svc [IdInt 1] "2024-01-01" "2024-01-02" None None).
Proof.
  apply (only_the_seven_fields_matter
           (answers (body 200 (map Json three_candles)))
           (answers (body 200 (map Json three_candles_extra))) pandas_ns cpython_default
           svc [IdInt 1] "2024-01-01" "2024-01-02" None None
           (body 200 (map Json three_candles))
           (body 200 (map Json three_candles_extra))
           three_candles three_candles_extra).
  - eexists. split; reflexivity.
  - eexists. split; reflexivity.
  - reflexivity.
  - reflexivity.
  - repeat constructor;
      intros k Hk; simpl in Hk;
      repeat (destruct Hk as [<- | Hk]; [reflexivity |]); contradiction.
Defined.

Lemma one_get_with_the_candles_url_witness :
  requests_issued (@get_ohlcv_candles offline pandas_ns cpython_default svc
                     [IdInt 17; IdStr "42"; IdInt 17] "2024-01-01" "2024-02-01"
                     None (Some 1000))
  = [GET "https://tradingstrategy.ai/api/candles-jsonl?pair_ids=17,42,17&time_bucket=15m&start=2024-01-01&end=2024-02-01&max_bytes=1000"
         true].
Proof.
  apply (proj1 (@one_get_with_the_candles_url offline pandas_ns cpython_default svc
                  [IdInt 17; IdStr "42"; IdInt 17] "2024-01-01" "2024-02-01"
                  None (Some 1000))).
  - reflexivity.
  - reflexivity.
Defined.

(** The claim C7 as the specification states it fails on the code: under
    the default limit of 4300 digits, a [pair_ids] list that holds the
    integer written with 4301 ones makes [str] raise while the identifiers
    are joined, and no request is issued. *)
Lemma huge_pair_id_no_request :
  requests_issued (@get_ohlcv_candles (answers (body 200 [])) pandas_ns cpython_default svc
                     [IdInt (written_with_ones 4301)] "2024-01-01" "2024-01-02" None None)
  = []
  /\ outcome (@get_ohlcv_candles (answers (body 200 [])) pandas_ns cpython_default svc
                [IdInt (written_with_ones 4301)] "2024-01-01" "2024-01-02" None None)
     = inl (ValueError "Exceeds the limit (4300 digits) for integer string conversion; use sys.set_int_max_str_digits() to increase the limit").
Proof.
  apply (@get_ohlcv_candles_not_rendered (answers (body 200 [])) pandas_ns cpython_default
           svc [IdInt (written_with_ones 4301)] "2024-01-01" "2024-01-02" None None).
  cbn [forallb renders]. now rewrite beyond_default_limit.
Qed.

Lemma empty_pair_ids_still_requests_witness :
  comprehension (@str cpython_default) [] = inr []
  /\ join "," [] = ""%string
  /\ requests_issued (@get_ohlcv_candles offline pandas_ns cpython_default svc []
                        "2024-01-01" "2024-02-01" None (Some 1000))
     = [GET "https://tradingstrategy.ai/api/candles-jsonl?pair_ids=&time_bucket=15m&start=2024-01-01&end=2024-02-01&max_bytes=1000"
            true]
  /\ outcome (@get_ohlcv_candles offline pandas_ns cpython_default svc []
                "2024-01-01" "2024-02-01" None (Some 1000))
     = (response <- @requests_get_outcome offline
                      (GET "https://tradingstrategy.ai/api/candles-jsonl?pair_ids=&time_bucket=15m&start=2024-01-01&end=2024-02-01&max_bytes=1000"
                           true) ;;
        candle_dict <- group_items (raw response) [] ;;
        @build_frames pandas_ns candle_dict []).
Proof.
  apply (@empty_pair_ids_still_requests offline pandas_ns cpython_default svc
           "2024-01-01" "2024-02-01" None (Some 1000)).
  intros n [= <-]. reflexivity.
Defined.

(** The claim C9 as the specification states it fails on the code: with an
    empty [pair_ids] list and, under the default limit of 4300 digits, a
    byte bound written with 4301 ones, the f-string raises while the
    request is built, and no request is issued. *)
Lemma empty_pair_ids_huge_max_bytes_raises :
  requests_issued (@get_ohlcv_candles (answers (body 200 [])) pandas_ns cpython_default svc
                     [] "2024-01-01" "2024-01-02" None (Some (written_with_ones 4301)))
  = []
  /\ outcome (@get_ohlcv_candles (answers (body 200 [])) pandas_ns cpython_default svc
                [] "2024-01-01" "2024-01-02" None (Some (written_with_ones 4301)))
     = inl (ValueError "Exceeds the limit (4300 digits) for integer string conversion; use sys.set_int_max_str_digits() to increase the limit").
Proof.
  apply (@get_ohlcv_candles_not_rendered (answers (body 200 [])) pandas_ns cpython_default
           svc [] "2024-01-01" "2024-01-02" None (Some (written_with_ones 4301))).
  cbn [forallb andb]. exact beyond_default_limit.
Qed.

Lemma chains_table_rows_witness :
  exists df,
    outcome (@get_chain_data (answers chains_response) pandas_ns svc) = inr df
    /\ List.length (df_index df) = List.length two_chains
    /\ List.length (df_rows df) = List.length two_chains
    /\ (forall name col, In (name, col) (df_data df) ->
                         List.length col = List.length two_chains)
    /\ (forall n chain, nth_error two_chains n = Some chain ->
          exists id name slug,
            line_field "chain_id" chain = Some id
            /\ line_field "chain_name" chain = Some name
            /\ line_field "chain_slug" chain = Some slug
            /\ nth_error (df_index df) n = Some id
            /\ df_cell df "name" n = Some name
            /\ df_cell df "slug" n = Some slug
            /\ nth_error (df_rows df) n = Some (id, [name; slug])
            /\ (homogeneous [PInt 1; PInt 56] = true ->
                homogeneous [PStr "Ethereum"; PStr "BNB Smart Chain"] = true ->
                homogeneous [PStr "ethereum"; PStr "binance"] = true ->
                nth_error (df_rows df) n = Some (id, [name; slug])))
    /\ (forall n row, nth_error (df_rows df) n = Some row ->
          exists chain id name slug,
            nth_error two_chains n = Some chain
            /\ line_field "chain_id" chain = Some id
            /\ line_field "chain_name" chain = Some name
            /\ line_field "chain_slug" chain = Some slug
            /\ row = (id, [name; slug])).
Proof.
  apply (@chains_table_rows (answers chains_response) pandas_ns svc chains_response
           two_chains [PInt 1; PInt 56]
           [PStr "Ethereum"; PStr "BNB Smart Chain"] [PStr "ethereum"; PStr "binance"]).
  - eexists. split; reflexivity.
  - reflexivity.
  - repeat constructor.
  - repeat constructor.
  - repeat constructor.
Defined.

(** * The listing methods *)

(** ** Shared steps *)

Lemma has_key_field (key : string) (obj : pyval) :
  has_key key obj = true -> getitem obj key = inr (field obj key).
Proof.
  unfold has_key, field. destruct (getitem obj key); [discriminate | reflexivity].
Qed.

(** A comprehension that reads one key of every object of a list: all the
    values, or the [KeyError] of that key. *)
Lemma comprehension_getitem (key : string) (objs : list pyval) :
  forallb is_object objs = true ->
  comprehension (fun obj => getitem obj key) objs
  = if forallb (has_key key) objs
    then inr (map (fun obj => field obj key) objs)
    else inl (KeyError key).
Proof.
  induction objs as [| obj objs IH]; simpl; intros Hobjs.
  - reflexivity.
  - apply andb_prop in Hobjs. destruct Hobjs as (Hobj & Hobjs).
    rewrite (IH Hobjs). destruct obj; try discriminate.
    destruct (assoc key d) as [v |] eqn:Hkey.
    + assert (Hget : getitem (PDict d) key = inr v) by (simpl; now rewrite Hkey).
      assert (Hhas : has_key key (PDict d) = true) by (unfold has_key; now rewrite Hget).
      assert (Hfield : field (PDict d) key = v) by (unfold field; now rewrite Hget).
      rewrite Hget, Hhas, Hfield. simpl.
      destruct (forallb (has_key key) objs); reflexivity.
    + assert (Hget : getitem (PDict d) key = inl (KeyError key))
        by (simpl; now rewrite Hkey).
      assert (Hhas : has_key key (PDict d) = false) by (unfold has_key; now rewrite Hget).
      rewrite Hget, Hhas. reflexivity.
Qed.

(** ** Query strings *)

Lemma append_inj_l (a x y : string) : (a ++ x = a ++ y)%string -> x = y.
Proof.
  induction a as [| c a IH]; simpl; intros Heq.
  - exact Heq.
  - injection Heq as Heq. now apply IH.
Qed.

Lemma string_append_assoc (a b c : string) :
  ((a ++ b) ++ c = a ++ (b ++ c))%string.
Proof.
  induction a as [| x a IH]; simpl.
  - reflexivity.
  - now rewrite IH.
Qed.

Lemma string_length_append (a b : string) :
  String.length (a ++ b) = (String.length a + String.length b)%nat.
Proof.
  induction a as [| x a IH]; simpl.
  - reflexivity.
  - now rewrite IH.
Qed.

Lemma append_inj_r (a b s : string) : (a ++ s = b ++ s)%string -> a = b.
Proof.
  revert b. induction a as [| x a IH]; intros [| y b] Heq; simpl in Heq.
  - reflexivity.
  - apply (f_equal String.length) in Heq. simpl in Heq.
    rewrite string_length_append in Heq.
    exfalso. clear -Heq. induction (String.length s); simpl in *.
    + rewrite Nat.add_0_r in Heq. discriminate.
    + rewrite Nat.add_succ_r in Heq. injection Heq as Heq. now apply IHn.
  - apply (f_equal String.length) in Heq. simpl in Heq.
    rewrite string_length_append in Heq.
    exfalso. clear -Heq. induction (String.length s); simpl in *.
    + rewrite Nat.add_0_r in Heq. discriminate.
    + rewrite Nat.add_succ_r in Heq. injection Heq as Heq. now apply IHn.
  - injection Heq as -> Heq. f_equal. now apply IH.
Qed.

(** Two fields free of the separator [c], each followed by [c], end at the
    same place. *)
Lemma separated_field_inj (c : ascii) (s1 s2 r1 r2 : string) :
  lacks_char c s1 = true -> lacks_char c s2 = true ->
  (s1 ++ String c r1 = s2 ++ String c r2)%string ->
  s1 = s2 /\ r1 = r2.
Proof.
  revert s2. induction s1 as [| a s1 IH]; intros [| b s2] H1 H2 Heq; simpl in *.
  - injection Heq as ->. auto.
  - injection Heq as <- _. rewrite Ascii.eqb_refl in H2. discriminate.
  - injection Heq as -> _. rewrite Ascii.eqb_refl in H1. discriminate.
  - injection Heq as <- Heq.
    apply andb_prop in H1. apply andb_prop in H2.
    destruct (IH s2) as (-> & ->); tauto.
Qed.

(** ** get_exchange_data *)

Section Exchanges.

Context `{Network} `{Pandas}.
Variables (self : DataService) (selected_chain : string).
Variable filter_zero_volume : option string.

Local Abbreviation call := (get_exchange_data self selected_chain filter_zero_volume).

Lemma get_exchange_data_listed (r : Response) (js : pyval) (excs : list pyval) :
  answered_by call r ->
  json r = inr js ->
  getitem js "exchanges" = inr (PList excs) ->
  outcome call
  = (exc_names <- comprehension (fun exc => getitem exc "exchange_slug") excs ;;
     exc_vol <- comprehension (fun exc => getitem exc "usd_volume_30d") excs ;;
     exc_id <- comprehension (fun exc => getitem exc "exchange_id") excs ;;
     pd_DataFrame [("slug"%string, exc_names); ("volume"%string, exc_vol)]
                  (pd_Index exc_id)).
Proof.
  intros Hans Hjson Hexcs. unfold get_exchange_data in *. cbv zeta in *.
  rewrite (answered_outcome _ _ _ _ Hans), Hjson. cbn [bind].
  rewrite Hexcs. cbn [bind py_iter ret].
  destruct (comprehension (fun exc => getitem exc "exchange_slug") excs); cbn [bind];
    [reflexivity |].
  destruct (comprehension (fun exc => getitem exc "usd_volume_30d") excs); cbn [bind];
    reflexivity.
Qed.

(** X2. No filtering, sorting or deduplication is done locally: for a
    response whose [exchanges] array holds objects with a scalar
    [exchange_id], [exchange_slug] and [usd_volume_30d], the table has one
    row per element, in the order of the array; row [n] is labelled with
    the [exchange_id] of the n-th element and holds its [exchange_slug] and
    [usd_volume_30d], each as pandas stores it in the index or in its
    column, whatever [filter_zero_volume] was asked for (an exchange with
    zero volume that the server sends is kept). *)
Theorem exchanges_table_rows (r : Response) (js : pyval)
  (excs ids slugs volumes : list pyval) :
  answered_by call r ->
  json r = inr js ->
  getitem js "exchanges" = inr (PList excs) ->
  listed "exchange_id" excs ids ->
  listed "exchange_slug" excs slugs ->
  listed "usd_volume_30d" excs volumes ->
  exists df,
    outcome call = inr df
    /\ df_index df = map (stored_label ids) ids
    /\ df_data df = [("slug"%string, map (stored slugs) slugs);
                     ("volume"%string, map (stored volumes) volumes)]
    /\ List.length (df_rows df) = List.length excs
    /\ forall n exc, nth_error excs n = Some exc ->
         exists id slug volume,
           line_field "exchange_id" exc = Some id
           /\ line_field "exchange_slug" exc = Some slug
           /\ line_field "usd_volume_30d" exc = Some volume
           /\ nth_error (df_rows df) n
              = Some (stored_label ids id, [stored slugs slug; stored volumes volume]).
Proof.
  intros Hans Hjson Hexcs Hids Hslugs Hvolumes.
  pose proof (Forall2_length Hids) as Lids.
  pose proof (Forall2_length Hslugs) as Lslugs.
  pose proof (Forall2_length Hvolumes) as Lvolumes.
  eexists. split; [| split; [| split; [| split]]].
  - rewrite (get_exchange_data_listed _ _ _ Hans Hjson Hexcs).
    rewrite (listed_getitem _ _ _ Hslugs). cbn [bind].
    rewrite (listed_getitem _ _ _ Hvolumes). cbn [bind].
    rewrite (listed_getitem _ _ _ Hids). cbn [bind].
    rewrite pd_Index_stored, pd_DataFrame_built; [reflexivity |].
    repeat constructor; cbn [snd]; rewrite length_map; congruence.
  - reflexivity.
  - reflexivity.
  - unfold df_rows. rewrite rows_length. cbn [df_index].
    now rewrite length_map.
  - intros n exc Hn.
    destruct (listed_nth _ _ _ n exc Hids Hn) as (id & Hfid & Hid).
    destruct (listed_nth _ _ _ n exc Hslugs Hn) as (slug & Hfslug & Hslug).
    destruct (listed_nth _ _ _ n exc Hvolumes Hn) as (volume & Hfvolume & Hvolume).
    exists id, slug, volume. repeat split; trivial.
    unfold df_rows. cbn [df_index df_data map snd fst].
    rewrite rows_nth, (map_nth_error _ _ _ Hid). cbn [option_map map].
    now rewrite (stored_nth _ _ _ _ Hslug), (stored_nth _ _ _ _ Hvolume).
Qed.

(** X3. A missing key is never skipped over: when the [exchanges] array
    holds objects and some of them lack one of the three keys, the method
    raises the [KeyError] of the first key, in the order [exchange_slug],
    [usd_volume_30d], [exchange_id], that some object lacks, and returns no
    table. *)
Theorem exchanges_missing_key (r : Response) (js : pyval) (excs : list pyval)
  (key : string) :
  answered_by call r ->
  json r = inr js ->
  getitem js "exchanges" = inr (PList excs) ->
  forallb is_object excs = true ->
  first_missing ["exchange_slug"; "usd_volume_30d"; "exchange_id"]%string excs = Some key ->
  outcome call = inl (KeyError key).
Proof.
  intros Hans Hjson Hexcs Hobjs Hmiss.
  rewrite (get_exchange_data_listed _ _ _ Hans Hjson Hexcs).
  rewrite !comprehension_getitem by exact Hobjs.
  unfold first_missing in Hmiss. cbn [find] in Hmiss.
  destruct (forallb (has_key "exchange_slug") excs); cbn [negb bind] in *;
    [| now injection Hmiss as <-].
  destruct (forallb (has_key "usd_volume_30d") excs); cbn [negb bind] in *;
    [| now injection Hmiss as <-].
  destruct (forallb (has_key "exchange_id") excs); cbn [negb bind] in *;
    [discriminate | now injection Hmiss as <-].
Qed.

(** X4. Failures before the reshaping pass through unchanged: the outcome
    of the method is the first failure among the request, the decoding of
    the body by [json()] and the lookup of [exchanges] in the decoded
    value. *)
Theorem exchanges_early_failure (rq : Request) (e : exn) :
  requests_issued call = [rq] ->
  (response <- requests_get_outcome rq ;;
   js <- json response ;;
   getitem js "exchanges") = inl e ->
  outcome call = inl e.
Proof.
  unfold get_exchange_data. cbv zeta.
  match goal with
  | |- requests_issued (io_bind (requests_get ?u ?b) (fun x => lift (@?w x))) = _ -> _ =>
      destruct (request_then_work u b w) as (-> & ->)
  end.
  intros [= <-].
  destruct (requests_get_outcome _) as [e0 | response]; cbn [bind];
    [now intros [= ->] |].
  destruct (json response) as [e1 | js]; cbn [bind]; [now intros [= ->] |].
  destruct (getitem js "exchanges") as [e2 | excs]; cbn [bind]; [now intros [= ->] |].
  discriminate.
Qed.

End Exchanges.

(** X1. The method issues exactly one GET, not streamed, whatever the
    server answers; its URL is the base URL followed by
    [exchanges?chain_slug=<chain>&sort=usd_volume_30d&direction=desc&filter_zero_volume=<flag>],
    the flag being ["true"] by default and otherwise passed as given.  For
    chain slugs without [&] the request determines the chain and the flag.
    Nothing is escaped, so without that restriction it does not: text
    after a separator in the chain slug is read as the flag. *)
Theorem exchanges_request `{Network} `{Pandas} (self : DataService)
  (selected_chain : string)
  (filter_zero_volume : option string) :
  let flag := match filter_zero_volume with Some f => f | None => "true"%string end in
  let sep := "&sort=usd_volume_30d&direction=desc&filter_zero_volume="%string in
  requests_issued (get_exchange_data self selected_chain filter_zero_volume)
  = [GET (api_url self ++ "exchanges?chain_slug=" ++ selected_chain ++ sep ++ flag)%string
         false]
  /\ (forall chain' flag',
        lacks_char "&" selected_chain = true -> lacks_char "&" chain' = true ->
        requests_issued (get_exchange_data self selected_chain filter_zero_volume)
        = requests_issued (get_exchange_data self chain' (Some flag')) ->
        selected_chain = chain' /\ flag = flag')
  /\ (forall a b c,
        requests_issued (get_exchange_data self (a ++ sep ++ b)%string (Some c))
        = requests_issued (get_exchange_data self a (Some (b ++ sep ++ c)%string))).
Proof.
  intros flag sep.
  assert (Hrq : forall chain opt,
            requests_issued (get_exchange_data self chain opt)
            = [GET (api_url self ++ "exchanges?chain_slug=" ++ chain ++ sep
                    ++ match opt with Some f => f | None => "true" end)%string false]).
  { intros chain opt. unfold get_exchange_data. cbv zeta.
    apply request_then_work. }
  split; [apply Hrq |]. split.
  - intros chain' flag' Hc Hc' Heq. rewrite !Hrq in Heq.
    injection Heq as Heq. fold flag in Heq.
    apply (append_inj_l (api_url self)
             ("exchanges?chain_slug=" ++ selected_chain ++ sep ++ flag)
             ("exchanges?chain_slug=" ++ chain' ++ sep ++ flag')) in Heq.
    apply (append_inj_l "exchanges?chain_slug="
             (selected_chain ++ sep ++ flag) (chain' ++ sep ++ flag')) in Heq.
    apply (separated_field_inj "&" selected_chain chain'
             ("sort=usd_volume_30d&direction=desc&filter_zero_volume=" ++ flag)
             ("sort=usd_volume_30d&direction=desc&filter_zero_volume=" ++ flag'))
      in Heq; trivial.
    destruct Heq as (-> & Heq).
    apply (append_inj_l "sort=usd_volume_30d&direction=desc&filter_zero_volume="
             flag flag') in Heq. auto.
  - intros a b c. rewrite !Hrq. do 3 f_equal.
    now rewrite !string_append_assoc.
Qed.

(** ** get_pairs_data *)

Section Pairs.

Context `{Network} `{Pandas} `{Interpreter}.
Variables (self : DataService) (exc_slugs chain_slugs : list string).
Variables (n_pairs : option Z) (sort filter : option string).

Local Abbreviation call :=
  (get_pairs_data self exc_slugs chain_slugs n_pairs sort filter).

Lemma get_pairs_data_listed (r : Response) (js : pyval) (results : list pyval) :
  answered_by call r ->
  json r = inr js ->
  getitem js "results" = inr (PList results) ->
  outcome call
  = (pair_id <- comprehension (fun pair => getitem pair "pair_id") results ;;
     pair_slug <- comprehension (fun pair => getitem pair "pair_slug") results ;;
     pair_exc <- comprehension (fun pair => getitem pair "exchange_slug") results ;;
     pair_vol <- comprehension (fun pair => getitem pair "usd_volume_24h") results ;;
     pair_tvl <- comprehension (fun pair => getitem pair "pair_tvl") results ;;
     pd_DataFrame [("pair_slug"%string, pair_slug); ("pair_exchange"%string, pair_exc);
                   ("usd_vol_24h"%string, pair_vol); ("pair_tvl"%string, pair_tvl)]
                  (pd_Index pair_id)).
Proof.
  intros Hans Hjson Hres. unfold get_pairs_data in *. cbv zeta in *.
  destruct (str_int _) as [e | page_size]; cbn [bind ret] in *.
  - destruct Hans as (rq & Hrq & _). discriminate Hrq.
  - rewrite io_bind_lift_inr in *.
    rewrite (answered_outcome _ _ _ _ Hans), Hjson. cbn [bind].
    rewrite Hres. cbn [bind py_iter ret].
    repeat match goal with
           | |- bind ?c _ = bind ?c _ => destruct c; cbn [bind]; [reflexivity |]
           end.
    reflexivity.
Qed.

(** X6. The page size is only sent to the server: for a response whose
    [results] array holds objects with a scalar [pair_id], [pair_slug],
    [exchange_slug], [usd_volume_24h] and [pair_tvl], the table has one row
    per element of the array, however many were asked for with [n_pairs],
    in the order of the array; row [n] is labelled with the [pair_id] of
    the n-th element and holds its [pair_slug], [exchange_slug],
    [usd_volume_24h] and [pair_tvl] in the columns [pair_slug],
    [pair_exchange], [usd_vol_24h] and [pair_tvl], each as pandas stores it
    in the index or in its column. *)
Theorem pairs_table_rows (r : Response) (js : pyval)
  (results ids slugs exchanges volumes tvls : list pyval) :
  answered_by call r ->
  json r = inr js ->
  getitem js "results" = inr (PList results) ->
  listed "pair_id" results ids ->
  listed "pair_slug" results slugs ->
  listed "exchange_slug" results exchanges ->
  listed "usd_volume_24h" results volumes ->
  listed "pair_tvl" results tvls ->
  exists df,
    outcome call = inr df
    /\ List.length (df_rows df) = List.length results
    /\ df_index df = map (stored_label ids) ids
    /\ df_data df
       = [("pair_slug"%string, map (stored slugs) slugs);
          ("pair_exchange"%string, map (stored exchanges) exchanges);
          ("usd_vol_24h"%string, map (stored volumes) volumes);
          ("pair_tvl"%string, map (stored tvls) tvls)]
    /\ forall n pair, nth_error results n = Some pair ->
         exists id slug exchange volume tvl,
           line_field "pair_id" pair = Some id
           /\ line_field "pair_slug" pair = Some slug
           /\ line_field "exchange_slug" pair = Some exchange
           /\ line_field "usd_volume_24h" pair = Some volume
           /\ line_field "pair_tvl" pair = Some tvl
           /\ nth_error (df_rows df) n
              = Some (stored_label ids id,
                      [stored slugs slug; stored exchanges exchange;
                       stored volumes volume; stored tvls tvl]).
Proof.
  intros Hans Hjson Hres Hids Hslugs Hexchanges Hvolumes Htvls.
  pose proof (Forall2_length Hids) as Lids.
  pose proof (Forall2_length Hslugs) as Lslugs.
  pose proof (Forall2_length Hexchanges) as Lexchanges.
  pose proof (Forall2_length Hvolumes) as Lvolumes.
  pose proof (Forall2_length Htvls) as Ltvls.
  eexists. split; [| split; [| split; [| split]]].
  - rewrite (get_pairs_data_listed _ _ _ Hans Hjson Hres).
    rewrite (listed_getitem _ _ _ Hids). cbn [bind].
    rewrite (listed_getitem _ _ _ Hslugs). cbn [bind].
    rewrite (listed_getitem _ _ _ Hexchanges). cbn [bind].
    rewrite (listed_getitem _ _ _ Hvolumes). cbn [bind].
    rewrite (listed_getitem _ _ _ Htvls). cbn [bind].
    rewrite pd_Index_stored, pd_DataFrame_built; [reflexivity |].
    repeat constructor; cbn [snd]; rewrite length_map; congruence.
  - unfold df_rows. rewrite rows_length. cbn [df_index].
    now rewrite length_map.
  - reflexivity.
  - reflexivity.
  - intros n pair Hn.
    destruct (listed_nth _ _ _ n pair Hids Hn) as (id & Hfid & Hid).
    destruct (listed_nth _ _ _ n pair Hslugs Hn) as (slug & Hfslug & Hslug).
    destruct (listed_nth _ _ _ n pair Hexchanges Hn) as (exchange & Hfexchange & Hexchange).
    destruct (listed_nth _ _ _ n pair Hvolumes Hn) as (volume & Hfvolume & Hvolume).
    destruct (listed_nth _ _ _ n pair Htvls Hn) as (tvl & Hftvl & Htvl).
    exists id, slug, exchange, volume, tvl. repeat split; trivial.
    unfold df_rows. cbn [df_index df_data map snd fst].
    rewrite rows_nth, (map_nth_error _ _ _ Hid). cbn [option_map map].
    now rewrite (stored_nth _ _ _ _ Hslug), (stored_nth _ _ _ _ Hexchange),
      (stored_nth _ _ _ _ Hvolume), (stored_nth _ _ _ _ Htvl).
Qed.

(** X7. A missing key is never skipped over: when the [results] array holds
    objects and some of them lack one of the five keys, the method raises
    the [KeyError] of the first key, in the order [pair_id], [pair_slug],
    [exchange_slug], [usd_volume_24h], [pair_tvl], that some object lacks,
    and returns no table. *)
Theorem pairs_missing_key (r : Response) (js : pyval) (results : list pyval)
  (key : string) :
  answered_by call r ->
  json r = inr js ->
  getitem js "results" = inr (PList results) ->
  forallb is_object results = true ->
  first_missing ["pair_id"; "pair_slug"; "exchange_slug"; "usd_volume_24h";
                 "pair_tvl"]%string results = Some key ->
  outcome call = inl (KeyError key).
Proof.
  intros Hans Hjson Hres Hobjs Hmiss.
  rewrite (get_pairs_data_listed _ _ _ Hans Hjson Hres).
  rewrite !comprehension_getitem by exact Hobjs.
  unfold first_missing in Hmiss. cbn [find] in Hmiss.
  destruct (forallb (has_key "pair_id") results); cbn [negb bind] in *;
    [| now injection Hmiss as <-].
  destruct (forallb (has_key "pair_slug") results); cbn [negb bind] in *;
    [| now injection Hmiss as <-].
  destruct (forallb (has_key "exchange_slug") results); cbn [negb bind] in *;
    [| now injection Hmiss as <-].
  destruct (forallb (has_key "usd_volume_24h") results); cbn [negb bind] in *;
    [| now injection Hmiss as <-].
  destruct (forallb (has_key "pair_tvl") results); cbn [negb bind] in *;
    [discriminate | now injection Hmiss as <-].
Qed.

(** X8. Failures before the reshaping pass through unchanged: the outcome
    of the method is the first failure among the request, the decoding of
    the body by [json()] and the lookup of [results] in the decoded
    value. *)
Theorem pairs_early_failure (rq : Request) (e : exn) :
  requests_issued call = [rq] ->
  (response <- requests_get_outcome rq ;;
   js <- json response ;;
   getitem js "results") = inl e ->
  outcome call = inl e.
Proof.
  unfold get_pairs_data. cbv zeta.
  destruct (str_int _) as [e0 | page_size]; cbn [bind ret]; [discriminate |].
  rewrite io_bind_lift_inr.
  match goal with
  | |- requests_issued (io_bind (requests_get ?u ?b) (fun x => lift (@?w x))) = _ -> _ =>
      destruct (request_then_work u b w) as (-> & ->)
  end.
  intros [= <-].
  destruct (requests_get_outcome _) as [e0 | response]; cbn [bind];
    [now intros [= ->] |].
  destruct (json response) as [e1 | js]; cbn [bind]; [now intros [= ->] |].
  destruct (getitem js "results") as [e2 | results]; cbn [bind]; [now intros [= ->] |].
  discriminate.
Qed.

End Pairs.

Lemma no_comma_lacks_char (s : string) : no_comma s = lacks_char "," s.
Proof.
  induction s as [| c s IH]; simpl; [reflexivity | now rewrite IH].
Qed.

Lemma lacks_char_append (c : ascii) (a b : string) :
  lacks_char c (a ++ b) = lacks_char c a && lacks_char c b.
Proof.
  induction a as [| x a IH]; simpl.
  - reflexivity.
  - now rewrite IH, andb_assoc.
Qed.

Lemma join_lacks_ampersand (l : list string) :
  forallb plain_slug l = true -> lacks_char "&" (join "," l) = true.
Proof.
  unfold join. induction l as [| s l IH]; simpl; intros Hl.
  - reflexivity.
  - apply andb_prop in Hl. destruct Hl as (Hs & Hl).
    unfold plain_slug in Hs. apply andb_prop in Hs. destruct Hs as (_ & Hs).
    destruct l as [| s' l]; [exact Hs |].
    rewrite lacks_char_append, Hs. simpl. apply (IH Hl).
Qed.

Lemma plain_slugs_fields (l : list string) :
  forallb plain_slug l = true ->
  Forall (fun s => no_comma s = true /\ s <> EmptyString) l.
Proof.
  rewrite forallb_forall, Forall_forall. intros Hl s Hs.
  specialize (Hl s Hs). unfold plain_slug in Hl.
  apply andb_prop in Hl. destruct Hl as (Hl & _).
  apply andb_prop in Hl. destruct Hl as (Hne & Hcomma).
  split.
  - now rewrite no_comma_lacks_char.
  - intros ->. discriminate.
Qed.

Lemma decimal_lacks_ampersand (z : Z) : lacks_char "&" (decimal z) = true.
Proof.
  assert (Hu : forall d, lacks_char "&" (NilEmpty.string_of_uint d) = true)
    by (induction d; simpl; trivial).
  assert (Hz : forall d, lacks_char "&" (NilZero.string_of_uint d) = true)
    by (intros d; destruct d; try reflexivity; apply Hu).
  unfold decimal. destruct (Z.to_int z) as [d | d]; simpl; apply Hz.
Qed.

(** X5. When the page size has no more digits than the interpreter allows
    in a string (as the default [5] always has), the method issues exactly
    one GET, not streamed, whatever the server answers; its URL is the base
    URL followed by
    [pairs?exchange_slugs=<csv>&chain_slugs=<csv>&page=0&page_size=<n>&sort=<sort>&direction=desc&filter=<filter>&eligible_only=true&format=json],
    with the slugs comma-joined in the given order and the defaults [5],
    [volume_30d] and [min_liquidity_1M]; with a page size of more digits
    the method raises [ValueError] and issues no request.  When the slugs
    are not empty and hold neither [,] nor [&], and the sort token holds no
    [&], the request determines the two lists of slugs, the page size, the
    sort token and the filter. *)
Theorem pairs_request `{Network} `{Pandas} `{Interpreter} (self : DataService)
  (exc_slugs chain_slugs : list string) (n_pairs : option Z)
  (sort filter : option string) :
  let size := match n_pairs with Some n => n | None => 5 end in
  let sort_token := match sort with Some s => s | None => "volume_30d"%string end in
  let filter_token :=
    match filter with Some f => f | None => "min_liquidity_1M"%string end in
  (within_limit size = true ->
   requests_issued (get_pairs_data self exc_slugs chain_slugs n_pairs sort filter)
   = [GET (api_url self ++ "pairs?exchange_slugs=" ++ join "," exc_slugs
           ++ "&chain_slugs=" ++ join "," chain_slugs
           ++ "&page=0&page_size=" ++ decimal size ++ "&sort=" ++ sort_token
           ++ "&direction=desc&filter=" ++ filter_token
           ++ "&eligible_only=true&format=json")%string false])
  /\ (within_limit size = false ->
      requests_issued (get_pairs_data self exc_slugs chain_slugs n_pairs sort filter) = []
      /\ outcome (get_pairs_data self exc_slugs chain_slugs n_pairs sort filter)
         = inl limit_exceeded)
  /\ within_limit 5 = true
  /\ forall exc_slugs' chain_slugs' size' sort_token' filter_token',
       within_limit size = true -> within_limit size' = true ->
       forallb plain_slug (exc_slugs ++ chain_slugs) = true ->
       forallb plain_slug (exc_slugs' ++ chain_slugs') = true ->
       lacks_char "&" sort_token = true -> lacks_char "&" sort_token' = true ->
       requests_issued (get_pairs_data self exc_slugs chain_slugs n_pairs sort filter)
       = requests_issued (get_pairs_data self exc_slugs' chain_slugs' (Some size')
                            (Some sort_token') (Some filter_token')) ->
       exc_slugs = exc_slugs' /\ chain_slugs = chain_slugs' /\ size = size'
       /\ sort_token = sort_token' /\ filter_token = filter_token'.
Proof.
  intros size sort_token filter_token.
  assert (Hrq : forall excs chains n s f,
            within_limit (match n with Some n => n | None => 5 end) = true ->
            requests_issued (get_pairs_data self excs chains n s f)
            = [GET (api_url self ++ "pairs?exchange_slugs=" ++ join "," excs
                    ++ "&chain_slugs=" ++ join "," chains
                    ++ "&page=0&page_size="
                    ++ decimal (match n with Some n => n | None => 5 end)
                    ++ "&sort=" ++ match s with Some s => s | None => "volume_30d" end
                    ++ "&direction=desc&filter="
                    ++ match f with Some f => f | None => "min_liquidity_1M" end
                    ++ "&eligible_only=true&format=json")%string false]).
  { intros excs chains n s f Hn. unfold get_pairs_data. cbv zeta.
    rewrite (str_int_within _ Hn). cbn [bind ret]. rewrite io_bind_lift_inr.
    apply request_then_work. }
  split; [now apply Hrq |]. split; [| split].
  { intros Hsize. unfold get_pairs_data. cbv zeta. fold size.
    rewrite (str_int_beyond _ Hsize). split; reflexivity. }
  { apply within_limit_small. vm_compute. discriminate. }
  intros excs' chains' size' sort' filter' Hsize Hsize' Hplain Hplain' Hsort Hsort' Heq.
  rewrite (Hrq exc_slugs chain_slugs n_pairs sort filter Hsize) in Heq.
  rewrite (Hrq excs' chains' (Some size') (Some sort') (Some filter') Hsize') in Heq.
  injection Heq as Heq.
  fold size sort_token filter_token in Heq.
  rewrite forallb_app in Hplain, Hplain'.
  apply andb_prop in Hplain. destruct Hplain as (Hexc & Hchain).
  apply andb_prop in Hplain'. destruct Hplain' as (Hexc' & Hchain').
  set (tail4 := ("&eligible_only=true&format=json")%string) in *.
  apply (append_inj_l (api_url self)
           ("pairs?exchange_slugs=" ++ join "," exc_slugs ++ "&chain_slugs="
            ++ join "," chain_slugs ++ "&page=0&page_size=" ++ decimal size
            ++ "&sort=" ++ sort_token ++ "&direction=desc&filter=" ++ filter_token
            ++ tail4)
           ("pairs?exchange_slugs=" ++ join "," excs' ++ "&chain_slugs="
            ++ join "," chains' ++ "&page=0&page_size=" ++ decimal size'
            ++ "&sort=" ++ sort' ++ "&direction=desc&filter=" ++ filter'
            ++ tail4)) in Heq.
  apply (append_inj_l "pairs?exchange_slugs="
           (join "," exc_slugs ++ "&chain_slugs="
            ++ join "," chain_slugs ++ "&page=0&page_size=" ++ decimal size
            ++ "&sort=" ++ sort_token ++ "&direction=desc&filter=" ++ filter_token
            ++ tail4)
           (join "," excs' ++ "&chain_slugs="
            ++ join "," chains' ++ "&page=0&page_size=" ++ decimal size'
            ++ "&sort=" ++ sort' ++ "&direction=desc&filter=" ++ filter'
            ++ tail4)) in Heq.
  apply (separated_field_inj "&" (join "," exc_slugs) (join "," excs')
           ("chain_slugs=" ++ join "," chain_slugs ++ "&page=0&page_size="
            ++ decimal size ++ "&sort=" ++ sort_token ++ "&direction=desc&filter="
            ++ filter_token ++ tail4)
           ("chain_slugs=" ++ join "," chains' ++ "&page=0&page_size="
            ++ decimal size' ++ "&sort=" ++ sort' ++ "&direction=desc&filter="
            ++ filter' ++ tail4)) in Heq;
    try now apply join_lacks_ampersand.
  destruct Heq as (Hexcs & Heq).
  apply (append_inj_l "chain_slugs="
           (join "," chain_slugs ++ "&page=0&page_size="
            ++ decimal size ++ "&sort=" ++ sort_token ++ "&direction=desc&filter="
            ++ filter_token ++ tail4)
           (join "," chains' ++ "&page=0&page_size="
            ++ decimal size' ++ "&sort=" ++ sort' ++ "&direction=desc&filter="
            ++ filter' ++ tail4)) in Heq.
  apply (separated_field_inj "&" (join "," chain_slugs) (join "," chains')
           ("page=0&page_size=" ++ decimal size ++ "&sort=" ++ sort_token
            ++ "&direction=desc&filter=" ++ filter_token ++ tail4)
           ("page=0&page_size=" ++ decimal size' ++ "&sort=" ++ sort'
            ++ "&direction=desc&filter=" ++ filter' ++ tail4)) in Heq;
    try now apply join_lacks_ampersand.
  destruct Heq as (Hchains & Heq).
  apply (append_inj_l "page=0&page_size="
           (decimal size ++ "&sort=" ++ sort_token
            ++ "&direction=desc&filter=" ++ filter_token ++ tail4)
           (decimal size' ++ "&sort=" ++ sort'
            ++ "&direction=desc&filter=" ++ filter' ++ tail4)) in Heq.
  apply (separated_field_inj "&" (decimal size) (decimal size')
           ("sort=" ++ sort_token ++ "&direction=desc&filter=" ++ filter_token ++ tail4)
           ("sort=" ++ sort' ++ "&direction=desc&filter=" ++ filter' ++ tail4)) in Heq;
    try apply decimal_lacks_ampersand.
  destruct Heq as (Hsz & Heq).
  apply (append_inj_l "sort="
           (sort_token ++ "&direction=desc&filter=" ++ filter_token ++ tail4)
           (sort' ++ "&direction=desc&filter=" ++ filter' ++ tail4)) in Heq.
  apply (separated_field_inj "&" sort_token sort'
           ("direction=desc&filter=" ++ filter_token ++ tail4)
           ("direction=desc&filter=" ++ filter' ++ tail4)) in Heq; trivial.
  destruct Heq as (Hs & Heq).
  apply (append_inj_l "direction=desc&filter="
           (filter_token ++ tail4) (filter' ++ tail4)) in Heq.
  apply append_inj_r in Heq.
  repeat split; trivial.
  - apply join_comma_inj; trivial; now apply plain_slugs_fields.
  - apply join_comma_inj; trivial; now apply plain_slugs_fields.
  - now apply decimal_inj.
Qed.

(** ** get_chain_data: errors *)

Section Chains.

Context `{Network} `{Pandas}.
Variable self : DataService.

Local Abbreviation call := (get_chain_data self).

(** X9. The method issues exactly one GET, not streamed, for the base URL
    followed by [chains], whatever the server answers, and failures before
    the reshaping pass through unchanged: the outcome is the first failure
    among the request, the decoding of the body by [json()] and the
    iteration over the decoded value. *)
Theorem chains_request_and_early_failure :
  requests_issued call = [GET (api_url self ++ "chains")%string false]
  /\ forall e,
       (response <- requests_get_outcome (GET (api_url self ++ "chains")%string false) ;;
        js <- json response ;;
        py_iter js) = inl e ->
       outcome call = inl e.
Proof.
  unfold get_chain_data.
  match goal with
  | |- requests_issued (io_bind (requests_get ?u ?b) (fun x => lift (@?w x))) = _ /\ _ =>
      destruct (request_then_work u b w) as (-> & ->)
  end.
  split; [reflexivity |]. intros e.
  destruct (requests_get_outcome _) as [e0 | response]; cbn [bind];
    [now intros [= ->] |].
  destruct (json response) as [e1 | js]; cbn [bind]; [now intros [= ->] |].
  destruct (py_iter js) as [e2 | it]; cbn [bind]; [now intros [= ->] |].
  discriminate.
Qed.

(** X10. A missing key is never skipped over: when the chains response is
    an array of objects and some of them lack one of the three keys, the
    method raises the [KeyError] of the first key, in the order
    [chain_name], [chain_slug], [chain_id], that some object lacks, and
    returns no table. *)
Theorem chains_missing_key (r : Response) (chains : list pyval) (key : string) :
  answered_by call r ->
  json r = inr (PList chains) ->
  forallb is_object chains = true ->
  first_missing ["chain_name"; "chain_slug"; "chain_id"]%string chains = Some key ->
  outcome call = inl (KeyError key).
Proof.
  intros Hans Hjson Hobjs Hmiss.
  rewrite (get_chain_data_answered _ _ Hans), Hjson. cbn [bind py_iter ret].
  rewrite !comprehension_getitem by exact Hobjs.
  unfold first_missing in Hmiss. cbn [find] in Hmiss.
  destruct (forallb (has_key "chain_name") chains); cbn [negb bind] in *;
    [| now injection Hmiss as <-].
  destruct (forallb (has_key "chain_slug") chains); cbn [negb bind] in *;
    [| now injection Hmiss as <-].
  destruct (forallb (has_key "chain_id") chains); cbn [negb bind] in *;
    [discriminate | now injection Hmiss as <-].
Qed.

(** X11. A response that is a JSON object instead of an array is iterated
    key by key: with at least one key the method raises a [TypeError] (a
    key is a string and cannot be subscripted with a string), not a
    [KeyError]; the empty object gives the empty table and no error. *)
Theorem chains_object_response (r : Response) (d : list (string * pyval)) :
  answered_by call r ->
  json r = inr (PDict d) ->
  match d with
  | [] => outcome call
          = inr {| df_index := []; df_data := [("name"%string, []); ("slug"%string, [])] |}
  | _ :: _ => exists what, outcome call = inl (TypeError what)
  end.
Proof.
  intros Hans Hjson.
  rewrite (get_chain_data_answered _ _ Hans), Hjson. cbn [bind py_iter ret].
  destruct d as [| [k v] d]; simpl.
  - reflexivity.
  - eexists. reflexivity.
Qed.

End Chains.

(** * get_ohlcv_candles on any stream *)

(** ** Keys of any hashable type *)

Lemma key_eqb_refl_hashable (k : pyval) : hashable k = true -> key_eqb k k = true.
Proof.
  destruct k as [| b | z | f | s | l | d]; simpl; try discriminate; intros _.
  - reflexivity.
  - destruct b; reflexivity.
  - apply Z.eqb_refl.
  - destruct f as [s | s | | s m e]; cbn [float_eqb number_eqb]; trivial.
    + now destruct s.
    + destruct s; cbn [Bool.eqb andb]; apply Z.eqb_refl.
  - apply String.eqb_refl.
Qed.

Lemma distinct_keys_app (a b : list pyval) :
  distinct_keys (a ++ b)
  <-> distinct_keys a /\ distinct_keys b
      /\ forall x y, In x a -> In y b -> key_eqb x y = false.
Proof.
  induction a as [| k a IH]; simpl.
  - split; [intros Hb; repeat split; trivial; intros x y [] | tauto].
  - rewrite IH, Forall_app, !Forall_forall. split.
    + intros ((Ha & Hb) & Hda & Hdb & Hab). repeat split; trivial.
      intros x y [<- | Hx] Hy; auto.
    + intros ((Ha & Hda) & Hdb & Hab). repeat split; auto.
Qed.

Lemma dict_set_found {V} (d : pydict V) (k : pyval) (v l : V) :
  dict_get d k = Some l ->
  exists pre k' post,
    d = pre ++ (k', l) :: post /\ key_eqb k' k = true
    /\ dict_set d k v = pre ++ (k', v) :: post.
Proof.
  induction d as [| [k0 v0] d IH]; simpl; intros Hget.
  - discriminate.
  - destruct (key_eqb k0 k) eqn:Hk.
    + injection Hget as ->. exists [], k0, d. auto.
    + destruct (IH Hget) as (pre & k' & post & -> & Hk' & ->).
      exists ((k0, v0) :: pre), k', post. auto.
Qed.

(** What one [candle_dict[pair_id].append(item)] does: the list of the
    first key that compares equal grows by the item, or a new entry is put
    at the end. *)
Lemma defaultdict_append_inr (d d' : pydict (list pyval)) (p item : pyval) :
  defaultdict_append d p item = inr d' ->
  hashable p = true
  /\ ((exists pre k l post,
         d = pre ++ (k, l) :: post /\ key_eqb k p = true
         /\ d' = pre ++ (k, l ++ [item]) :: post)
      \/ (dict_get d p = None /\ d' = d ++ [(p, [item])])).
Proof.
  unfold defaultdict_append, defaultdict_getitem, check_hashable.
  destruct (hashable p) eqn:Hh; simpl; [| discriminate].
  destruct (dict_get d p) as [l |] eqn:Hget; simpl; intros [= <-]; split; trivial.
  - left. destruct (dict_set_found d p (l ++ [item]) l Hget)
      as (pre & k & post & Hd & Hk & Hset).
    exists pre, k, l, post. auto.
  - right. split; [reflexivity |].
    rewrite (dict_set_new _ _ _ Hget).
    revert Hget. clear -Hh. induction d as [| [k0 v0] d IH]; simpl; intros Hget.
    + now rewrite key_eqb_refl_hashable.
    + destruct (key_eqb k0 p); [discriminate |]. now rewrite IH.
Qed.

(** ** The first loop, whatever the lines *)

(** When the first loop ends without an exception: the keys stay distinct,
    the lists have grown by one item per line, every line is an item whose
    [p] is hashable and which sits in a list whose key compares equal to
    that [p], and what was in a list is still in the list of that key. *)
Lemma group_items_inr (lines : list line) :
  forall cd cd',
    group_items lines cd = inr cd' ->
    distinct_keys (map fst cd) ->
    distinct_keys (map fst cd')
    /\ list_sum (map (fun e => List.length (snd e)) cd')
       = (list_sum (map (fun e => List.length (snd e)) cd) + List.length lines)%nat
    /\ (forall ln, In ln lines ->
          exists item p k l,
            ln = Json item /\ getitem item "p" = inr p /\ hashable p = true
            /\ In (k, l) cd' /\ key_eqb k p = true /\ In item l)
    /\ (forall k l x, In (k, l) cd -> In x l -> exists l', In (k, l') cd' /\ In x l').
Proof.
  induction lines as [| ln lines IH]; intros cd cd' Hrun Hdist.
  - simpl in Hrun. injection Hrun as <-. split; [exact Hdist |].
    split; [simpl; lia |]. split.
    + intros ln [].
    + intros k l x Hin Hx. eauto.
  - cbn [group_items] in Hrun.
    apply bind_inr in Hrun. destruct Hrun as (item & Hread & Hrun).
    apply bind_inr in Hrun. destruct Hrun as (p & Hp & Hrun).
    apply bind_inr in Hrun. destruct Hrun as (cd1 & Happ & Hrun).
    assert (Hln : ln = Json item).
    { destruct ln as [v | | e]; simpl in Hread; try discriminate.
      destruct v; simpl in Hread; try discriminate; now injection Hread as <-. }
    destruct (defaultdict_append_inr _ _ _ _ Happ) as (Hh & Hstep).
    assert (Hstep' :
              distinct_keys (map fst cd1)
              /\ list_sum (map (fun e => List.length (snd e)) cd1)
                 = S (list_sum (map (fun e => List.length (snd e)) cd))
              /\ (exists k l, In (k, l) cd1 /\ key_eqb k p = true /\ In item l)
              /\ (forall k l x, In (k, l) cd -> In x l ->
                                exists l', In (k, l') cd1 /\ In x l')).
    { destruct Hstep as [(pre & k & l & post & -> & Hk & ->) | (Hnone & ->)].
      - split; [| split; [| split]].
        + rewrite map_app in *. exact Hdist.
        + rewrite !map_app, !list_sum_app. simpl.
          rewrite length_app. simpl. lia.
        + exists k, (l ++ [item]). split; [apply in_elt |]. split; [exact Hk |].
          apply in_or_app. right. now left.
        + intros k0 l0 x Hin Hx. apply in_app_or in Hin.
          destruct Hin as [Hin | [Hin | Hin]].
          * exists l0. split; [apply in_or_app; now left | exact Hx].
          * injection Hin as <- <-. exists (l ++ [item]).
            split; [apply in_elt | apply in_or_app; now left].
          * exists l0. split; [apply in_or_app; right; now right | exact Hx].
      - split; [| split; [| split]].
        + rewrite map_app. apply distinct_keys_app. split; [exact Hdist |].
          split; [simpl; auto |].
          intros x y Hx [<- | []].
          apply dict_get_None in Hnone. now apply (existsb_key_false _ _ _ Hnone).
        + rewrite map_app, list_sum_app. simpl. lia.
        + exists p, [item]. split; [apply in_or_app; right; now left |].
          split; [now apply key_eqb_refl_hashable | now left].
        + intros k0 l0 x Hin Hx. exists l0. split; [apply in_or_app; now left | exact Hx]. }
    destruct Hstep' as (Hdist1 & Hsum1 & (k & l & Hkl & Hkp & Hitem) & Hmono1).
    destruct (IH _ _ Hrun Hdist1) as (Hdist' & Hsum' & Hlines & Hmono).
    split; [exact Hdist' |]. split; [| split].
    + rewrite Hsum', Hsum1. simpl. lia.
    + intros ln' [<- | Hin].
      * destruct (Hmono _ _ _ Hkl Hitem) as (l' & Hkl' & Hitem').
        exists item, p, k, l'. auto 7.
      * now apply Hlines.
    + intros k0 l0 x Hin Hx.
      destruct (Hmono1 _ _ _ Hin Hx) as (l1 & Hin1 & Hx1).
      now apply (Hmono _ _ _ Hin1 Hx1).
Qed.

(** The first loop only puts in a list a line whose [p] it has read. *)
Lemma group_items_keyed (lines : list line) :
  forall cd cd',
    group_items lines cd = inr cd' ->
    (forall k l x, In (k, l) cd -> In x l -> has_key "p" x = true) ->
    forall k l x, In (k, l) cd' -> In x l -> has_key "p" x = true.
Proof.
  induction lines as [| ln lines IH]; intros cd cd' Hrun Hcd.
  - simpl in Hrun. injection Hrun as <-. exact Hcd.
  - cbn [group_items] in Hrun.
    apply bind_inr in Hrun. destruct Hrun as (item & Hread & Hrun).
    apply bind_inr in Hrun. destruct Hrun as (p & Hp & Hrun).
    apply bind_inr in Hrun. destruct Hrun as (cd1 & Happ & Hrun).
    apply (IH cd1 cd' Hrun).
    assert (Hitem : has_key "p" item = true) by (unfold has_key; now rewrite Hp).
    destruct (defaultdict_append_inr _ _ _ _ Happ) as (_ & Hstep).
    destruct Hstep as [(pre & k0 & l0 & post & -> & _ & ->) | (_ & ->)];
      intros k l x Hin Hx; apply in_app_or in Hin.
    + destruct Hin as [Hin | [Hin | Hin]].
      * apply (Hcd k l x); [apply in_or_app; now left | exact Hx].
      * injection Hin as <- <-. apply in_app_or in Hx.
        destruct Hx as [Hx | [<- | []]]; [| exact Hitem].
        apply (Hcd k0 l0 x); [apply in_elt | exact Hx].
      * apply (Hcd k l x); [apply in_or_app; right; now right | exact Hx].
    + destruct Hin as [Hin | [Hin | []]].
      * now apply (Hcd k l x).
      * injection Hin as <- <-. destruct Hx as [<- | []]. exact Hitem.
Qed.

(** ** The second loop, whatever the groups *)

Lemma comprehension_inr_fields (key : string) (l ys : list pyval) :
  comprehension (fun x => getitem x key) l = inr ys ->
  ys = map (fun x => field x key) l
  /\ forall x, In x l -> getitem x key = inr (field x key).
Proof.
  revert ys. induction l as [| x l IH]; simpl; intros ys Hrun.
  - injection Hrun as <-. split; [reflexivity | intros x []].
  - apply bind_inr in Hrun. destruct Hrun as (y & Hy & Hrun).
    apply bind_inr in Hrun. destruct Hrun as (ys' & Hys & Hrun).
    injection Hrun as <-. destruct (IH _ Hys) as (-> & Hall).
    assert (Hx : getitem x key = inr (field x key))
      by (unfold field; now rewrite Hy).
    split.
    + f_equal. unfold field. now rewrite Hy.
    + intros x' [<- | Hin]; [exact Hx | now apply Hall].
Qed.

Lemma comprehension_inr_Forall2 {A B} (f : A -> result B) (l : list A) (ys : list B) :
  comprehension f l = inr ys -> Forall2 (fun x y => f x = inr y) l ys.
Proof.
  revert ys. induction l as [| x l IH]; simpl; intros ys Hrun.
  - injection Hrun as <-. constructor.
  - apply bind_inr in Hrun. destruct Hrun as (y & Hy & Hrun).
    apply bind_inr in Hrun. destruct Hrun as (ys' & Hys & Hrun).
    injection Hrun as <-. constructor; [exact Hy | now apply IH].
Qed.

Lemma Forall2_map_left {A B C} (R : B -> C -> Prop) (f : A -> B) (l : list A)
  (l' : list C) :
  Forall2 R (map f l) l' -> Forall2 (fun x y => R (f x) y) l l'.
Proof.
  revert l'. induction l as [| x l IH]; simpl; intros l' H; inversion H; subst;
    constructor; auto.
Qed.

Lemma Forall2_In_left {A B} (R : A -> B -> Prop) (l : list A) (l' : list B) (x : A) :
  Forall2 R l l' -> In x l -> exists y, In y l' /\ R x y.
Proof.
  induction 1 as [| a b l l' Hab _ IH]; intros Hin.
  - contradiction.
  - destruct Hin as [<- | Hin].
    + exists b. split; [now left | exact Hab].
    + destruct (IH Hin) as (y & Hy & Hxy). exists y. split; [now right | exact Hxy].
Qed.

Lemma getitem_line_field (obj : pyval) (key : string) (v : pyval) :
  getitem obj key = inr v -> line_field key obj = Some v.
Proof.
  destruct obj; simpl; try discriminate.
  destruct (assoc key d); [now intros [= ->] | discriminate].
Qed.

(** Items whose fields can be read and whose timestamps convert stand for
    records with these fields and times. *)
Lemma items_stand_for_records `{Pandas} (value : list pyval) (index : list datetime) :
  Forall2 (fun x t => to_datetime_s (field x "ts") = inr t) value index ->
  (forall x key, In x value -> In key candle_fields ->
                 getitem x key = inr (field x key)) ->
  exists mine,
    Forall2 stands_for value mine
    /\ map time mine = index
    /\ map open mine = map (fun x => field x "o") value
    /\ map high mine = map (fun x => field x "h") value
    /\ map low mine = map (fun x => field x "l") value
    /\ map close mine = map (fun x => field x "c") value
    /\ map volume mine = map (fun x => field x "v") value.
Proof.
  induction 1 as [| x t value index Hxt _ IH]; intros Hfields.
  - exists []. repeat split. constructor.
  - destruct IH as (mine & Hmine & Ht & Ho & Hh & Hl & Hc & Hv).
    { intros y key Hy. apply Hfields. now right. }
    exists ({| pair_id := field x "p"; ts := field x "ts"; time := t;
               open := field x "o"; high := field x "h"; low := field x "l";
               close := field x "c"; volume := field x "v" |} :: mine).
    cbn [map time open high low close volume].
    rewrite Ht, Ho, Hh, Hl, Hc, Hv. repeat split; trivial.
    constructor; [| exact Hmine].
    unfold stands_for. cbn [pair_id ts time open high low close volume].
    repeat split; trivial;
      apply getitem_line_field, Hfields; simpl; auto 8.
Qed.

(** When the table of a group of keyed lines is built, the lines stand for
    records, and the table is the table of these records. *)
Lemma candle_frame_inr `{Pandas} (value : list pyval) (df : DataFrame datetime) :
  (forall x, In x value -> has_key "p" x = true) ->
  candle_frame value = inr df ->
  exists mine, Forall2 stands_for value mine /\ df = frame_of mine.
Proof.
  unfold candle_frame. intros Hp Hrun.
  apply bind_inr in Hrun. destruct Hrun as (tss & Hts & Hrun).
  apply bind_inr in Hrun. destruct Hrun as (os & Ho & Hrun).
  apply bind_inr in Hrun. destruct Hrun as (hs & Hh & Hrun).
  apply bind_inr in Hrun. destruct Hrun as (ls & Hl & Hrun).
  apply bind_inr in Hrun. destruct Hrun as (cs & Hc & Hrun).
  apply bind_inr in Hrun. destruct Hrun as (vs & Hv & Hrun).
  apply bind_inr in Hrun. destruct Hrun as (index & Hindex & Hrun).
  apply comprehension_inr_fields in Hts, Ho, Hh, Hl, Hc, Hv.
  destruct Hts as (-> & Hts), Ho as (-> & Ho), Hh as (-> & Hh), Hl as (-> & Hl),
           Hc as (-> & Hc), Hv as (-> & Hv).
  unfold pd_DataFrame in Hrun.
  destruct (forallb _ _); [| discriminate]. injection Hrun as <-.
  cbn [map fst snd]. rewrite !as_column_stored.
  unfold to_datetime in Hindex.
  apply comprehension_inr_Forall2, Forall2_map_left in Hindex.
  destruct (items_stand_for_records value index Hindex)
    as (mine & Hmine & Ht & Eo & Eh & El & Ec & Ev).
  { intros x key Hx Hkey. simpl in Hkey.
    destruct Hkey as [<- | [<- | [<- | [<- | [<- | [<- | [<- | []]]]]]]]; auto.
    apply has_key_field. now apply Hp. }
  exists mine. split; [exact Hmine |].
  unfold frame_of. rewrite Ht, Eo, Eh, El, Ec, Ev. reflexivity.
Qed.

Lemma build_frames_inr `{Pandas} (items : pydict (list pyval)) :
  forall return_dict out,
    build_frames items return_dict = inr out ->
    distinct_keys (map fst return_dict ++ map fst items) ->
    exists frames,
      out = return_dict ++ frames
      /\ Forall2 (fun e f => fst e = fst f /\ candle_frame (snd e) = inr (snd f))
                 items frames.
Proof.
  induction items as [| [key value] items IH]; intros rd out Hrun Hdist.
  - simpl in Hrun. injection Hrun as <-. exists []. split; [now rewrite app_nil_r |].
    constructor.
  - cbn [build_frames] in Hrun.
    apply bind_inr in Hrun. destruct Hrun as (df & Hdf & Hrun).
    assert (Hnew : dict_get rd key = None).
    { apply dict_get_None.
      destruct (existsb (fun s => key_eqb s key) (map fst rd)) eqn:Hex; trivial.
      apply existsb_exists in Hex. destruct Hex as (s & Hs & Hsk).
      apply distinct_keys_app in Hdist. destruct Hdist as (_ & _ & Hcross).
      rewrite (Hcross s key Hs) in Hsk; [discriminate | now left]. }
    rewrite (dict_set_new _ _ _ Hnew) in Hrun.
    destruct (IH _ _ Hrun) as (frames & -> & Hframes).
    + rewrite map_app, <- app_assoc. exact Hdist.
    + exists ((key, df) :: frames). split; [now rewrite <- app_assoc |].
      constructor; [split; [reflexivity | exact Hdf] | exact Hframes].
Qed.

(** ** The method on any stream *)

Section AnyStream.

Context `{Network} `{Pandas} `{Interpreter}.
Variables (self : DataService) (pair_ids : list int_or_str).
Variables (start_time end_time : string).
Variables (time_bucket : option string) (max_bytes : option Z).

Local Abbreviation call :=
  (get_ohlcv_candles self pair_ids start_time end_time time_bucket max_bytes).

(** X12. All or nothing, on any stream: when the method returns a
    collection, every line of the body was an object with the seven fields,
    a hashable [p] and a timestamp that converts; the record it stands for
    is one of the records that a series of the collection is the table of,
    the key of that series compares equal to its [p], and its row, as
    pandas stores it in that series, is a row of the series; the keys of
    the collection are distinct (none compares equal to a later one), and
    the series hold as many rows in all as the body has lines.  So no line
    is dropped, skipped or repaired. *)
Theorem success_keeps_every_line (r : Response)
  (out : pydict (DataFrame datetime)) :
  answered_by call r ->
  outcome call = inr out ->
  distinct_keys (map fst out)
  /\ list_sum (map (fun kdf => List.length (df_index (snd kdf))) out)
     = List.length (raw r)
  /\ forall ln, In ln (raw r) ->
       exists item c k mine,
         ln = Json item /\ stands_for item c /\ hashable (pair_id c) = true
         /\ In (k, frame_of mine) out /\ key_eqb k (pair_id c) = true
         /\ In c mine
         /\ In (stored_row mine c) (df_rows (frame_of mine)).
Proof.
  intros Hans Hout.
  rewrite (get_ohlcv_candles_answered _ _ _ _ _ _ _ Hans) in Hout.
  apply bind_inr in Hout. destruct Hout as (cd & Hgroup & Hbuild).
  destruct (group_items_inr _ _ _ Hgroup I) as (Hdist & Hsum & Hlines & _).
  assert (Hkeyed : forall k l x, In (k, l) cd -> In x l -> has_key "p" x = true)
    by (apply (group_items_keyed _ _ _ Hgroup); intros k l x []).
  destruct (build_frames_inr _ _ _ Hbuild Hdist) as (frames & -> & Hframes).
  cbn [app]. split; [| split].
  - replace (map fst frames) with (map fst cd); [exact Hdist |].
    clear -Hframes. induction Hframes as [| e f cd frames (Hk & _) _ IH]; simpl;
      [reflexivity | now rewrite Hk, IH].
  - simpl in Hsum. rewrite <- Hsum.
    clear -Hframes Hkeyed.
    induction Hframes as [| [k l] [kf df] cd frames (_ & Hf) _ IH]; simpl;
      [reflexivity |].
    simpl in Hf. apply candle_frame_inr in Hf;
      [| intros x Hx; apply (Hkeyed k l x); [now left | exact Hx]].
    destruct Hf as (mine & Hmine & ->). cbn [frame_of df_index].
    rewrite length_map, <- (Forall2_length Hmine), IH; trivial.
    intros k0 l0 x Hin Hx. apply (Hkeyed k0 l0 x); [now right | exact Hx].
  - intros ln Hln.
    destruct (Hlines ln Hln) as (item & p & k & l & -> & Hp & Hh & Hkl & Hkp & Hitem).
    destruct (Forall2_In_left _ _ _ _ Hframes Hkl) as ((k' & df) & Hin & Hk & Hdf).
    simpl in Hk, Hdf. subst k'.
    apply candle_frame_inr in Hdf; [| intros x Hx; now apply (Hkeyed k l x)].
    destruct Hdf as (mine & Hmine & ->).
    destruct (Forall2_In_left _ _ _ _ Hmine Hitem) as (c & Hc & Hstands).
    assert (Hpc : pair_id c = p).
    { destruct Hstands as (Hfp & _).
      rewrite (getitem_line_field _ _ _ Hp) in Hfp. now injection Hfp as <-. }
    exists item, c, k, mine. rewrite Hpc.
    repeat split; trivial; try apply Hstands.
    rewrite rows_frame_of. now apply in_map.
Qed.

(** X13. The first line that cannot be keyed decides the outcome: after
    valid candle lines, a line that the reader rejects, that has no [p] or
    whose [p] cannot be hashed makes the method raise that very exception,
    whatever follows it in the body. *)
Theorem first_bad_line_raises (r : Response) (items : list pyval) (ln : line)
  (rest : list line) (e : exn) :
  answered_by call r ->
  raw r = map Json items ++ ln :: rest ->
  forallb valid_candle items = true ->
  line_key ln = inl e ->
  outcome call = inl e.
Proof.
  intros Hans Hraw Hvalid Hkey.
  rewrite (get_ohlcv_candles_answered _ _ _ _ _ _ _ Hans), Hraw.
  destruct (valid_items_decoded items Hvalid) as (ics & -> & Hd).
  rewrite group_items_app, map_map.
  rewrite (group_items_closed ics Hd []) by constructor.
  cbn [bind group_items]. unfold line_key in Hkey.
  destruct (reader_next ln) as [e0 | item]; cbn [bind] in *; [congruence |].
  destruct (getitem item "p") as [e1 | p]; cbn [bind] in *; [congruence |].
  unfold defaultdict_append, defaultdict_getitem.
  destruct (check_hashable p) as [e2 | []]; cbn [bind] in *; [congruence |].
  discriminate.
Qed.

End AnyStream.

(** The rows found under a pair identifier in the collection of the
    specification: the rows of the records of that pair, none when the pair
    does not occur. *)
Lemma rows_under_collection `{Pandas} (cs : list Candle) (k : pyval) :
  Forall (fun k => is_pair_identifier k = true) (map pair_id cs) ->
  is_pair_identifier k = true ->
  rows_under (inr (collection cs)) k
  = map (stored_row (filter (in_series k) cs)) (filter (in_series k) cs).
Proof.
  intros Hcs Hk. unfold rows_under.
  pose proof Hcs as Hall. rewrite Forall_forall in Hall.
  destruct (existsb (fun p => key_eqb k p) (map pair_id cs)) eqn:Hex.
  - apply existsb_exists in Hex. destruct Hex as (p & Hp & Hkp).
    apply key_eqb_eq in Hkp; auto. subst p.
    rewrite (collection_get cs k Hcs Hp). apply rows_frame_of.
  - assert (Hnone : filter (in_series k) cs = []).
    { apply filter_none. intros c Hc. unfold in_series.
      destruct (key_eqb k (pair_id c)) eqn:Hkc; trivial.
      assert (Ht : existsb (fun p => key_eqb k p) (map pair_id cs) = true)
        by (apply existsb_exists; exists (pair_id c); split;
            [now apply in_map | exact Hkc]).
      congruence. }
    rewrite Hnone.
    assert (Hget : dict_get (collection cs) k = None).
    { apply dict_get_None. rewrite collection_keys.
      destruct (existsb (fun s => key_eqb s k) (first_seen_from [] (map pair_id cs)))
        eqn:Hseen; trivial.
      apply existsb_exists in Hseen. destruct Hseen as (s & Hs & Hsk).
      apply first_seen_from_unseen in Hs. destruct Hs as (_ & Hs).
      apply key_eqb_eq in Hsk; auto. subst s.
      assert (Ht : existsb (fun p => key_eqb k p) (map pair_id cs) = true)
        by (apply existsb_exists; exists k; split;
            [exact Hs | now apply key_eqb_refl]).
      congruence. }
    now rewrite Hget.
Qed.

Lemma series_of_app `{Pandas} (k : pyval) (cs1 cs2 : list Candle) :
  series_of k (cs1 ++ cs2) = series_of k cs1 ++ series_of k cs2.
Proof.
  apply filter_app.
Qed.

Lemma candle_stream_app `{Pandas} (lines1 lines2 : list line) (items1 items2 : list pyval)
  (cs1 cs2 : list Candle) :
  candle_stream lines1 items1 cs1 -> candle_stream lines2 items2 cs2 ->
  candle_stream (lines1 ++ lines2) (items1 ++ items2) (cs1 ++ cs2).
Proof.
  intros (-> & Hs1 & Hv1) (-> & Hs2 & Hv2). split; [| split].
  - now rewrite map_app.
  - now apply Forall2_app.
  - now rewrite forallb_app, Hv1, Hv2.
Qed.

Section Splitting.

Variables (N N1 N2 : Network) (P : Pandas) (Py : Interpreter).
Variables (self : DataService) (pair_ids : list int_or_str).
Variables (start_time mid_time end_time : string).
Variables (time_bucket : option string) (max_bytes : option Z).

Local Abbreviation whole :=
  (@get_ohlcv_candles N P Py self pair_ids start_time end_time time_bucket max_bytes).
Local Abbreviation first_part :=
  (@get_ohlcv_candles N1 P Py self pair_ids start_time mid_time time_bucket max_bytes).
Local Abbreviation second_part :=
  (@get_ohlcv_candles N2 P Py self pair_ids mid_time end_time time_bucket max_bytes).

(** X14. Reading a body is additive in the records, not in the stored
    cells: when the body answered for a whole time range is the body
    answered for its first part followed by the body answered for its
    second part, both valid, the call for the whole range succeeds; the
    series it gives for any pair is the table of the records of the first
    part followed by the records of the second part, so its timestamps are
    those of the first part followed by those of the second part (a pair
    absent from one part contributing none), while its cells are stored
    under the dtypes of the joined columns, which need not be those of the
    parts. *)
Theorem series_of_joined_bodies (r r1 r2 : Response) (items1 items2 : list pyval)
  (cs1 cs2 : list Candle) :
  @answered_by N _ whole r ->
  @answered_by N1 _ first_part r1 ->
  @answered_by N2 _ second_part r2 ->
  candle_stream (raw r1) items1 cs1 ->
  candle_stream (raw r2) items2 cs2 ->
  raw r = raw r1 ++ raw r2 ->
  (exists out, outcome whole = inr out)
  /\ forall k, is_pair_identifier k = true ->
       let mine1 := series_of k cs1 in
       let mine2 := series_of k cs2 in
       rows_under (outcome first_part) k = map (stored_row mine1) mine1
       /\ rows_under (outcome second_part) k = map (stored_row mine2) mine2
       /\ rows_under (outcome whole) k
          = map (stored_row (mine1 ++ mine2)) (mine1 ++ mine2)
       /\ map fst (rows_under (outcome whole) k)
          = map fst (rows_under (outcome first_part) k)
            ++ map fst (rows_under (outcome second_part) k).
Proof.
  intros Hans Hans1 Hans2 Hv1 Hv2 Hraw.
  assert (Hv : candle_stream (raw r) (items1 ++ items2) (cs1 ++ cs2))
    by (rewrite Hraw; now apply candle_stream_app).
  destruct (@candle_stream_collection N P Py _ _ _ _ _ _ _ _ _ Hans Hv) as (Hpid & Hout).
  destruct (@candle_stream_collection N1 P Py _ _ _ _ _ _ _ _ _ Hans1 Hv1)
    as (Hpid1 & Hout1).
  destruct (@candle_stream_collection N2 P Py _ _ _ _ _ _ _ _ _ Hans2 Hv2)
    as (Hpid2 & Hout2).
  split; [eexists; exact Hout |].
  intros k Hk. cbv zeta. rewrite Hout, Hout1, Hout2.
  rewrite !rows_under_collection by assumption.
  rewrite !series_of_in_series by assumption.
  rewrite series_of_app.
  split; [reflexivity |]. split; [reflexivity |]. split; [reflexivity |].
  rewrite !map_map, map_app. reflexivity.
Qed.

End Splitting.

Section Arguments.

Variables (N1 N2 : Network) (P : Pandas) (Py : Interpreter).
Variables (self1 self2 : DataService) (pair_ids1 pair_ids2 : list int_or_str).
Variables (start_time1 end_time1 start_time2 end_time2 : string).
Variables (time_bucket1 time_bucket2 : option string).
Variables (max_bytes1 max_bytes2 : option Z).

(** X15. The arguments only shape the request: nothing is filtered,
    bounded or checked locally.  Two calls with any base URLs, pair
    identifiers, time ranges, buckets and byte bounds that are answered by
    responses with the same body give the same outcome, so a series of a
    pair that was not asked for is returned like any other, and
    [max_bytes] is never enforced on what is read. *)
Theorem arguments_only_shape_the_request (r1 r2 : Response) :
  @answered_by N1 _
    (@get_ohlcv_candles N1 P Py self1 pair_ids1 start_time1 end_time1
       time_bucket1 max_bytes1) r1 ->
  @answered_by N2 _
    (@get_ohlcv_candles N2 P Py self2 pair_ids2 start_time2 end_time2
       time_bucket2 max_bytes2) r2 ->
  raw r1 = raw r2 ->
  outcome (@get_ohlcv_candles N1 P Py self1 pair_ids1 start_time1 end_time1
             time_bucket1 max_bytes1)
  = outcome (@get_ohlcv_candles N2 P Py self2 pair_ids2 start_time2 end_time2
               time_bucket2 max_bytes2).
Proof.
  intros H1 H2 Hraw.
  rewrite (@get_ohlcv_candles_answered N1 P Py _ _ _ _ _ _ _ H1).
  rewrite (@get_ohlcv_candles_answered N2 P Py _ _ _ _ _ _ _ H2).
  now rewrite Hraw.
Qed.

End Arguments.

(** ** One pair among the others *)

Lemma decode_filter_pair `{Pandas} (k : pyval) (ics : list (pyval * Candle)) :
  Decoded ics ->
  comprehension decode (filter (shares_pair_id k) (map fst ics))
  = inr (filter (in_series k) (map snd ics)).
Proof.
  induction 1 as [| ic ics (Hd & _) _ IH]; simpl.
  - reflexivity.
  - unfold shares_pair_id at 1, in_series at 1.
    destruct (decode_fields _ _ Hd) as (-> & _).
    destruct (key_eqb k (pair_id (snd ic))); [| exact IH].
    simpl. rewrite Hd. cbn [bind]. rewrite IH. reflexivity.
Qed.

Section OnePair.

Variables (N1 N2 : Network) (P : Pandas) (Py : Interpreter).
Variables (self : DataService) (pair_ids : list int_or_str).
Variables (start_time end_time : string).
Variables (time_bucket : option string) (max_bytes : option Z).

Local Abbreviation call1 :=
  (@get_ohlcv_candles N1 P Py self pair_ids start_time end_time time_bucket max_bytes).
Local Abbreviation call2 :=
  (@get_ohlcv_candles N2 P Py self pair_ids start_time end_time time_bucket max_bytes).

(** X16. The series of a pair depends on the lines of that pair alone: two
    valid bodies in which the lines carrying the pair identifier [k] are
    the same, in the same order, give the same rows under [k], whatever
    lines of other pairs they hold and however these are interleaved. *)
Theorem series_depends_on_its_own_lines (r1 r2 : Response)
  (items1 items2 : list pyval) (k : pyval) :
  @answered_by N1 _ call1 r1 ->
  @answered_by N2 _ call2 r2 ->
  valid_stream (raw r1) items1 ->
  valid_stream (raw r2) items2 ->
  is_pair_identifier k = true ->
  filter (shares_pair_id k) items1 = filter (shares_pair_id k) items2 ->
  rows_under (outcome call1) k = rows_under (outcome call2) k.
Proof.
  intros H1 H2 Hv1 Hv2 Hk Hsame.
  destruct (@valid_stream_collection N1 P Py _ _ _ _ _ _ _ _ H1 Hv1)
    as (ics1 & -> & Hd1 & _ & Hpid1 & ->).
  destruct (@valid_stream_collection N2 P Py _ _ _ _ _ _ _ _ H2 Hv2)
    as (ics2 & -> & Hd2 & _ & Hpid2 & ->).
  rewrite !rows_under_collection by assumption.
  pose proof (decode_filter_pair k ics1 Hd1) as E1.
  pose proof (decode_filter_pair k ics2 Hd2) as E2.
  rewrite Hsame, E2 in E1. injection E1 as <-. reflexivity.
Qed.

End OnePair.

(** * The further theorems at work *)

Lemma exchanges_table_rows_witness :
  exists df,
    outcome (@get_exchange_data (answers exchanges_response) pandas_ns svc "ethereum"
               (Some "true"%string))
    = inr df
    /\ df_index df = [PInt 22; PInt 7]
    /\ df_data df = [("slug"%string, [PStr "uniswap-v3"; PStr "idle"]);
                     ("volume"%string, [PInt 900; PInt 0])]
    /\ List.length (df_rows df) = List.length two_exchanges
    /\ forall n exc, nth_error two_exchanges n = Some exc ->
         exists id slug volume,
           line_field "exchange_id" exc = Some id
           /\ line_field "exchange_slug" exc = Some slug
           /\ line_field "usd_volume_30d" exc = Some volume
           /\ nth_error (df_rows df) n = Some (id, [slug; volume]).
Proof.
  apply (@exchanges_table_rows (answers exchanges_response) pandas_ns svc "ethereum"
           (Some "true"%string) exchanges_response
           (PDict [("exchanges", PList two_exchanges)]%string) two_exchanges
           [PInt 22; PInt 7] [PStr "uniswap-v3"; PStr "idle"] [PInt 900; PInt 0]).
  - eexists. split; reflexivity.
  - reflexivity.
  - reflexivity.
  - repeat constructor.
  - repeat constructor.
  - repeat constructor.
Defined.

Lemma exchanges_missing_key_witness :
  outcome (@get_exchange_data
             (answers (json_response
                         (PDict [("exchanges", PList exchanges_lacking_volume)]%string))) pandas_ns
             svc "ethereum" None)
  = inl (KeyError "usd_volume_30d").
Proof.
  apply (@exchanges_missing_key
           (answers (json_response
                       (PDict [("exchanges", PList exchanges_lacking_volume)]%string))) pandas_ns
           svc "ethereum" None
           (json_response (PDict [("exchanges", PList exchanges_lacking_volume)]%string))
           (PDict [("exchanges", PList exchanges_lacking_volume)]%string)
           exchanges_lacking_volume "usd_volume_30d").
  - eexists. split; reflexivity.
  - reflexivity.
  - reflexivity.
  - reflexivity.
  - reflexivity.
Defined.

Lemma exchanges_early_failure_witness :
  outcome (@get_exchange_data (answers (json_response (PDict error_object))) pandas_ns
             svc "ethereum" None)
  = inl (KeyError "exchanges").
Proof.
  eapply (@exchanges_early_failure (answers (json_response (PDict error_object))) pandas_ns
            svc "ethereum" None).
  - reflexivity.
  - reflexivity.
Defined.

Lemma pairs_table_rows_witness :
  exists df,
    outcome (@get_pairs_data (answers pairs_response) pandas_ns cpython_default svc
               ["uniswap-v3"%string] ["ethereum"%string] (Some 2) None None)
    = inr df
    /\ List.length (df_rows df) = List.length three_pairs
    /\ df_index df = [PInt 1; PInt 2; PInt 3]
    /\ df_data df
       = [("pair_slug"%string, [PStr "eth-usdc"; PStr "wbtc-eth"; PStr "dai-usdc"]);
          ("pair_exchange"%string,
           [PStr "uniswap-v3"; PStr "uniswap-v3"; PStr "uniswap-v3"]);
          ("usd_vol_24h"%string, [PInt 10; PInt 10; PInt 10]);
          ("pair_tvl"%string, [PInt 1000; PInt 1000; PInt 1000])]
    /\ forall n pair, nth_error three_pairs n = Some pair ->
         exists id slug exchange volume tvl,
           line_field "pair_id" pair = Some id
           /\ line_field "pair_slug" pair = Some slug
           /\ line_field "exchange_slug" pair = Some exchange
           /\ line_field "usd_volume_24h" pair = Some volume
           /\ line_field "pair_tvl" pair = Some tvl
           /\ nth_error (df_rows df) n = Some (id, [slug; exchange; volume; tvl]).
Proof.
  apply (@pairs_table_rows (answers pairs_response) pandas_ns cpython_default svc
           ["uniswap-v3"%string] ["ethereum"%string] (Some 2) None None pairs_response
           (PDict [("results", PList three_pairs)]%string) three_pairs
           [PInt 1; PInt 2; PInt 3]
           [PStr "eth-usdc"; PStr "wbtc-eth"; PStr "dai-usdc"]
           [PStr "uniswap-v3"; PStr "uniswap-v3"; PStr "uniswap-v3"]
           [PInt 10; PInt 10; PInt 10] [PInt 1000; PInt 1000; PInt 1000]).
  - eexists. split; reflexivity.
  - reflexivity.
  - reflexivity.
  - repeat constructor.
  - repeat constructor.
  - repeat constructor.
  - repeat constructor.
  - repeat constructor.
Defined.

Lemma pairs_missing_key_witness :
  outcome (@get_pairs_data
             (answers (json_response (PDict [("results", PList pairs_lacking_slug)]%string))) pandas_ns cpython_default
             svc ["uniswap-v3"%string] ["ethereum"%string] None None None)
  = inl (KeyError "pair_slug").
Proof.
  apply (@pairs_missing_key
           (answers (json_response (PDict [("results", PList pairs_lacking_slug)]%string))) pandas_ns cpython_default
           svc ["uniswap-v3"%string] ["ethereum"%string] None None None
           (json_response (PDict [("results", PList pairs_lacking_slug)]%string))
           (PDict [("results", PList pairs_lacking_slug)]%string)
           pairs_lacking_slug "pair_slug").
  - eexists. split; reflexivity.
  - reflexivity.
  - reflexivity.
  - reflexivity.
  - reflexivity.
Defined.

Lemma pairs_early_failure_witness :
  outcome (@get_pairs_data offline pandas_ns cpython_default svc ["uniswap-v3"%string] ["ethereum"%string]
             None None (Some "unfiltered"%string))
  = inl (RequestException "ConnectionError").
Proof.
  eapply (@pairs_early_failure offline pandas_ns cpython_default svc ["uniswap-v3"%string] ["ethereum"%string]
            None None (Some "unfiltered"%string)).
  - reflexivity.
  - reflexivity.
Defined.

Lemma chains_missing_key_witness :
  outcome (@get_chain_data (answers (json_response (PList chains_lacking_slug))) pandas_ns svc)
  = inl (KeyError "chain_slug").
Proof.
  apply (@chains_missing_key (answers (json_response (PList chains_lacking_slug))) pandas_ns svc
           (json_response (PList chains_lacking_slug)) chains_lacking_slug "chain_slug").
  - eexists. split; reflexivity.
  - reflexivity.
  - reflexivity.
  - reflexivity.
Defined.

Lemma chains_object_response_witness :
  exists what,
    outcome (@get_chain_data (answers (json_response (PDict error_object))) pandas_ns svc)
    = inl (TypeError what).
Proof.
  apply (@chains_object_response (answers (json_response (PDict error_object))) pandas_ns svc
           (json_response (PDict error_object)) error_object).
  - eexists. split; reflexivity.
  - reflexivity.
Defined.

Lemma success_keeps_every_line_witness :
  distinct_keys (map fst one_three_ways_collection)
  /\ list_sum (map (fun kdf => List.length (df_index (snd kdf))) one_three_ways_collection)
     = List.length (raw (body 200 (map Json one_three_ways)))
  /\ forall ln, In ln (raw (body 200 (map Json one_three_ways))) ->
       exists item c k mine,
         ln = Json item /\ @stands_for pandas_ns item c /\ hashable (pair_id c) = true
         /\ In (k, @frame_of pandas_ns mine) one_three_ways_collection
         /\ key_eqb k (pair_id c) = true
         /\ In c mine
         /\ In (stored_row mine c) (df_rows (frame_of mine)).
Proof.
  apply (@success_keeps_every_line (answers (body 200 (map Json one_three_ways)))
           pandas_ns cpython_default
           svc [IdInt 1] "2024-01-01" "2024-01-02" None None
           (body 200 (map Json one_three_ways)) one_three_ways_collection).
  - eexists. split; reflexivity.
  - reflexivity.
Defined.

Lemma first_bad_line_raises_witness :
  outcome (@get_ohlcv_candles (answers (body 200 stream_with_bad_line)) pandas_ns cpython_default
             svc [IdInt 1] "2024-01-01" "2024-01-02" None None)
  = inl InvalidLineError.
Proof.
  apply (@first_bad_line_raises (answers (body 200 stream_with_bad_line)) pandas_ns cpython_default
           svc [IdInt 1] "2024-01-01" "2024-01-02" None None
           (body 200 stream_with_bad_line) [candle (PInt 1) 60 5 7] Malformed
           [Json (PList [])] InvalidLineError).
  - eexists. split; reflexivity.
  - reflexivity.
  - reflexivity.
  - reflexivity.
Defined.

Lemma series_of_joined_bodies_witness :
  (exists out,
     outcome (@get_ohlcv_candles
                (answers (body 200 (map Json (three_candles ++ mixed_candles))))
                pandas_ns cpython_default
                svc [IdInt 1] "2024-01-01" "2024-01-03" None None) = inr out)
  /\ forall k, is_pair_identifier k = true ->
       let mine1 := series_of k three_records in
       let mine2 := series_of k mixed_records in
       rows_under
         (outcome (@get_ohlcv_candles (answers (body 200 (map Json three_candles)))
                     pandas_ns cpython_default svc [IdInt 1]
                     "2024-01-01" "2024-01-02" None None)) k
       = map (stored_row mine1) mine1
       /\ rows_under
            (outcome (@get_ohlcv_candles (answers (body 200 (map Json mixed_candles)))
                        pandas_ns cpython_default svc [IdInt 1]
                        "2024-01-02" "2024-01-03" None None)) k
          = map (stored_row mine2) mine2
       /\ rows_under
            (outcome (@get_ohlcv_candles
                        (answers (body 200 (map Json (three_candles ++ mixed_candles))))
                        pandas_ns cpython_default svc [IdInt 1]
                        "2024-01-01" "2024-01-03" None None)) k
          = map (stored_row (mine1 ++ mine2)) (mine1 ++ mine2)
       /\ map fst (rows_under
                     (outcome (@get_ohlcv_candles
                                 (answers (body 200 (map Json (three_candles ++ mixed_candles))))
                                 pandas_ns cpython_default svc [IdInt 1]
                                 "2024-01-01" "2024-01-03" None None)) k)
          = map fst (rows_under
                       (outcome (@get_ohlcv_candles
                                   (answers (body 200 (map Json three_candles)))
                                   pandas_ns cpython_default svc [IdInt 1]
                                   "2024-01-01" "2024-01-02" None None)) k)
            ++ map fst (rows_under
                          (outcome (@get_ohlcv_candles
                                      (answers (body 200 (map Json mixed_candles)))
                                      pandas_ns cpython_default svc [IdInt 1]
                                      "2024-01-02" "2024-01-03" None None)) k).
Proof.
  apply (series_of_joined_bodies
           (answers (body 200 (map Json (three_candles ++ mixed_candles))))
           (answers (body 200 (map Json three_candles)))
           (answers (body 200 (map Json mixed_candles))) pandas_ns cpython_default
           svc [IdInt 1] "2024-01-01" "2024-01-02" "2024-01-03" None None
           (body 200 (map Json (three_candles ++ mixed_candles)))
           (body 200 (map Json three_candles)) (body 200 (map Json mixed_candles))
           three_candles mixed_candles three_records mixed_records).
  - eexists. split; reflexivity.
  - eexists. split; reflexivity.
  - eexists. split; reflexivity.
  - split; [reflexivity |]. split; [| reflexivity]. repeat constructor.
  - split; [reflexivity |]. split; [| reflexivity]. repeat constructor.
  - reflexivity.
Defined.

Lemma arguments_only_shape_the_request_witness :
  outcome (@get_ohlcv_candles (answers (body 200 (map Json three_candles))) pandas_ns cpython_default
             svc [IdInt 1; IdInt 2] "2024-01-01" "2024-01-02" None None)
  = outcome (@get_ohlcv_candles (answers (body 200 (map Json three_candles))) pandas_ns
               cpython_default
               (DataService_init (Some "https://example.org/"%string)) [IdInt 9]
               "2023-01-01" "2023-01-02" (Some "1h"%string) (Some 10)).
Proof.
  apply (arguments_only_shape_the_request
           (answers (body 200 (map Json three_candles)))
           (answers (body 200 (map Json three_candles))) pandas_ns cpython_default
           svc (DataService_init (Some "https://example.org/"%string))
           [IdInt 1; IdInt 2] [IdInt 9]
           "2024-01-01" "2024-01-02" "2023-01-01" "2023-01-02"
           None (Some "1h"%string) None (Some 10)
           (body 200 (map Json three_candles)) (body 200 (map Json three_candles))).
  - eexists. split; reflexivity.
  - eexists. split; reflexivity.
  - reflexivity.
Defined.

Lemma series_depends_on_its_own_lines_witness :
  rows_under
    (outcome (@get_ohlcv_candles (answers (body 200 (map Json three_candles))) pandas_ns cpython_default
                svc [IdInt 2] "2024-01-01" "2024-01-02" None None)) (PInt 2)
  = rows_under
      (outcome (@get_ohlcv_candles (answers (body 200 (map Json pair_two_among_others)))
                  pandas_ns cpython_default svc [IdInt 2] "2024-01-01" "2024-01-02" None None)) (PInt 2).
Proof.
  apply (series_depends_on_its_own_lines
           (answers (body 200 (map Json three_candles)))
           (answers (body 200 (map Json pair_two_among_others))) pandas_ns cpython_default
           svc [IdInt 2] "2024-01-01" "2024-01-02" None None
           (body 200 (map Json three_candles))
           (body 200 (map Json pair_two_among_others))
           three_candles pair_two_among_others (PInt 2)).
  - eexists. split; reflexivity.
  - eexists. split; reflexivity.
  - split; reflexivity.
  - split; reflexivity.
  - reflexivity.
  - reflexivity.
Defined.

Lemma exchanges_request_witness :
  requests_issued (@get_exchange_data offline pandas_ns svc "ethereum" (Some "false"%string))
  = [GET "https://tradingstrategy.ai/api/exchanges?chain_slug=ethereum&sort=usd_volume_30d&direction=desc&filter_zero_volume=false"
         false]
  /\ forall chain' flag',
       lacks_char "&" "ethereum" = true -> lacks_char "&" chain' = true ->
       requests_issued (@get_exchange_data offline pandas_ns svc "ethereum" (Some "false"%string))
       = requests_issued (@get_exchange_data offline pandas_ns svc chain' (Some flag')) ->
       "ethereum"%string = chain' /\ "false"%string = flag'.
Proof.
  split.
  - exact (proj1 (@exchanges_request offline pandas_ns svc "ethereum" (Some "false"%string))).
  - exact (proj1 (proj2 (@exchanges_request offline pandas_ns svc "ethereum" (Some "false"%string)))).
Defined.

Lemma pairs_request_witness :
  requests_issued (@get_pairs_data offline pandas_ns cpython_default svc
                     ["uniswap-v3"; "sushi"]%string
                     ["ethereum"]%string None None (Some "unfiltered"%string))
  = [GET "https://tradingstrategy.ai/api/pairs?exchange_slugs=uniswap-v3,sushi&chain_slugs=ethereum&page=0&page_size=5&sort=volume_30d&direction=desc&filter=unfiltered&eligible_only=true&format=json"
         false].
Proof.
  apply (proj1 (@pairs_request offline pandas_ns cpython_default svc
                  ["uniswap-v3"; "sushi"]%string
                  ["ethereum"]%string None None (Some "unfiltered"%string))).
  reflexivity.
Defined.

Lemma chains_request_and_early_failure_witness :
  requests_issued (@get_chain_data offline pandas_ns svc)
  = [GET "https://tradingstrategy.ai/api/chains" false]
  /\ outcome (@get_chain_data offline pandas_ns svc) = inl (RequestException "ConnectionError").
Proof.
  split.
  - exact (proj1 (@chains_request_and_early_failure offline pandas_ns svc)).
  - apply (proj2 (@chains_request_and_early_failure offline pandas_ns svc)). reflexivity.
Defined.
